(** * fastcvai backend: a shallow embedding of the analysis pipeline

    The development follows the layout of [backend/app]:
    - [Py]: the few pieces of the Python runtime the code relies on
      (exceptions, [str] methods, [os.path]);
    - [Json]: decoded JSON values and the [dict] operations used on them;
    - [OpenAIUtils]: [openai_utils.py] ([analyze_cv],
      [generate_cv_improvement_suggestions]);
    - [Utils]: [utils.py] (text extraction, temporary files);
    - [Crud]: [crud.py] over the table declared in [database.py];
    - [Main]: the [/api/analyze-cv] endpoint of [main.py].

    Conventions.  A Python [str] is a Rocq [string], one character per code
    point; code points above U+00FF only occur in fixed message text that
    the code never inspects and are spelled out in UTF-8.  A call that may
    raise returns a [result]; calls into third-party libraries (the
    language-model client, [json], [mammoth], [python-docx], [pdfplumber],
    [pytesseract], the file system), [print] on standard output and the
    wording of the database driver's exceptions are fields of an
    environment record, so every theorem holds for all behaviours of those
    libraries.  The database is SQLite, the default of [database.py]. *)

From Stdlib Require Import String Ascii List ZArith NArith Bool Lia Permutation
  Sorted.
Import ListNotations.
Open Scope list_scope.
Open Scope string_scope.

(* ===================================================================== *)
(** * The Python runtime *)
(* ===================================================================== *)

Module Py.

(** Exception classes that occur in the code, with the part of the class
    hierarchy that [except] clauses observe: [json.JSONDecodeError],
    [UnicodeDecodeError] and [UnicodeEncodeError] derive from
    [ValueError]; [OverflowError] does not. *)
Inductive exn_class : Type :=
| ValueError
| JSONDecodeError
| UnicodeDecodeError
| UnicodeEncodeError
| OverflowError
| TypeError
| KeyError
| AttributeError
| OSError
| IntegrityError
| OtherException.

(** An exception object: its class and [str(e)]. *)
Record exn : Type := mkExn { exn_cls : exn_class; str : string }.

Definition exn_class_eqb (a b : exn_class) : bool :=
  match a, b with
  | ValueError, ValueError | JSONDecodeError, JSONDecodeError
  | UnicodeDecodeError, UnicodeDecodeError
  | UnicodeEncodeError, UnicodeEncodeError | OverflowError, OverflowError
  | TypeError, TypeError
  | KeyError, KeyError | AttributeError, AttributeError
  | OSError, OSError | IntegrityError, IntegrityError
  | OtherException, OtherException => true
  | _, _ => false
  end.

(** [isinstance(e, cls)] for the two classes named in [except] clauses. *)
Definition is_JSONDecodeError (e : exn) : bool :=
  exn_class_eqb (exn_cls e) JSONDecodeError.

Definition is_ValueError (e : exn) : bool :=
  match exn_cls e with
  | ValueError | JSONDecodeError | UnicodeDecodeError | UnicodeEncodeError =>
      true
  | _ => false
  end.

(** Outcome of a call: a value or a raised exception. *)
Inductive result (A : Type) : Type :=
| Return (a : A)
| Raise (e : exn).
Arguments Return {A} a.
Arguments Raise {A} e.

Definition bind {A B : Type} (r : result A) (k : A -> result B) : result B :=
  match r with
  | Return a => k a
  | Raise e => Raise e
  end.

(** [try: body / except Exception as e: handler e]. *)
Definition try_except {A : Type} (body : result A) (handler : exn -> result A)
  : result A :=
  match body with
  | Return a => Return a
  | Raise e => handler e
  end.

Definition returns {A : Type} (r : result A) : Prop := exists a, r = Return a.

(** A [for] loop whose body may raise, threading the loop state. *)
Fixpoint for_each {A S : Type} (xs : list A) (body : A -> S -> result S) (s : S)
  : result S :=
  match xs with
  | [] => Return s
  | x :: xs' => bind (body x s) (for_each xs' body)
  end.

(** ** [str] methods *)

(** [c.isspace()] on code points below 256. *)
Definition isspace (c : ascii) : bool :=
  let n := N_of_ascii c in
  ((9 <=? n) && (n <=? 13) || (28 <=? n) && (n <=? 32)
   || (n =? 133) || (n =? 160))%N.

Fixpoint lstrip (s : string) : string :=
  match s with
  | EmptyString => EmptyString
  | String c r => if isspace c then lstrip r else s
  end.

Fixpoint rstrip (s : string) : string :=
  match s with
  | EmptyString => EmptyString
  | String c r =>
      match rstrip r with
      | EmptyString => if isspace c then EmptyString else String c EmptyString
      | r' => String c r'
      end
  end.

Definition strip (s : string) : string := rstrip (lstrip s).

(** Truth value of a [str]: non-empty. *)
Definition truthy (s : string) : bool :=
  match s with EmptyString => false | _ => true end.

(** A string whose first character is not white space. *)
Definition starts_visible (s : string) : bool :=
  match s with
  | EmptyString => false
  | String c _ => negb (isspace c)
  end.

Definition startswith (p s : string) : bool := String.prefix p s.

Definition endswith (p s : string) : bool :=
  let lp := String.length p in
  let ls := String.length s in
  (lp <=? ls)%nat && (String.substring (ls - lp) lp s =? p).

(** [s[n:]] and [s[:-n]] (for [n > 0]). *)
Definition slice_from (n : nat) (s : string) : string :=
  String.substring n (String.length s - n) s.

Definition slice_drop_last (n : nat) (s : string) : string :=
  String.substring 0 (String.length s - n) s.

(** [s[:n]]. *)
Definition slice_to (n : nat) (s : string) : string :=
  String.substring 0 n s.

(** [sep.join(parts)]. *)
Definition join (sep : string) (parts : list string) : string :=
  String.concat sep parts.

(** [needle in haystack] for two [str]. *)
Fixpoint contains (needle hay : string) : bool :=
  String.prefix needle hay
  || match hay with
     | EmptyString => false
     | String _ r => contains needle r
     end.

(** [c.lower()] on code points below 256: the ASCII capitals and the
    Latin-1 capitals U+00C0..U+00DE other than the multiplication sign. *)
Definition lower_char (c : ascii) : ascii :=
  let n := N_of_ascii c in
  if ((65 <=? n) && (n <=? 90)
      || (192 <=? n) && (n <=? 222) && negb (n =? 215))%N
  then ascii_of_N (n + 32) else c.

Fixpoint lower (s : string) : string :=
  match s with
  | EmptyString => EmptyString
  | String c r => String (lower_char c) (lower r)
  end.

(** The double quote, for message text that contains it. *)
Definition dq : string := String (ascii_of_nat 34) EmptyString.
Definition quoted (s : string) : string := dq ++ s ++ dq.

(** U+26A0 U+FE0F, the warning sign that starts the sentinel strings. *)
Definition warning_sign : string :=
  String (ascii_of_nat 226) (String (ascii_of_nat 154) (String (ascii_of_nat 160)
  (String (ascii_of_nat 239) (String (ascii_of_nat 184)
  (String (ascii_of_nat 143) EmptyString))))).

(** ** [os.path] (POSIX flavour) *)

(** Index of the last occurrence of [c], as [rfind] gives it. *)
Fixpoint rfind (c : ascii) (s : string) : option nat :=
  match s with
  | EmptyString => None
  | String d r =>
      match rfind c r with
      | Some i => Some (S i)
      | None => if Ascii.eqb c d then Some 0 else None
      end
  end.

(** Is some character of [s] at an index in [[lo, hi)] different from [c]?
    This is the leading-dots scan of [genericpath._splitext]. *)
Fixpoint other_char_between (c : ascii) (lo hi : nat) (s : string) : bool :=
  match s with
  | EmptyString => false
  | String d r =>
      match hi with
      | O => false
      | S hi' =>
          match lo with
          | O => negb (Ascii.eqb c d) || other_char_between c 0 hi' r
          | S lo' => other_char_between c lo' hi' r
          end
      end
  end.

(** [os.path.splitext(p)]: the extension starts at the last dot, provided
    that dot comes after the last separator and after a character of the
    file name that is not a dot. *)
Definition splitext (p : string) : string * string :=
  let filenameIndex :=
    match rfind "/"%char p with Some i => S i | None => 0 end in
  match rfind "."%char p with
  | Some dotIndex =>
      if (filenameIndex <=? dotIndex)%nat
         && other_char_between "."%char filenameIndex dotIndex p
      then (slice_to dotIndex p, slice_from dotIndex p)
      else (p, EmptyString)
  | None => (p, EmptyString)
  end.

(** [os.path.basename(p)]. *)
Definition basename (p : string) : string :=
  match rfind "/"%char p with
  | Some i => slice_from (S i) p
  | None => p
  end.

End Py.

Notation "x <- c1 ;; c2" := (Py.bind c1 (fun x => c2))
  (at level 61, c1 at next level, right associativity).

Import Py.

(* ===================================================================== *)
(** * Decoded JSON values *)
(* ===================================================================== *)

Module Json.

(** What [json.loads] produces.  A float is kept as the text of its
    literal: the code never computes with one. *)
#[warnings="-register-all"]
Inductive json : Type :=
| JNull
| JBool (b : bool)
| JInt (z : Z)
| JFloat (literal : string)
| JStr (s : string)
| JList (items : list json)
| JDict (entries : list (string * json)).

Definition is_dict (v : json) : bool :=
  match v with JDict _ => true | _ => false end.

(** A [dict] with [str] keys, in insertion order. *)
Definition dict : Type := list (string * json).

Fixpoint dict_lookup (key : string) (d : dict) : option json :=
  match d with
  | [] => None
  | (k, v) :: d' => if k =? key then Some v else dict_lookup key d'
  end.

(** [key in d]. *)
Definition dict_contains (key : string) (d : dict) : bool :=
  match dict_lookup key d with Some _ => true | None => false end.

(** [d[key] = v]: overwrite in place, or append a new entry. *)
Fixpoint dict_setitem (key : string) (v : json) (d : dict) : dict :=
  match d with
  | [] => [(key, v)]
  | (k, w) :: d' =>
      if k =? key then (k, v) :: d' else (k, w) :: dict_setitem key v d'
  end.

(** [d.get(key, default)]. *)
Definition dict_get (key : string) (default : json) (d : dict) : json :=
  match dict_lookup key d with Some v => v | None => default end.

(** The operations the code applies to the decoded value; on anything
    but a [dict] the interpreter raises (or, for [in], looks for an equal
    element of a list or a substring of a string). *)
Inductive operation : Type := OpContains | OpSetItem | OpGetItem | OpGet.

(** Wording of the interpreter's error for an operation on a value that
    does not support it; it differs between Python versions. *)
Definition error_text : Type := operation -> json -> string.

Definition is_str (key : string) (v : json) : bool :=
  match v with JStr s => s =? key | _ => false end.

Definition py_contains (msg : error_text) (key : string) (v : json)
  : result bool :=
  match v with
  | JDict d => Return (dict_contains key d)
  | JList items => Return (existsb (is_str key) items)
  | JStr s => Return (contains key s)
  | _ => Raise (mkExn TypeError (msg OpContains v))
  end.

Definition py_setitem (msg : error_text) (key : string) (x : json) (v : json)
  : result json :=
  match v with
  | JDict d => Return (JDict (dict_setitem key x d))
  | _ => Raise (mkExn TypeError (msg OpSetItem v))
  end.

(** [v[key]]; a missing key raises [KeyError], whose [str] is the quoted
    key. *)
Definition py_getitem (msg : error_text) (key : string) (v : json)
  : result json :=
  match v with
  | JDict d =>
      match dict_lookup key d with
      | Some x => Return x
      | None => Raise (mkExn KeyError ("'" ++ key ++ "'"))
      end
  | _ => Raise (mkExn TypeError (msg OpGetItem v))
  end.

(** [v.get(key, default)]. *)
Definition py_get (msg : error_text) (key : string) (default : json) (v : json)
  : result json :=
  match v with
  | JDict d => Return (dict_get key default d)
  | _ => Raise (mkExn AttributeError (msg OpGet v))
  end.

End Json.

Import Json.

(* ===================================================================== *)
(** * [openai_utils.py] *)
(* ===================================================================== *)

Module OpenAIUtils.

(** One request to the chat-completion service. *)
Record chat_request : Type := mkRequest {
  model : string;
  system_message : string;
  user_message : string;
  temperature : string;
  max_tokens : Z
}.

(** What the module reads from the outside world: the credential in the
    process environment, the constructor of the client
    ([openai.OpenAI(api_key=...)]), the service (the outcome of
    [client.chat.completions.create(...)] followed by
    [.choices[0].message.content], which may be [None]), [json.loads], the
    interpreter's wording of its own errors, and [print].  Of [print] only
    the outcome is kept, not what is written: the call raises when
    standard output cannot take the line ([UnicodeEncodeError] under an
    encoding that lacks a character of it, [OSError] or [ValueError] on a
    broken or closed stream). *)
Record Env : Type := mkEnv {
  OPENAI_API_KEY : option string;
  openai_OpenAI : string -> result unit;
  chat_completions_create : chat_request -> result (option string);
  json_loads : string -> result json;
  interpreter_text : error_text;
  print : string -> result unit
}.

Section WithEnv.
Variable env : Env.

(** [get_openai_client]: [not api_key] holds for an unset and for an empty
    variable.  The client it returns is stood for by its key. *)
Definition get_openai_client : result string :=
  match OPENAI_API_KEY env with
  | Some api_key =>
      if truthy api_key
      then _ <- openai_OpenAI env api_key ;; Return api_key
      else Raise (mkExn ValueError "OPENAI_API_KEY environment variable is not set")
  | None => Raise (mkExn ValueError "OPENAI_API_KEY environment variable is not set")
  end.

(** [response.choices[0].message.content.strip()]. *)
Definition content_strip (content : option string) : result string :=
  match content with
  | Some s => Return (strip s)
  | None => Raise (mkExn AttributeError (interpreter_text env OpGet JNull))
  end.

(** The code-fence clean-up both functions apply to the stripped reply. *)
Definition clean_content (content : string) : string :=
  let content :=
    if startswith "```json" content then slice_from 7 content else content in
  let content :=
    if endswith "```" content then slice_drop_last 3 content else content in
  strip content.

Definition analyze_prompt (cv_text job_title job_desc : string) : string :=
  "
You are an expert HR professional and career advisor. Analyze the following CV against the job requirements and provide a comprehensive assessment.

**CV Content:**
" ++ cv_text ++ "

**Target Position:**
Job Title: " ++ job_title ++ "
Job Description: " ++ job_desc ++ "

Please provide a detailed analysis in JSON format with these exact keys:

1. " ++ quoted "score" ++ ": integer between 0 and 100 (overall match score)
2. " ++ quoted "missing_skills" ++ ": array of specific technical and soft skills that are missing
3. " ++ quoted "strengths" ++ ": array of candidate's key strengths that match the job
4. " ++ quoted "experience_gaps" ++ ": array of experience areas that need improvement
5. " ++ quoted "recommendations" ++ ": array of specific recommendations to improve the CV
6. " ++ quoted "summary" ++ ": comprehensive analysis summary (2-3 sentences)

Consider:
- Technical skills alignment
- Experience level match
- Industry relevance
- Soft skills indicators
- Career progression
- Education relevance
".

Definition analyze_request (cv_text job_title job_desc : string) : chat_request :=
  mkRequest "gpt-4o-mini"
    "You are an expert HR professional with 15+ years of experience in talent acquisition and career development. Provide detailed, actionable feedback in valid JSON format."
    (analyze_prompt cv_text job_title job_desc)
    "0.2" 1500.

Definition required_keys : list string :=
  ["score"; "missing_skills"; "strengths"; "experience_gaps";
   "recommendations"; "summary"].

(** The value written for a required key that is missing:
    [[] if key != "score" and key != "summary" else
     (50 if key == "score" else "Analysis incomplete")]. *)
Definition default_for (key : string) : json :=
  if negb (key =? "score") && negb (key =? "summary") then JList []
  else if key =? "score" then JInt 50 else JStr "Analysis incomplete".

(** Body of the loop [for key in required_keys: if key not in result: ...]. *)
Definition ensure_key (key : string) (result : json) : Py.result json :=
  present <- py_contains (interpreter_text env) key result ;;
  if negb present
  then py_setitem (interpreter_text env) key (default_for key) result
  else Return result.

(** What that loop does to the entries of a [dict]. *)
Definition backfill (keys : list string) (d : dict) : dict :=
  fold_left
    (fun d key =>
       if dict_contains key d then d else dict_setitem key (default_for key) d)
    keys d.

(** The 6-tuple [analyze_cv] returns:
    (score, missing_skills, summary, strengths, experience_gaps,
    recommendations). *)
Definition analysis : Type := (json * json * json * json * json * json)%type.

(** The [try] block of [analyze_cv]. *)
Definition analyze_cv_try (cv_text job_title job_desc : string)
  : result analysis :=
  client <- get_openai_client ;;
  response <- chat_completions_create env
                (analyze_request cv_text job_title job_desc) ;;
  content <- content_strip response ;;
  let content := clean_content content in
  result <- json_loads env content ;;
  result <- for_each required_keys ensure_key result ;;
  score <- py_getitem (interpreter_text env) "score" result ;;
  missing_skills <- py_getitem (interpreter_text env) "missing_skills" result ;;
  summary <- py_getitem (interpreter_text env) "summary" result ;;
  strengths <- py_get (interpreter_text env) "strengths" (JList []) result ;;
  experience_gaps <-
    py_get (interpreter_text env) "experience_gaps" (JList []) result ;;
  recommendations <-
    py_get (interpreter_text env) "recommendations" (JList []) result ;;
  Return (score, missing_skills, summary, strengths, experience_gaps,
          recommendations).

(** What the [except json.JSONDecodeError] clause returns. *)
Definition parsing_failed : analysis :=
  (JInt 50,
   JList [JStr "Analysis parsing failed"],
   JStr "Could not parse AI analysis response",
   JList [JStr "Please try again"],
   JList [JStr "Technical issue occurred"],
   JList [JStr "Contact support if problem persists"]).

(** What the [except Exception as e] clause returns. *)
Definition api_failed (e : exn) : analysis :=
  (JInt 50,
   JList [JStr "Unable to analyze - API error"],
   JStr ("Analysis failed: " ++ str e),
   JList [],
   JList [],
   JList [JStr "Please check your OpenAI API key and try again"]).

(** The local [content] at the moment an exception leaves the [try]
    block: it is bound once the reply has been read and trimmed, and then
    holds the cleaned reply, since the clean-up itself cannot raise and
    every later step comes after it. *)
Definition content_in_locals (cv_text job_title job_desc : string)
  : option string :=
  match (client <- get_openai_client ;;
         response <- chat_completions_create env
                       (analyze_request cv_text job_title job_desc) ;;
         content_strip response) with
  | Return content => Some (clean_content content)
  | Raise _ => None
  end.

(** The [except json.JSONDecodeError as e] clause: two lines are printed,
    then the placeholder tuple is returned.  An exception raised by
    [print] leaves the clause, and with it [analyze_cv]. *)
Definition on_JSONDecodeError (cv_text job_title job_desc : string) (e : exn)
  : result analysis :=
  _ <- print env ("JSON parsing error: " ++ str e) ;;
  _ <- print env
         ("Raw response: "
          ++ match content_in_locals cv_text job_title job_desc with
             | Some content => content
             | None => "No content"
             end) ;;
  Return parsing_failed.

(** The [except Exception as e] clause. *)
Definition on_Exception (e : exn) : result analysis :=
  _ <- print env ("OpenAI API error: " ++ str e) ;;
  Return (api_failed e).

(** [analyze_cv]: the [try] block under its two [except] clauses, tried in
    order. *)
Definition analyze_cv (cv_text job_title job_desc : string) : result analysis :=
  try_except (analyze_cv_try cv_text job_title job_desc)
    (fun e =>
       if is_JSONDecodeError e
       then on_JSONDecodeError cv_text job_title job_desc e
       else on_Exception e).

(** The prompt is built before the [try] block, from the three arguments
    as the signature types them: two [str] and a [List[str]], on which the
    [join] returns. *)
Definition suggestions_prompt (cv_text additional_info : string)
    (missing_skills : list string) : string :=
  "
You are a professional CV writer and career coach. Based on the original CV and additional information provided, generate specific improvement suggestions.

**Original CV:**
" ++ cv_text ++ "

**Additional Information:**
" ++ additional_info ++ "

**Missing Skills Identified:**
" ++ join ", " missing_skills ++ "

Please provide improvement suggestions in JSON format with these keys:

1. " ++ quoted "enhanced_summary" ++ ": A professional summary that incorporates the additional information
2. " ++ quoted "skill_additions" ++ ": Specific ways to present the new skills effectively
3. " ++ quoted "experience_enhancements" ++ ": How to better highlight existing experience
4. " ++ quoted "formatting_suggestions" ++ ": CV structure and formatting improvements
5. " ++ quoted "keyword_optimization" ++ ": Industry keywords to include
6. " ++ quoted "achievement_focus" ++ ": How to quantify and highlight achievements better

Focus on making the CV more ATS-friendly and appealing to hiring managers.
".

Definition suggestions_request (cv_text additional_info : string)
    (missing_skills : list string) : chat_request :=
  mkRequest "gpt-4o-mini"
    "You are a professional CV writer with expertise in ATS optimization and modern hiring practices. Always respond with valid JSON."
    (suggestions_prompt cv_text additional_info missing_skills)
    "0.3" 1000.

(** The [try] block of [generate_cv_improvement_suggestions]: the decoded
    reply is returned as it is. *)
Definition generate_cv_improvement_suggestions_try
    (cv_text additional_info : string) (missing_skills : list string)
  : result json :=
  client <- get_openai_client ;;
  response <- chat_completions_create env
                (suggestions_request cv_text additional_info missing_skills) ;;
  content <- content_strip response ;;
  let content := clean_content content in
  json_loads env content.

(** The mapping its [except Exception as e] clause returns. *)
Definition default_entries (e : exn) : dict :=
  [("enhanced_summary",
    JStr "Professional with diverse experience and growing skill set.");
   ("skill_additions",
    JList [JStr "Present new skills with context and examples"]);
   ("experience_enhancements",
    JList [JStr "Quantify achievements with numbers and metrics"]);
   ("formatting_suggestions",
    JList [JStr "Use consistent formatting and clear section headers"]);
   ("keyword_optimization",
    JList [JStr "Include industry-specific keywords from job descriptions"]);
   ("achievement_focus",
    JList [JStr "Highlight impact and results achieved"]);
   ("error", JStr ("Enhancement failed: " ++ str e))].

Definition default_suggestions (e : exn) : json := JDict (default_entries e).

(** [generate_cv_improvement_suggestions]: its [except Exception as e]
    clause prints a line before it returns the default mapping. *)
Definition generate_cv_improvement_suggestions
    (cv_text additional_info : string) (missing_skills : list string)
  : result json :=
  try_except
    (generate_cv_improvement_suggestions_try cv_text additional_info
       missing_skills)
    (fun e =>
       _ <- print env ("CV improvement suggestions error: " ++ str e) ;;
       Return (default_suggestions e)).

End WithEnv.

(** The six keys the suggestions mapping is documented to have. *)
Definition suggestion_keys : list string :=
  ["enhanced_summary"; "skill_additions"; "experience_enhancements";
   "formatting_suggestions"; "keyword_optimization"; "achievement_focus"].

(** [v] is a mapping that has every key of [keys]. *)
Definition has_keys (keys : list string) (v : json) : bool :=
  match v with
  | JDict d => forallb (fun k => dict_contains k d) keys
  | _ => false
  end.

End OpenAIUtils.

(* ===================================================================== *)
(** * [utils.py] *)
(* ===================================================================== *)

Module Utils.

(** What python-docx exposes of a document: paragraphs with their text and
    the text of their runs, and tables as rows of cells of paragraphs. *)
Record Paragraph : Type := mkParagraph {
  para_text : string;
  para_runs : list string
}.

Definition Cell : Type := list Paragraph.
Definition Row : Type := list Cell.
Definition Table : Type := list Row.

Record Document : Type := mkDocument {
  doc_paragraphs : list Paragraph;
  doc_tables : list Table
}.

(** The libraries and files the extractors read.  Each field is the
    outcome of the corresponding call on a path; [get_tesseract_version]
    (preceded by [import pytesseract]) is indexed by the number of probes
    already made during the call, since every probe asks the OCR engine
    again.  [docx_Document] stands for opening the document and reading its
    structure: an exception raised anywhere in python-docx shows up as
    [Raise].  Of [print] only the outcome is kept: it raises when standard
    output cannot take the line. *)
Record Env : Type := mkEnv {
  get_tesseract_version : nat -> result unit;
  pdf_pages : string -> result (list (option string));
  read_utf8 : string -> result string;
  mammoth_extract_raw_text : string -> result string;
  docx_Document : string -> result Document;
  image_to_string : string -> result string;
  print : string -> result unit
}.

(** [list.append] under a condition, the shape of every collecting loop
    below. *)
Definition append_if {A : Type} (cond : bool) (x : A) (acc : list A) : list A :=
  if cond then acc ++ [x] else acc.

Definition nonempty {A : Type} (l : list A) : bool :=
  match l with [] => false | _ => true end.

Section WithEnv.
Variable env : Env.

(** [extract_text_from_pdf]: [text += page.extract_text() or ""]. *)
Definition extract_text_from_pdf (file_path : string) : result string :=
  pages <- pdf_pages env file_path ;;
  Return (fold_left
            (fun text page =>
               text ++ match page with Some t => t | None => "" end)
            pages "").

(** [extract_text_from_txt]. *)
Definition extract_text_from_txt (file_path : string) : result string :=
  read_utf8 env file_path.

(** First loop of the python-docx fallback: paragraphs with visible text. *)
Definition collect_paragraphs (doc : Document) (text_parts : list string)
  : list string :=
  fold_left
    (fun acc para =>
       append_if (truthy (strip (para_text para))) (para_text para) acc)
    (doc_paragraphs doc) text_parts.

(** Text of one cell: its non-blank paragraphs, stripped. *)
Definition cell_text (cell : Cell) : list string :=
  fold_left
    (fun acc para =>
       append_if (truthy (strip (para_text para))) (strip (para_text para)) acc)
    cell [].

(** Text of the cells of one row that have any. *)
Definition row_text (row : Row) : list string :=
  fold_left
    (fun acc cell =>
       append_if (nonempty (cell_text cell)) (join " " (cell_text cell)) acc)
    row [].

(** One row of a table: its cells joined with [" | "]. *)
Definition collect_row (text_parts : list string) (row : Row) : list string :=
  let row_text := row_text row in
  if nonempty row_text then
    let combined_row := join " | " (filter truthy row_text) in
    append_if (truthy (strip combined_row)) combined_row text_parts
  else text_parts.

(** Second loop: every row of every table. *)
Definition collect_tables (doc : Document) (text_parts : list string)
  : list string :=
  fold_left (fun acc table => fold_left collect_row table acc)
    (doc_tables doc) text_parts.

Definition collect_runs_of (paras : list Paragraph) (text_parts : list string)
  : list string :=
  fold_left
    (fun acc para =>
       fold_left
         (fun acc run => append_if (truthy (strip run)) (strip run) acc)
         (para_runs para) acc)
    paras text_parts.

(** The loops under [if not text_parts]: runs of the paragraphs, then runs
    inside table cells. *)
Definition collect_runs (doc : Document) (text_parts : list string)
  : list string :=
  let text_parts := collect_runs_of (doc_paragraphs doc) text_parts in
  fold_left
    (fun acc table =>
       fold_left
         (fun acc row =>
            fold_left (fun acc cell => collect_runs_of cell acc) row acc)
         table acc)
    (doc_tables doc) text_parts.

Definition no_text_warning : string :=
  warning_sign ++ " No extractable text found. This document may contain only images, complex formatting, or be password protected.".

Definition docx_error (e : exn) : string :=
  warning_sign ++ " Error extracting text from DOCX: " ++ str e.

(** The python-docx part of [extract_text_from_docx], inside its [try]. *)
Definition docx_fallback_try (file_path : string) : result string :=
  doc <- docx_Document env file_path ;;
  let text_parts := collect_paragraphs doc [] in
  let text_parts := collect_tables doc text_parts in
  let text_parts :=
    if negb (nonempty text_parts) then collect_runs doc text_parts
    else text_parts in
  let result := join "
" text_parts in
  if negb (truthy (strip result)) then Return no_text_warning
  else Return result.

Definition docx_fallback (file_path : string) : result string :=
  try_except (docx_fallback_try file_path)
    (fun e => Return (docx_error e)).

(** The line the [except] clause of the mammoth attempt prints. *)
Definition mammoth_failed (e : exn) : string :=
  "Mammoth extraction failed: " ++ str e ++ ", falling back to python-docx".

(** The mammoth attempt: [Some text] when it returns from inside the first
    [try], [None] when control falls through to the fallback: the text is
    too short, or mammoth raised and the [except] clause has printed its
    line.  That [print] stands in the clause, outside both [try] blocks,
    so what it raises leaves [extract_text_from_docx]. *)
Definition mammoth_attempt (file_path : string) : result (option string) :=
  match mammoth_extract_raw_text env file_path with
  | Return value =>
      let text := strip value in
      if truthy text && (10 <? String.length text)%nat then Return (Some text)
      else Return None
  | Raise e => _ <- print env (mammoth_failed e) ;; Return None
  end.

(** [extract_text_from_docx]. *)
Definition extract_text_from_docx (file_path : string) : result string :=
  attempt <- mammoth_attempt file_path ;;
  match attempt with
  | Some text => Return text
  | None => docx_fallback file_path
  end.

Definition ocr_unavailable (e : exn) : exn :=
  mkExn ValueError
    ("Image text extraction is not available: " ++ str e ++ ". "
     ++ "Please install Tesseract OCR: 'brew install tesseract' (macOS) or "
     ++ "visit https://github.com/tesseract-ocr/tesseract for installation instructions.").

Definition ocr_failed (e : exn) : exn :=
  mkExn ValueError ("Failed to extract text from image: " ++ str e).

(** [extract_text_from_image], when [probes] probes of the OCR engine were
    made before it in the same call. *)
Definition extract_text_from_image (probes : nat) (file_path : string)
  : result string :=
  _ <- try_except (get_tesseract_version env probes)
         (fun e => Raise (ocr_unavailable e)) ;;
  try_except (image_to_string env file_path)
    (fun e => Raise (ocr_failed e)).

Definition image_not_supported (e : exn) : exn :=
  mkExn ValueError
    ("Image file upload is not supported: " ++ str e ++ ". "
     ++ "Please use PDF, DOCX, or TXT files instead. "
     ++ "To enable image support, install Tesseract: 'brew install tesseract' (macOS)").

(** The suffix of the unsupported-type message: image formats are listed
    when the probe made at that moment succeeds. *)
Definition image_support : string :=
  match get_tesseract_version env 0 with
  | Return _ => " and images (JPG, PNG)"
  | Raise _ => ""
  end.

Definition unsupported (ext : string) : exn :=
  mkExn ValueError
    ("Unsupported file type: " ++ ext ++ ". Supported formats: PDF, DOCX, TXT"
     ++ image_support).

(** The extension [extract_text] dispatches on. *)
Definition extension (file_path : string) : string :=
  lower (snd (splitext file_path)).

Definition is_image_ext (ext : string) : bool :=
  (ext =? ".jpg") || (ext =? ".jpeg") || (ext =? ".png").

(** [extract_text]. *)
Definition extract_text (file_path : string) : result (string * string) :=
  let ext := extension file_path in
  if ext =? ".pdf" then
    text <- extract_text_from_pdf file_path ;; Return (text, "pdf")
  else if ext =? ".docx" then
    text <- extract_text_from_docx file_path ;; Return (text, "docx")
  else if is_image_ext ext then
    try_except
      (_ <- get_tesseract_version env 0 ;;
       text <- extract_text_from_image 1 file_path ;;
       Return (text, "image"))
      (fun e => Raise (image_not_supported e))
  else if ext =? ".txt" then
    text <- extract_text_from_txt file_path ;; Return (text, "txt")
  else Raise (unsupported ext).

End WithEnv.

(** ** The fallback policy in the words of its description

    These definitions do not follow the loops of the code but the
    description of the policy: which text is collected, in which order.
    They are compared with the code in [docx_fallback_meets_policy]. *)
Module Policy.

Definition visible (s : string) : bool := truthy (strip s).

(** The trimmed text of the non-blank paragraphs of a cell. *)
Definition cell_texts (cell : Cell) : list string :=
  map strip (filter visible (map para_text cell)).

(** One string per cell that is not blank. *)
Definition cells_of_row (row : Row) : list string :=
  map (join " ") (filter nonempty (map cell_texts row)).

(** A row whose cells are all blank is skipped; otherwise its cells are
    joined with [" | "]. *)
Definition row_line (row : Row) : list string :=
  match cells_of_row row with
  | [] => []
  | cells => [join " | " cells]
  end.

(** Step 2: paragraph text, then table rows. *)
Definition structural_text (doc : Document) : list string :=
  filter visible (map para_text (doc_paragraphs doc))
  ++ flat_map row_line (concat (doc_tables doc)).

Definition run_texts (paras : list Paragraph) : list string :=
  map strip (filter visible (flat_map para_runs paras)).

(** Step 3: runs of the paragraphs, then runs of the paragraphs of every
    cell. *)
Definition run_text (doc : Document) : list string :=
  run_texts (doc_paragraphs doc)
  ++ run_texts (concat (concat (concat (doc_tables doc)))).

(** Steps 2 to 4 on an opened document. *)
Definition document_text (doc : Document) : string :=
  let parts :=
    match structural_text doc with
    | [] => run_text doc
    | parts => parts
    end in
  let text := join "
" parts in
  if visible text then text else no_text_warning.

End Policy.

(** The extensions [extract_text] has a branch for, and the tags. *)
Definition supported_extensions : list string :=
  [".pdf"; ".docx"; ".txt"; ".jpg"; ".jpeg"; ".png"].

Definition supported (ext : string) : bool :=
  existsb (String.eqb ext) supported_extensions.


(** The tag that belongs to a supported extension. *)
Definition tag_of (ext : string) : string :=
  if ext =? ".pdf" then "pdf"
  else if ext =? ".docx" then "docx"
  else if ext =? ".txt" then "txt"
  else "image".

(** ** Temporary files *)

(** The set of paths that exist, as far as the request is concerned. *)
Definition FileSystem : Type := list string.

Definition path_exists (path : string) (fs : FileSystem) : bool :=
  existsb (String.eqb path) fs.

(** [os.remove]. *)
Definition remove (path : string) (fs : FileSystem) : FileSystem :=
  filter (fun p => negb (p =? path)) fs.

(** An [UploadFile]: its name, if the client sent one. *)
Record UploadFile : Type := mkUpload { filename : option string }.

(** Outcomes of the file operations of [save_temp_file]:
    [NamedTemporaryFile(delete=False, suffix=...)] yields the path of the
    file it created; reading the upload, writing (and flushing) the copy
    and rewinding the upload may each raise. *)
Record UploadIO : Type := mkUploadIO {
  named_temporary_file : string -> result string;
  upload_read : result string;
  tmp_write : string -> result unit;
  upload_seek : result unit
}.

(** [save_temp_file].  The temporary file exists from the moment
    [NamedTemporaryFile] returns; with [delete=False] leaving the [with]
    block, normally or by an exception, does not remove it. *)
Definition save_temp_file (io : UploadIO) (uploaded_file : UploadFile)
    (fs : FileSystem) : result string * FileSystem :=
  match filename uploaded_file with
  | None =>
      (Raise (mkExn TypeError
                "expected str, bytes or os.PathLike object, not NoneType"), fs)
  | Some name =>
      let suffix := snd (splitext name) in
      match named_temporary_file io suffix with
      | Raise e => (Raise e, fs)
      | Return tmp_name =>
          let fs := tmp_name :: fs in
          (content <- upload_read io ;;
           _ <- tmp_write io content ;;
           _ <- upload_seek io ;;
           Return tmp_name, fs)
      end
  end.

End Utils.

(* ===================================================================== *)
(** * [database.py] and [crud.py] *)
(* ===================================================================== *)

Module Crud.

(** A row of [cv_sessions].  Nullable columns are options; timestamps are
    readings of [datetime.utcnow]. *)
Record CVSession : Type := mkSession {
  id : string;
  cv_text : string;
  cv_file_type : string;
  cv_file_path : option string;
  job_title : option string;
  job_description : option string;
  original_score : option Z;
  new_score : option Z;
  missing_skills : option (list string);
  strengths : option (list string);
  experience_gaps : option (list string);
  recommendations : option (list string);
  summary : option string;
  additional_info : option string;
  improvement_suggestions : option json;
  enhanced_cv_path : option string;
  created_at : Z;
  updated_at : Z
}.

(** The table, in insertion order. *)
Definition db : Type := list CVSession.

Definition option_eqb {A : Type} (eqb : A -> A -> bool) (x y : option A) : bool :=
  match x, y with
  | Some a, Some b => eqb a b
  | None, None => true
  | _, _ => false
  end.

Fixpoint list_eqb {A : Type} (eqb : A -> A -> bool) (l1 l2 : list A) : bool :=
  match l1, l2 with
  | [], [] => true
  | a :: l1', b :: l2' => eqb a b && list_eqb eqb l1' l2'
  | _, _ => false
  end.

(** The text of the exceptions that come out of a commit.  An INSERT the
    table rejects raises SQLAlchemy's [IntegrityError], whose [str] is the
    message of the database driver wrapped together with the statement and
    its parameters; an integer the driver cannot bind raises the driver's
    [OverflowError].  The wording belongs to the libraries, so it is given
    from outside. *)
Record Driver : Type := mkDriver {
  integrity_error_text : CVSession -> string;
  overflow_error_text : string
}.

(** SQLite keeps an [INTEGER] in eight bytes; NULL is always accepted. *)
Definition fits_INTEGER (value : option Z) : bool :=
  match value with
  | Some v => ((- 2 ^ 63 <=? v) && (v <? 2 ^ 63))%Z
  | None => true
  end.

Section WithDriver.
Variable driver : Driver.

(** [create_session]: the INSERT fails on a primary key that is taken;
    otherwise the row gets its two timestamp defaults, each from its own
    reading of the clock.  Every operation of this module is modelled on a
    database session in working order, as [get_db] hands one to each
    request. *)
Definition create_session (created updated : Z) (d : db)
    (session_id cv_text cv_file_type : string) (cv_file_path : option string)
  : result CVSession * db :=
  let db_session :=
    mkSession session_id cv_text cv_file_type cv_file_path
      None None None None None None None None None None None None
      created updated in
  if existsb (fun s => id s =? session_id) d then
    (Raise (mkExn IntegrityError (integrity_error_text driver db_session)), d)
  else (Return db_session, (d ++ [db_session])%list).

(** [db.query(CVSession).filter(CVSession.id == session_id).first()]. *)
Definition get_session (d : db) (session_id : string) : option CVSession :=
  find (fun s => id s =? session_id) d.

(** UPDATE ... WHERE id = [session_id]. *)
Definition write_row (d : db) (session_id : string) (row : CVSession) : db :=
  map (fun s => if id s =? session_id then row else s) d.

(** The attribute assignments of [update_analysis].  The job title and
    description are the texts of the request.  The six analysis values are
    what the caller took from the decoded reply, and the endpoint hands
    them on unchecked: a value may be [None], which is stored as NULL. *)
Definition set_analysis (s : CVSession)
    (job_title job_description : string) (original_score : option Z)
    (missing_skills strengths experience_gaps recommendations
       : option (list string))
    (summary : option string) : CVSession :=
  mkSession (id s) (cv_text s) (cv_file_type s) (cv_file_path s)
    (Some job_title) (Some job_description)
    original_score (new_score s)
    missing_skills strengths experience_gaps recommendations summary
    (additional_info s) (improvement_suggestions s) (enhanced_cv_path s)
    (created_at s) (updated_at s).

(** Does the loaded row differ from the assigned values in one of the
    eight columns?  This is the ORM's net-change test at flush time: each
    assigned attribute is compared (with [==]) to the value loaded from the
    row. *)
Definition analysis_changed (old new : CVSession) : bool :=
  negb (option_eqb String.eqb (job_title old) (job_title new)
        && option_eqb String.eqb (job_description old) (job_description new)
        && option_eqb Z.eqb (original_score old) (original_score new)
        && option_eqb (list_eqb String.eqb) (missing_skills old) (missing_skills new)
        && option_eqb (list_eqb String.eqb) (strengths old) (strengths new)
        && option_eqb (list_eqb String.eqb) (experience_gaps old) (experience_gaps new)
        && option_eqb (list_eqb String.eqb) (recommendations old) (recommendations new)
        && option_eqb String.eqb (summary old) (summary new)).

(** [onupdate=datetime.utcnow]: the column is set when an UPDATE
    statement is emitted for the row. *)
Definition touch (now : Z) (s : CVSession) : CVSession :=
  mkSession (id s) (cv_text s) (cv_file_type s) (cv_file_path s)
    (job_title s) (job_description s) (original_score s) (new_score s)
    (missing_skills s) (strengths s) (experience_gaps s) (recommendations s)
    (summary s) (additional_info s) (improvement_suggestions s)
    (enhanced_cv_path s) (created_at s) now.

(** [db.commit()] after attribute assignments on a loaded row.  Assigning
    an attribute only marks the instance as dirty; at flush time SQLAlchemy
    compares the value of each assigned attribute with the value it loaded,
    and an UPDATE is emitted for the attributes with a net change.  When
    there is none, no statement is sent for the row, so [onupdate] -- a
    default applied within UPDATE statements -- does not fire and the row
    keeps its [updated_at].  The row is loaded when the attributes are
    assigned: the query of the caller has just read it. *)
Definition commit (now : Z) (changed : bool) (d : db) (session_id : string)
    (row : CVSession) : CVSession * db :=
  if changed then
    let row := touch now row in (row, write_row d session_id row)
  else (row, d).

(** [update_analysis], committing at time [now].  A score outside the
    INTEGER column cannot be bound to the UPDATE: the commit raises and
    nothing is stored. *)
Definition update_analysis (now : Z) (d : db) (session_id : string)
    (job_title job_description : string) (original_score : option Z)
    (missing_skills strengths experience_gaps recommendations
       : option (list string))
    (summary : option string) : result (option CVSession) * db :=
  match get_session d session_id with
  | Some session =>
      let session' :=
        set_analysis session job_title job_description original_score
          missing_skills strengths experience_gaps recommendations summary in
      if fits_INTEGER original_score then
        let (session', d') :=
          commit now (analysis_changed session session') d session_id
            session' in
        (Return (Some session'), d')
      else (Raise (mkExn OverflowError (overflow_error_text driver)), d)
  | None => (Return None, d)
  end.

Section Enhancement.

(** Python's [==] on two decoded JSON values, which the net-change test
    uses for the JSON column. *)
Variable json_equal : json -> json -> bool.

Definition set_enhancement (s : CVSession) (additional_info : string)
    (new_score : Z) (improvement_suggestions : json) (enhanced_cv_path : string)
  : CVSession :=
  mkSession (id s) (cv_text s) (cv_file_type s) (cv_file_path s)
    (job_title s) (job_description s) (original_score s) (Some new_score)
    (missing_skills s) (strengths s) (experience_gaps s) (recommendations s)
    (summary s) (Some additional_info) (Some improvement_suggestions)
    (Some enhanced_cv_path) (created_at s) (updated_at s).

Definition enhancement_changed (old new : CVSession) : bool :=
  negb (option_eqb String.eqb (additional_info old) (additional_info new)
        && option_eqb Z.eqb (new_score old) (new_score new)
        && option_eqb json_equal (improvement_suggestions old)
             (improvement_suggestions new)
        && option_eqb String.eqb (enhanced_cv_path old) (enhanced_cv_path new)).

(** [update_enhancement], committing at time [now]; the score is bound
    to the UPDATE like the one of [update_analysis]. *)
Definition update_enhancement (now : Z) (d : db) (session_id : string)
    (additional_info : string) (new_score : Z) (improvement_suggestions : json)
    (enhanced_cv_path : string) : result (option CVSession) * db :=
  match get_session d session_id with
  | Some session =>
      let session' :=
        set_enhancement session additional_info new_score
          improvement_suggestions enhanced_cv_path in
      if fits_INTEGER (Some new_score) then
        let (session', d') :=
          commit now (enhancement_changed session session') d session_id
            session' in
        (Return (Some session'), d')
      else (Raise (mkExn OverflowError (overflow_error_text driver)), d)
  | None => (Return None, d)
  end.

End Enhancement.

(** [delete_session]. *)
Definition delete_session (d : db) (session_id : string) : bool * db :=
  match get_session d session_id with
  | Some _ => (true, filter (fun s => negb (id s =? session_id)) d)
  | None => (false, d)
  end.

(** ** Queries *)

(** ORDER BY created_at DESC.  SQL leaves the order among rows with equal
    timestamps open; the sort below keeps them in the order of the table,
    which is what SQLite is seen to do.  [insert_desc] puts a row in front
    of the rows that follow it in the table: before the first one that is
    not newer. *)
Fixpoint insert_desc (s : CVSession) (sorted : list CVSession) : list CVSession :=
  match sorted with
  | [] => [s]
  | t :: rest =>
      if (created_at t <=? created_at s)%Z then s :: sorted
      else t :: insert_desc s rest
  end.

Definition order_by_created_at_desc (rows : list CVSession) : list CVSession :=
  fold_right insert_desc [] rows.

(** OFFSET and LIMIT with SQLite's reading of negative values: a negative
    offset is zero, a negative limit is no limit. *)
Definition offset (skip : Z) (rows : list CVSession) : list CVSession :=
  skipn (Z.to_nat skip) rows.

Definition limit (n : Z) (rows : list CVSession) : list CVSession :=
  if (n <? 0)%Z then rows else firstn (Z.to_nat n) rows.

(** SQL [lower] on a character: ASCII letters only. *)
Definition sql_lower (c : ascii) : ascii :=
  let n := N_of_ascii c in
  if ((65 <=? n) && (n <=? 90))%N then ascii_of_N (n + 32) else c.

(** [lower(text) LIKE lower(pattern)]: [%] matches any run of characters,
    [_] any single one. *)
Fixpoint like (pattern : string) : string -> bool :=
  match pattern with
  | EmptyString =>
      fun text => match text with EmptyString => true | _ => false end
  | String c pattern' =>
      if Ascii.eqb c "%" then
        fix any (text : string) : bool :=
          like pattern' text
          || match text with
             | EmptyString => false
             | String _ text' => any text'
             end
      else
        fun text =>
          match text with
          | EmptyString => false
          | String t text' =>
              (Ascii.eqb c "_" || Ascii.eqb (sql_lower c) (sql_lower t))
              && like pattern' text'
          end
  end.

(** [column.ilike(f"%{needle}%")]; NULL matches nothing. *)
Definition ilike_contains (column : option string) (needle : string) : bool :=
  match column with
  | Some text => like ("%" ++ needle ++ "%") text
  | None => false
  end.

(** [column >= bound] and [column <= bound]; a comparison with NULL is not
    true, so the row is filtered out. *)
Definition score_ge (column : option Z) (bound : Z) : bool :=
  match column with Some v => (bound <=? v)%Z | None => false end.

Definition score_le (column : option Z) (bound : Z) : bool :=
  match column with Some v => (v <=? bound)%Z | None => false end.

(** [query.filter(cond)] applied when the guard of its [if] holds. *)
Definition filter_if (guard : bool) (cond : CVSession -> bool)
    (query : list CVSession) : list CVSession :=
  if guard then filter cond query else query.

Definition given (s : option string) : bool :=
  match s with Some t => truthy t | None => false end.

Definition text_of (s : option string) : string :=
  match s with Some t => t | None => "" end.

(** [get_all_sessions]. *)
Definition get_all_sessions (d : db) (limit_ : Z) : list CVSession :=
  limit limit_ (order_by_created_at_desc d).

(** [get_filtered_sessions]. *)
Definition get_filtered_sessions (d : db) (limit_ skip : Z)
    (job_title_ : option string) (min_score max_score : option Z)
    (file_type : option string) : list CVSession :=
  let query := d in
  let query :=
    filter_if (given job_title_)
      (fun s => ilike_contains (job_title s) (text_of job_title_)) query in
  let query :=
    match min_score with
    | Some m => filter (fun s => score_ge (original_score s) m) query
    | None => query
    end in
  let query :=
    match max_score with
    | Some m => filter (fun s => score_le (original_score s) m) query
    | None => query
    end in
  let query :=
    filter_if (given file_type)
      (fun s => cv_file_type s =? text_of file_type) query in
  limit limit_ (offset skip (order_by_created_at_desc query)).

(** [get_sessions_count]. *)
Definition get_sessions_count (d : db) : nat := List.length d.

(** ** Histories of the store *)

(** One call of a mutating operation, with the clock readings it uses. *)
Inductive operation : Type :=
| CreateSession (created updated : Z)
    (session_id cv_text cv_file_type : string) (cv_file_path : option string)
| UpdateAnalysis (now : Z) (session_id job_title job_description : string)
    (original_score : option Z)
    (missing_skills strengths experience_gaps recommendations
       : option (list string))
    (summary : option string)
| UpdateEnhancement (now : Z) (session_id additional_info : string)
    (new_score : Z) (improvement_suggestions : json) (enhanced_cv_path : string)
| DeleteSession (session_id : string).

Definition apply (json_equal : json -> json -> bool) (d : db) (op : operation)
  : db :=
  match op with
  | CreateSession created updated session_id cv_text cv_file_type cv_file_path =>
      snd (create_session created updated d session_id cv_text cv_file_type
             cv_file_path)
  | UpdateAnalysis now session_id job_title job_description original_score
      missing_skills strengths experience_gaps recommendations summary =>
      snd (update_analysis now d session_id job_title job_description
             original_score missing_skills strengths experience_gaps
             recommendations summary)
  | UpdateEnhancement now session_id additional_info new_score
      improvement_suggestions enhanced_cv_path =>
      snd (update_enhancement json_equal now d session_id additional_info
             new_score improvement_suggestions enhanced_cv_path)
  | DeleteSession session_id => snd (delete_session d session_id)
  end.

(** The store after a history, starting from the empty table. *)
Definition run (json_equal : json -> json -> bool) (history : list operation)
  : db :=
  fold_left (apply json_equal) history [].

End WithDriver.

(** "Absent or within [0,100]". *)
Definition score_ok (score : option Z) : Prop :=
  match score with
  | Some v => (0 <= v <= 100)%Z
  | None => True
  end.

Definition scores_ok (s : CVSession) : Prop :=
  score_ok (original_score s) /\ score_ok (new_score s).

(** The score an operation is called with, if it takes one. *)
Definition score_argument (op : operation) : option Z :=
  match op with
  | UpdateAnalysis _ _ _ _ original_score _ _ _ _ _ => original_score
  | UpdateEnhancement _ _ _ new_score _ _ => Some new_score
  | _ => None
  end.

(** ** Shape of a row *)

Definition is_not_null {A : Type} (column : option A) : bool :=
  match column with Some _ => true | None => false end.

(** The eight columns [update_analysis] assigns, and the four
    [update_enhancement] assigns: which of them are set. *)
Definition analysis_columns (s : CVSession) : list bool :=
  [is_not_null (job_title s); is_not_null (job_description s);
   is_not_null (original_score s); is_not_null (missing_skills s);
   is_not_null (strengths s); is_not_null (experience_gaps s);
   is_not_null (recommendations s); is_not_null (summary s)].

Definition enhancement_columns (s : CVSession) : list bool :=
  [is_not_null (additional_info s); is_not_null (new_score s);
   is_not_null (improvement_suggestions s); is_not_null (enhanced_cv_path s)].

(** Does a call pass a value, not [None], for each column it assigns? *)
Definition passes_values (op : operation) : bool :=
  match op with
  | UpdateAnalysis _ _ _ _ original_score missing_skills strengths
      experience_gaps recommendations summary =>
      is_not_null original_score && is_not_null missing_skills
      && is_not_null strengths && is_not_null experience_gaps
      && is_not_null recommendations && is_not_null summary
  | _ => true
  end.

Definition all_or_none (columns : list bool) : bool :=
  forallb (fun b => b) columns || forallb negb columns.

(** A row is either not analyzed or fully analyzed, and either not
    enhanced or fully enhanced. *)
Definition whole (s : CVSession) : bool :=
  all_or_none (analysis_columns s) && all_or_none (enhancement_columns s).

(** What is fixed when the row is created. *)
Definition upload_of (s : CVSession)
  : string * string * string * option string * Z :=
  (id s, cv_text s, cv_file_type s, cv_file_path s, created_at s).

(** The row without its [updated_at]. *)
Definition content_of (s : CVSession) : CVSession := touch 0 s.

(** ** Aggregate statistics *)

(** [query.filter(cond).count()]. *)
Definition count_where (cond : CVSession -> bool) (d : db) : nat :=
  List.length (filter cond d).

(** [timedelta(days=n)], in microseconds like the timestamps. *)
Definition days (n : Z) : Z := (n * 86400000000)%Z.

(** [new_score - original_score]: NULL when either is. *)
Definition improvement (s : CVSession) : option Z :=
  match new_score s, original_score s with
  | Some n, Some o => Some (n - o)%Z
  | _, _ => None
  end.

(** [func.max] and [func.min]: NULLs are skipped, and the result is NULL
    when nothing is left. *)
Definition aggregate (pick : Z -> Z -> Z) (values : list (option Z)) : option Z :=
  fold_left
    (fun acc v =>
       match acc, v with
       | Some a, Some b => Some (pick a b)
       | None, _ => v
       | _, None => acc
       end)
    values None.

Definition sql_max : list (option Z) -> option Z := aggregate Z.max.
Definition sql_min : list (option Z) -> option Z := aggregate Z.min.

(** [x or 0]. *)
Definition or_zero (x : option Z) : Z :=
  match x with Some z => z | None => 0%Z end.

(** The values of a column, each once, in order of first appearance. *)
Fixpoint distinct (values : list string) : list string :=
  match values with
  | [] => []
  | v :: rest => v :: filter (fun w => negb (w =? v)) (distinct rest)
  end.

(** GROUP BY cv_file_type with [count]: one entry per file type. *)
Definition file_type_stats (d : db) : list (string * nat) :=
  map (fun t => (t, count_where (fun s => cv_file_type s =? t) d))
    (distinct (map cv_file_type d)).

Definition histogram_total (histogram : list (string * nat)) : nat :=
  list_sum (map snd histogram).

(** The integer entries of the dictionary [get_comprehensive_stats]
    returns.  Its three averages are floating-point numbers rounded to two
    places, and the order of equally frequent job titles in its top ten is
    up to the database; those four entries are not part of the record. *)
Record Stats : Type := mkStats {
  total_sessions : nat;
  analyzed_sessions : nat;
  enhanced_sessions : nat;
  max_original_score : Z;
  min_original_score : Z;
  max_improvement : Z;
  file_type_distribution : list (string * nat);
  jobs_last_7_days : nat;
  jobs_last_30_days : nat;
  high_performing_jobs : nat;
  low_performing_jobs : nat;
  most_improved_jobs : nat
}.

Definition analyzed (d : db) : db :=
  filter (fun s => is_not_null (original_score s)) d.

(** [get_comprehensive_stats]; [now7] and [now30] are the two readings of
    the clock it takes for the 7-day and the 30-day window. *)
Definition get_comprehensive_stats (now7 now30 : Z) (d : db) : Stats :=
  let seven_days_ago := (now7 - days 7)%Z in
  let thirty_days_ago := (now30 - days 30)%Z in
  mkStats
    (List.length d)
    (count_where (fun s => is_not_null (original_score s)) d)
    (count_where (fun s => is_not_null (enhanced_cv_path s)) d)
    (or_zero (sql_max (map original_score (analyzed d))))
    (or_zero (sql_min (map original_score (analyzed d))))
    (or_zero (sql_max (map improvement (analyzed d))))
    (file_type_stats d)
    (count_where (fun s => (seven_days_ago <=? created_at s)%Z) d)
    (count_where (fun s => (thirty_days_ago <=? created_at s)%Z) d)
    (count_where (fun s => score_ge (original_score s) 80) d)
    (count_where
       (fun s =>
          match original_score s with
          | Some v => (v <? 50)%Z
          | None => false
          end) d)
    (count_where
       (fun s =>
          match improvement s with
          | Some v => (20 <=? v)%Z
          | None => false
          end) d).

(** ** The listing in one predicate *)

(** Does a row pass every filter that was given?  This says in one place
    what the chain of [query.filter] calls selects; the listing is compared
    with it in [listing_is_selection]. *)
Definition selected (job_title_ : option string) (min_score max_score : option Z)
    (file_type : option string) (s : CVSession) : bool :=
  (if given job_title_
   then ilike_contains (job_title s) (text_of job_title_) else true)
  && match min_score with
     | Some m => score_ge (original_score s) m
     | None => true
     end
  && match max_score with
     | Some m => score_le (original_score s) m
     | None => true
     end
  && (if given file_type then cv_file_type s =? text_of file_type else true).

(** SQL [lower] on a text. *)
Fixpoint sql_lower_text (text : string) : string :=
  match text with
  | EmptyString => EmptyString
  | String c rest => String (sql_lower c) (sql_lower_text rest)
  end.

(** Newest first. *)
Definition newest_first (rows : list CVSession) : Prop :=
  StronglySorted (fun a b => (created_at b <= created_at a)%Z) rows.

End Crud.

(* ===================================================================== *)
(** * [crud.py]: users *)
(* ===================================================================== *)

Module UserCRUD.

(** A row of [users]. *)
Record User : Type := mkUser {
  id : Z;
  email : option string;
  name : option string;
  created_at : Z;
  last_login : option Z
}.

Definition users : Type := list User.

(** The key an autoincrementing integer primary key gives a new row: one
    more than the largest key in the table. *)
Definition next_id (us : users) : Z :=
  (1 + fold_right Z.max 0 (map id us))%Z.

(** Does a row already hold this e-mail address?  The unique constraint
    does not apply to NULL. *)
Definition email_taken (us : users) (address : option string) : bool :=
  match address with
  | Some a =>
      existsb (fun u => Crud.option_eqb String.eqb (email u) (Some a)) us
  | None => false
  end.

(** The text of the [IntegrityError] a rejected INSERT raises, in the
    wording of the libraries: the driver's message wrapped by SQLAlchemy
    together with the statement and its parameters. *)
Record Driver : Type := mkDriver {
  integrity_error_text : User -> string
}.

Section WithDriver.
Variable driver : Driver.

(** [create_user], committing at time [now]. *)
Definition create_user (now : Z) (us : users) (email_ name_ : option string)
  : result User * users :=
  let db_user := mkUser (next_id us) email_ name_ now None in
  if email_taken us email_ then
    (Raise (mkExn IntegrityError (integrity_error_text driver db_user)), us)
  else (Return db_user, (us ++ [db_user])%list).

(** [get_user_by_email]. *)
Definition get_user_by_email (us : users) (email_ : string) : option User :=
  find (fun u => Crud.option_eqb String.eqb (email u) (Some email_)) us.

(** [get_user_by_id]. *)
Definition get_user_by_id (us : users) (user_id : Z) : option User :=
  find (fun u => (id u =? user_id)%Z) us.

(** The table after a series of [create_user] calls, each with its clock
    reading, starting from the empty table. *)
Definition signups (calls : list (Z * option string * option string)) : users :=
  fold_left
    (fun us call =>
       let '(now, email_, name_) := call in
       snd (create_user now us email_ name_))
    calls [].

End WithDriver.

(** The e-mail addresses the table holds (rows without one contribute
    nothing). *)
Definition addresses (us : users) : list string :=
  flat_map (fun u => match email u with Some a => [a] | None => [] end) us.

End UserCRUD.

(* ===================================================================== *)
(** * [main.py]: the [/api/analyze-cv] endpoint *)
(* ===================================================================== *)

Module Main.

(** The state a request can change: the files on disk and the table. *)
Record World : Type := mkWorld {
  files : Utils.FileSystem;
  database : Crud.db
}.

(** Everything a request reads from outside.  [utcnow] is indexed by the
    number of clock readings already made during the request.
    [store_foreign] is what the database driver does with analysis values
    that are neither [None] nor of the column types (it may reject them or
    coerce them); the code passes the values on without looking at them. *)
Record Env : Type := mkEnv {
  upload_io : Utils.UploadIO;
  extraction : Utils.Env;
  service : OpenAIUtils.Env;
  driver : Crud.Driver;
  utcnow : nat -> Z;
  store_foreign :
    Crud.db -> string -> OpenAIUtils.analysis ->
    result (option Crud.CVSession) * Crud.db
}.

Record analysis_view : Type := mkAnalysisView {
  view_original_score : json;
  view_job_title : string;
  view_current_job_title : string;
  view_target_job_title : string;
  view_summary : json;
  view_strengths : json;
  view_missing_skills : json;
  view_experience_gaps : json;
  view_recommendations : json
}.

Record extracted_data : Type := mkExtracted {
  full_text : string;
  file_type : string;
  file_name : option string;
  text_length : nat;
  text_preview : string
}.

Record next_steps : Type := mkNextSteps {
  can_enhance : bool;
  enhancement_url : string;
  download_url : string;
  recommendations_url : string
}.

(** The JSON envelope of a successful response ([cv_info] repeats the
    type and the preview of [extracted_data]). *)
Record envelope : Type := mkEnvelope {
  success : bool;
  session_id : string;
  analysis : analysis_view;
  extracted : extracted_data;
  cv_info : string * string;
  next : next_steps
}.

Inductive response : Type :=
| Ok (body : envelope)
| HTTPException (status_code : Z) (detail : string).

(** [text[:500] + "..." if len(text) > 500 else text]. *)
Definition preview (text : string) : string :=
  if (500 <? String.length text)%nat then slice_to 500 text ++ "..." else text.

(** A decoded value as an argument for a column: [Some None] for [None],
    [Some (Some x)] for a value of the column type, [None] for anything
    else. *)
Definition as_int (v : json) : option (option Z) :=
  match v with
  | JNull => Some None
  | JInt z => Some (Some z)
  | _ => None
  end.

Definition as_str (v : json) : option (option string) :=
  match v with
  | JNull => Some None
  | JStr s => Some (Some s)
  | _ => None
  end.

Definition str_items (items : list json) : option (list string) :=
  fold_right
    (fun item acc =>
       match item, acc with
       | JStr s, Some l => Some (s :: l)
       | _, _ => None
       end)
    (Some []) items.

Definition as_str_list (v : json) : option (option (list string)) :=
  match v with
  | JNull => Some None
  | JList items =>
      match str_items items with
      | Some l => Some (Some l)
      | None => None
      end
  | _ => None
  end.

(** The call of [CVSessionCRUD.update_analysis] with the unpacked tuple:
    on values that are [None] or of the column types it is
    [Crud.update_analysis]. *)
Definition store_analysis (env : Env) (now : Z) (d : Crud.db)
    (session_id job_title job_description : string)
    (a : OpenAIUtils.analysis) : result (option Crud.CVSession) * Crud.db :=
  let '(score, missing_skills, summary, strengths, experience_gaps,
        recommendations) := a in
  match as_int score, as_str_list missing_skills, as_str_list strengths,
        as_str_list experience_gaps, as_str_list recommendations,
        as_str summary with
  | Some score, Some missing_skills, Some strengths, Some experience_gaps,
    Some recommendations, Some summary =>
      Crud.update_analysis (driver env) now d session_id job_title
        job_description score missing_skills strengths experience_gaps
        recommendations summary
  | _, _, _, _, _, _ => store_foreign env d session_id a
  end.

(** The [try] block of [analyze_cv_complete].  Besides its outcome and the
    world it leaves, it reports whether the local [temp_path] got bound,
    which is what ['temp_path' in locals()] asks in the handlers. *)
Definition analyze_cv_complete_try (env : Env) (file : Utils.UploadFile)
    (current_job_title target_job_title job_description : string) (w : World)
  : option string * result envelope * World :=
  match Utils.save_temp_file (upload_io env) file (files w) with
  | (Raise e, fs) => (None, Raise e, mkWorld fs (database w))
  | (Return temp_path, fs) =>
      match Utils.extract_text (extraction env) temp_path with
      | Raise e => (Some temp_path, Raise e, mkWorld fs (database w))
      | Return (text, filetype) =>
          let session_id := basename temp_path in
          match Crud.create_session (driver env) (utcnow env 0) (utcnow env 1)
                  (database w) session_id text filetype (Some temp_path) with
          | (Raise e, d) => (Some temp_path, Raise e, mkWorld fs d)
          | (Return cv_session, d) =>
              let job_title_to_use :=
                if truthy (strip target_job_title) then target_job_title
                else current_job_title in
              match OpenAIUtils.analyze_cv (service env) text job_title_to_use
                      job_description with
              | Raise e => (Some temp_path, Raise e, mkWorld fs d)
              | Return analysis_result =>
                  let '(score, missing_skills, summary, strengths,
                        experience_gaps, recommendations) := analysis_result in
                  match store_analysis env (utcnow env 2) d session_id
                          job_title_to_use job_description analysis_result with
                  | (Raise e, d') => (Some temp_path, Raise e, mkWorld fs d')
                  | (Return cv_session, d') =>
                      (Some temp_path,
                       Return
                         (mkEnvelope true session_id
                            (mkAnalysisView score job_title_to_use
                               current_job_title target_job_title summary
                               strengths missing_skills experience_gaps
                               recommendations)
                            (mkExtracted text filetype (Utils.filename file)
                               (String.length text) (preview text))
                            (filetype, preview text)
                            (mkNextSteps true "/add-missing-info"
                               ("/download-cv/" ++ session_id)
                               ("/get-recommendations/" ++ session_id))),
                       mkWorld fs d')
                  end
              end
          end
      end
  end.

(** The clean-up both handlers start with:
    [if 'temp_path' in locals() and os.path.exists(temp_path):
       os.remove(temp_path)]. *)
Definition cleanup (temp_path : option string) (w : World) : World :=
  match temp_path with
  | Some path =>
      if Utils.path_exists path (files w)
      then mkWorld (Utils.remove path (files w)) (database w)
      else w
  | None => w
  end.

(** [analyze_cv_complete]: the [try] block under [except ValueError] and
    [except Exception], in that order. *)
Definition analyze_cv_complete (env : Env) (file : Utils.UploadFile)
    (current_job_title target_job_title job_description : string) (w : World)
  : response * World :=
  let '(temp_path, outcome, w') :=
    analyze_cv_complete_try env file current_job_title target_job_title
      job_description w in
  match outcome with
  | Return body => (Ok body, w')
  | Raise e =>
      let w' := cleanup temp_path w' in
      if is_ValueError e then (HTTPException 400 (str e), w')
      else (HTTPException 500 ("Analysis failed: " ++ str e), w')
  end.

(** [read_root]. *)
Definition read_root : string := "CV Analyzer API is running.".

End Main.

(* ===================================================================== *)
(** * Concrete environments *)
(* ===================================================================== *)

Module Examples.

(** A decoder given by a table of texts and their values; any other text
    is rejected the way [json.loads] rejects the empty string. *)
Definition decoder (table : list (string * json)) (text : string) : result json :=
  match find (fun entry => fst entry =? text) table with
  | Some (_, v) => Return v
  | None =>
      Raise (mkExn JSONDecodeError "Expecting value: line 1 column 1 (char 0)")
  end.

Definition wording : error_text := fun _ _ => "unsupported operand".

(** A standard output that takes every line. *)
Definition stdout (line : string) : result unit := Return tt.

(** A standard output with the ASCII encoding: a line with any other
    character is refused. *)
Definition ascii_stdout (line : string) : result unit :=
  if forallb (fun c => (N_of_ascii c <? 128)%N) (list_ascii_of_string line)
  then Return tt
  else Raise (mkExn UnicodeEncodeError
                "'ascii' codec can't encode character: ordinal not in range(128)").

(** A standard output whose reader has gone away. *)
Definition broken_pipe (line : string) : result unit :=
  Raise (mkExn OSError "[Errno 32] Broken pipe").

(** A service with the given credential that answers every request with
    [reply]. *)
Definition service (key : option string) (reply : result (option string))
    (table : list (string * json)) : OpenAIUtils.Env :=
  OpenAIUtils.mkEnv key (fun _ => Return tt) (fun _ => reply) (decoder table)
    wording stdout.

(** The reply is a sentence with accented letters, and standard output is
    ASCII. *)
Definition e_acute : string := String (ascii_of_nat 233) EmptyString.

Definition accented_reply : string :=
  "D" ++ e_acute ++ "sol" ++ e_acute ++ ", je ne peux pas r" ++ e_acute
  ++ "pondre.".

Definition accented_reply_ascii_stdout : OpenAIUtils.Env :=
  OpenAIUtils.mkEnv (Some "sk-test") (fun _ => Return tt)
    (fun _ => Return (Some accented_reply))
    (decoder [("{}", JDict [])]) wording ascii_stdout.

(** The reply is an empty JSON object inside a code fence. *)
Definition empty_object_reply : OpenAIUtils.Env :=
  service (Some "sk-test") (Return (Some "```json
{}
```"))
    [("{}", JDict [])].

(** The reply is prose, not JSON. *)
Definition prose_reply : OpenAIUtils.Env :=
  service (Some "sk-test") (Return (Some "Sorry, I cannot help with that."))
    [("{}", JDict [])].

(** The reply is an object whose only field is a score of 150. *)
Definition score_150_text : string := "{" ++ quoted "score" ++ ": 150}".

Definition score_150_reply : OpenAIUtils.Env :=
  service (Some "sk-test") (Return (Some score_150_text))
    [(score_150_text, JDict [("score", JInt 150)])].

(** The reply is an object whose score is 2^63, one more than an INTEGER
    column holds; and one whose score is null. *)
Definition score_too_large_text : string :=
  "{" ++ quoted "score" ++ ": 9223372036854775808}".

Definition score_too_large_reply : OpenAIUtils.Env :=
  service (Some "sk-test") (Return (Some score_too_large_text))
    [(score_too_large_text, JDict [("score", JInt 9223372036854775808)])].

Definition null_score_text : string := "{" ++ quoted "score" ++ ": null}".

Definition null_score_reply : OpenAIUtils.Env :=
  service (Some "sk-test") (Return (Some null_score_text))
    [(null_score_text, JDict [("score", JNull)])].

(** The reply has a summary and a score and none of the list fields. *)
Definition partial_text : string :=
  "{" ++ quoted "summary" ++ ": " ++ quoted "Solid." ++ ", "
  ++ quoted "score" ++ ": 81}".

Definition partial_reply : OpenAIUtils.Env :=
  service (Some "sk-test") (Return (Some partial_text))
    [(partial_text, JDict [("summary", JStr "Solid."); ("score", JInt 81)])].

(** No credential in the process environment. *)
Definition no_credential : OpenAIUtils.Env :=
  service None (Return (Some "{}")) [("{}", JDict [])].

(** The service cannot be reached. *)
Definition service_down : OpenAIUtils.Env :=
  service (Some "sk-test") (Raise (mkExn OtherException "Connection error."))
    [].

(** A machine without the OCR engine, on which no file can be opened. *)
Definition unreadable (e : exn) : Utils.Env :=
  Utils.mkEnv (fun _ => Raise e) (fun _ => Raise e) (fun _ => Raise e)
    (fun _ => Raise e) (fun _ => Raise e) (fun _ => Raise e) stdout.

Definition tesseract_missing : exn :=
  mkExn OtherException
    "tesseract is not installed or it's not in your PATH. See README file for more information.".

Definition no_ocr : Utils.Env := unreadable tesseract_missing.

(** A machine with the OCR engine; every text file holds the two lines of
    the end-to-end scenario. *)
Definition with_ocr : Utils.Env :=
  Utils.mkEnv (fun _ => Return tt)
    (fun _ => Return [Some "Jane Doe"; None])
    (fun _ => Return "Jane Doe
Python Developer")
    (fun _ => Raise (mkExn OtherException "File is not a zip file"))
    (fun _ => Raise (mkExn OtherException "Package not found"))
    (fun _ => Return "Jane Doe") stdout.

(** The same machine with a standard output nobody reads any more. *)
Definition with_ocr_broken_pipe : Utils.Env :=
  Utils.mkEnv (fun _ => Return tt)
    (fun _ => Return [Some "Jane Doe"; None])
    (fun _ => Return "Jane Doe
Python Developer")
    (fun _ => Raise (mkExn OtherException "File is not a zip file"))
    (fun _ => Raise (mkExn OtherException "Package not found"))
    (fun _ => Return "Jane Doe") broken_pipe.

(** A machine with the OCR engine on which the image cannot be opened. *)
Definition unreadable_image : Utils.Env :=
  Utils.mkEnv (fun _ => Return tt) (fun _ => Return [])
    (fun _ => Return "") (fun _ => Return "")
    (fun _ => Raise (mkExn OtherException "Package not found"))
    (fun _ => Raise (mkExn OtherException "cannot identify image file"))
    stdout.

(** A document mammoth gets almost nothing out of: a blank paragraph, a
    name, and a table whose second row is blank. *)
Definition table_document : Utils.Document :=
  Utils.mkDocument
    [Utils.mkParagraph "  " [" "];
     Utils.mkParagraph "Jane Doe" ["Jane "; "Doe"]]
    [[[[Utils.mkParagraph " Python " ["Python"]];
       [Utils.mkParagraph "   " []];
       [Utils.mkParagraph "5 years" ["5 "; "years"]]];
      [[Utils.mkParagraph "" []]; [Utils.mkParagraph " " [" "]]]]].

Definition docx_with_table : Utils.Env :=
  Utils.mkEnv (fun _ => Return tt) (fun _ => Return [])
    (fun _ => Return "")
    (fun _ => Return "  CV
")
    (fun _ => Return table_document)
    (fun _ => Return "") stdout.

(** A freshly created row, and the same row after an analysis that gave
    it [score]. *)
Definition uploaded (session_id : string) (created : Z) : Crud.CVSession :=
  Crud.mkSession session_id "Jane Doe" "txt" (Some ("/tmp/" ++ session_id))
    None None None None None None None None None None None None
    created created.

Definition analyzed (session_id : string) (created score : Z) : Crud.CVSession :=
  Crud.set_analysis (uploaded session_id created) "Developer" "Need Python"
    (Some score) (Some ["Rust"]) (Some ["Python"]) (Some [])
    (Some ["Learn Rust"]) (Some "A fair match.").

(** Structural equality of scalars; enough for the histories below. *)
Definition same_json (a b : json) : bool :=
  match a, b with
  | JNull, JNull => true
  | JBool x, JBool y => Bool.eqb x y
  | JInt x, JInt y => (x =? y)%Z
  | JStr x, JStr y => (x =? y)%string
  | _, _ => false
  end.

(** The upload is copied to [/tmp/tmpk3v9] plus its suffix. *)
Definition healthy_disk : Utils.UploadIO :=
  Utils.mkUploadIO (fun suffix => Return ("/tmp/tmpk3v9" ++ suffix))
    (Return "Jane Doe
Python Developer")
    (fun _ => Return tt) (Return tt).

(** The temporary file is created, then writing the copy fails. *)
Definition disk_full : Utils.UploadIO :=
  Utils.mkUploadIO (fun suffix => Return ("/tmp/tmpk3v9" ++ suffix))
    (Return "Jane Doe
Python Developer")
    (fun _ => Raise (mkExn OSError "[Errno 28] No space left on device"))
    (Return tt).

(** A stand-in for the wording of the libraries: the driver's message
    after the class it is wrapped in, without the statement and the
    parameters that follow it. *)
Definition sqlite : Crud.Driver :=
  Crud.mkDriver
    (fun _ => "(sqlite3.IntegrityError) UNIQUE constraint failed: cv_sessions.id")
    "Python int too large to convert to SQLite INTEGER".

Definition sqlite_users : UserCRUD.Driver :=
  UserCRUD.mkDriver
    (fun _ => "(sqlite3.IntegrityError) UNIQUE constraint failed: users.email").

(** A request environment whose clock ticks once per reading and whose
    driver rejects values that are not of the column types. *)
Definition request_env (io : Utils.UploadIO) (extraction : Utils.Env)
    (service : OpenAIUtils.Env) : Main.Env :=
  Main.mkEnv io extraction service sqlite (fun n => Z.of_nat n)
    (fun d _ _ =>
       (Raise (mkExn OtherException "Error binding parameter"), d)).

Definition empty_world : Main.World := Main.mkWorld [] [].

End Examples.

(* ===================================================================== *)
(** * Facts about the runtime model *)
(* ===================================================================== *)

Example strip_example : strip "  a b
" = "a b".
Proof. reflexivity. Qed.

Example splitext_examples :
  splitext "/tmp/tmpab12.PDF" = ("/tmp/tmpab12", ".PDF")
  /\ splitext "/tmp.d/.bashrc" = ("/tmp.d/.bashrc", "")
  /\ splitext "a.tar.gz" = ("a.tar", ".gz")
  /\ splitext "..png" = ("..png", "")
  /\ basename "/tmp/tmpab12.txt" = "tmpab12.txt".
Proof. repeat split; reflexivity. Qed.

Example slice_examples :
  endswith "```" "{}```" = true
  /\ slice_drop_last 3 "{}```" = "{}"
  /\ slice_from 7 "```json{}" = "{}"
  /\ contains "core" "score" = true
  /\ lower ".DocX" = ".docx".
Proof. repeat split; reflexivity. Qed.

Example clean_content_example :
  OpenAIUtils.clean_content (strip "```json
{}
```") = "{}".
Proof. reflexivity. Qed.

Lemma dict_lookup_setitem (key key' : string) (v : json) (d : dict) :
  dict_lookup key (dict_setitem key' v d)
  = if key' =? key then Some v else dict_lookup key d.
Proof.
  induction d as [|[k w] d IH]; simpl.
  - destruct (key' =? key); reflexivity.
  - destruct (k =? key') eqn:Ek; simpl.
    + apply String.eqb_eq in Ek; subst k.
      destruct (key' =? key); reflexivity.
    + destruct (k =? key) eqn:Ek'.
      * apply String.eqb_eq in Ek'; subst k. rewrite String.eqb_sym, Ek.
        reflexivity.
      * exact IH.
Qed.

(* ===================================================================== *)
(** * The analyzer and the enhancer *)
(* ===================================================================== *)

Section Analyzer.
Import OpenAIUtils.
Variable env : Env.

Lemma ensure_keys_on_dict (keys : list string) (d : dict) :
  for_each keys (ensure_key env) (JDict d) = Return (JDict (backfill keys d)).
Proof.
  revert d; induction keys as [|key keys IH]; intro d; simpl.
  - reflexivity.
  - unfold ensure_key at 1; simpl.
    destruct (dict_contains key d); simpl; apply IH.
Qed.

Lemma backfill_lookup (keys : list string) (d : dict) (key : string) :
  dict_lookup key (backfill keys d)
  = match dict_lookup key d with
    | Some v => Some v
    | None =>
        if existsb (String.eqb key) keys then Some (default_for key) else None
    end.
Proof.
  revert d; induction keys as [|k keys IH]; intro d; simpl.
  - destruct (dict_lookup key d); reflexivity.
  - rewrite IH. unfold dict_contains.
    destruct (dict_lookup k d) eqn:Ek.
    + destruct (dict_lookup key d) eqn:Ekey; [reflexivity|].
      destruct (key =? k) eqn:E; [|reflexivity].
      apply String.eqb_eq in E; subst k. congruence.
    + rewrite dict_lookup_setitem, (String.eqb_sym key k).
      destruct (k =? key) eqn:E.
      * apply String.eqb_eq in E; subst k. rewrite Ek. reflexivity.
      * reflexivity.
Qed.

Lemma backfill_required (d : dict) (key : string) :
  existsb (String.eqb key) required_keys = true ->
  dict_lookup key (backfill required_keys d)
  = Some (dict_get key (default_for key) d).
Proof.
  intro H. rewrite backfill_lookup, H. unfold dict_get.
  destruct (dict_lookup key d); reflexivity.
Qed.

(** What the [try] block computes once the reply decoded to a [dict]. *)
Lemma analyze_cv_try_on_dict (cv_text job_title job_desc raw : string) (d : dict) :
  returns (get_openai_client env) ->
  chat_completions_create env (analyze_request cv_text job_title job_desc)
  = Return (Some raw) ->
  json_loads env (clean_content (strip raw)) = Return (JDict d) ->
  analyze_cv_try env cv_text job_title job_desc
  = Return (dict_get "score" (JInt 50) d,
            dict_get "missing_skills" (JList []) d,
            dict_get "summary" (JStr "Analysis incomplete") d,
            dict_get "strengths" (JList []) d,
            dict_get "experience_gaps" (JList []) d,
            dict_get "recommendations" (JList []) d).
Proof.
  intros [client Hclient] Hreply Hloads.
  unfold analyze_cv_try.
  rewrite Hclient; cbn [bind]. rewrite Hreply; cbn [bind content_strip].
  rewrite Hloads; cbn [bind]. rewrite ensure_keys_on_dict; cbn [bind].
  unfold py_getitem, py_get.
  rewrite !backfill_required by reflexivity. cbn [bind].
  unfold dict_get at 4 5 6.
  rewrite !backfill_required by reflexivity.
  unfold dict_get; reflexivity.
Qed.

End Analyzer.

Section AnalyzerResults.
Import OpenAIUtils.

Lemma missing_credential (env : Env) :
  OPENAI_API_KEY env = None \/ OPENAI_API_KEY env = Some "" ->
  get_openai_client env
  = Raise (mkExn ValueError "OPENAI_API_KEY environment variable is not set").
Proof.
  unfold get_openai_client. intros [H|H]; rewrite H; reflexivity.
Qed.

(** The two handlers when standard output takes their lines. *)
Lemma handlers_return (env : Env) (cv_text job_title job_desc : string)
    (e : exn) :
  (forall line, print env line = Return tt) ->
  on_JSONDecodeError env cv_text job_title job_desc e = Return parsing_failed
  /\ on_Exception env e = Return (api_failed e).
Proof.
  intro Hprint. unfold on_JSONDecodeError, on_Exception.
  rewrite !Hprint. split; reflexivity.
Qed.

(** An exception that leaves a handler was raised by one of its [print]
    calls. *)
Lemma handlers_raise_what_print_raised (env : Env)
    (cv_text job_title job_desc : string) (e e' : exn) :
  on_JSONDecodeError env cv_text job_title job_desc e = Raise e'
  \/ on_Exception env e = Raise e' ->
  exists line, print env line = Raise e'.
Proof.
  unfold on_JSONDecodeError, on_Exception. intros [H|H].
  - destruct (print env ("JSON parsing error: " ++ str e)) as [u|e1] eqn:E1;
      cbn [bind] in H.
    + destruct (print env ("Raw response: " ++ _)) as [u'|e2] eqn:E2;
        cbn [bind] in H; [discriminate H|].
      injection H as <-. eexists; exact E2.
    + injection H as <-. eexists; exact E1.
  - destruct (print env ("OpenAI API error: " ++ str e)) as [u|e1] eqn:E1;
      cbn [bind] in H; [discriminate H|].
    injection H as <-. eexists; exact E1.
Qed.

(** C1.  An exception escapes where the handler cannot print.  The reply
    is a sentence with accented letters, so [json.loads] raises
    [JSONDecodeError]; the handler prints its first line, and the second,
    which carries the reply, is refused by an ASCII standard output.  The
    [UnicodeEncodeError] of that [print] is raised inside the [except]
    clause, before its [return], and leaves [analyze_cv]. *)
Theorem analyze_cv_print_failure_escapes :
  let env := Examples.accented_reply_ascii_stdout in
  analyze_cv_try env "Jane Doe" "Developer" "Need Python"
  = Raise (mkExn JSONDecodeError "Expecting value: line 1 column 1 (char 0)")
  /\ print env
       "JSON parsing error: Expecting value: line 1 column 1 (char 0)"
     = Return tt
  /\ exists e : exn,
       print env ("Raw response: " ++ Examples.accented_reply) = Raise e
       /\ exn_cls e = UnicodeEncodeError
       /\ analyze_cv env "Jane Doe" "Developer" "Need Python" = Raise e.
Proof.
  split; [reflexivity|]. split; [reflexivity|].
  eexists. split; [reflexivity|]. split; reflexivity.
Qed.

(** X26.  As long as standard output takes the lines the handlers print,
    [analyze_cv] does not let an exception escape.  When the reply of the
    service is not valid JSON ([json.loads] raises [JSONDecodeError]) it
    returns the fixed tuple with score 50 and a placeholder in every field.
    On any other failure of its [try] block -- a missing or empty
    credential, an exception of the service call -- it returns score 50,
    empty strengths and experience gaps, the recommendation to check the API
    key, and the summary ["Analysis failed: "] followed by the error text.
    And whatever standard output does: an exception that leaves
    [analyze_cv] is one that a [print] of a handler raised. *)
Theorem analyze_cv_degrades (env : Env) (cv_text job_title job_desc : string) :
  ((forall line, print env line = Return tt) ->
   returns (analyze_cv env cv_text job_title job_desc)
   /\ (forall (raw : string) (e : exn),
         returns (get_openai_client env) ->
         chat_completions_create env
           (analyze_request cv_text job_title job_desc)
         = Return (Some raw) ->
         json_loads env (clean_content (strip raw)) = Raise e ->
         is_JSONDecodeError e = true ->
         analyze_cv env cv_text job_title job_desc
         = Return (JInt 50,
                   JList [JStr "Analysis parsing failed"],
                   JStr "Could not parse AI analysis response",
                   JList [JStr "Please try again"],
                   JList [JStr "Technical issue occurred"],
                   JList [JStr "Contact support if problem persists"]))
   /\ (forall e : exn,
         analyze_cv_try env cv_text job_title job_desc = Raise e ->
         is_JSONDecodeError e = false ->
         analyze_cv env cv_text job_title job_desc
         = Return (JInt 50,
                   JList [JStr "Unable to analyze - API error"],
                   JStr ("Analysis failed: " ++ str e),
                   JList [],
                   JList [],
                   JList [JStr "Please check your OpenAI API key and try again"]))
   /\ (OPENAI_API_KEY env = None \/ OPENAI_API_KEY env = Some "" ->
       analyze_cv env cv_text job_title job_desc
       = Return (api_failed
                   (mkExn ValueError
                      "OPENAI_API_KEY environment variable is not set"))))
  /\ (forall e' : exn,
        analyze_cv env cv_text job_title job_desc = Raise e' ->
        exists line, print env line = Raise e').
Proof.
  split.
  - intro Hprint.
    assert (Hhandled : forall e,
              analyze_cv_try env cv_text job_title job_desc = Raise e ->
              analyze_cv env cv_text job_title job_desc
              = Return (if is_JSONDecodeError e then parsing_failed
                        else api_failed e)).
    { intros e Htry. unfold analyze_cv. rewrite Htry. cbn [try_except].
      destruct (handlers_return env cv_text job_title job_desc e Hprint)
        as [-> ->].
      destruct (is_JSONDecodeError e); reflexivity. }
    split; [|split; [|split]].
    + destruct (analyze_cv_try env cv_text job_title job_desc) as [a|e] eqn:E.
      * exists a. unfold analyze_cv. rewrite E. reflexivity.
      * eexists. apply Hhandled. reflexivity.
    + intros raw e [client Hclient] Hreply Hloads He.
      rewrite (Hhandled e); [rewrite He; reflexivity|].
      unfold analyze_cv_try.
      rewrite Hclient; cbn [bind]. rewrite Hreply; cbn [bind content_strip].
      rewrite Hloads. reflexivity.
    + intros e Htry He. rewrite (Hhandled e Htry), He. reflexivity.
    + intro H. rewrite (Hhandled (mkExn ValueError
                          "OPENAI_API_KEY environment variable is not set")).
      * reflexivity.
      * unfold analyze_cv_try. rewrite (missing_credential env H).
        reflexivity.
  - intros e' H. unfold analyze_cv, try_except in H.
    destruct (analyze_cv_try env cv_text job_title job_desc) as [a|e];
      [discriminate H|].
    apply (handlers_raise_what_print_raised env cv_text job_title job_desc e).
    destruct (is_JSONDecodeError e); [left|right]; exact H.
Qed.

(** X26 at a reply that is prose: the placeholder tuple comes back. *)
Lemma analyze_cv_degrades_witness :
  analyze_cv Examples.prose_reply "Jane Doe" "Developer" "Need Python"
  = Return parsing_failed.
Proof.
  apply (proj1 (proj2 (proj1 (analyze_cv_degrades Examples.prose_reply
                                "Jane Doe" "Developer" "Need Python")
                         (fun line => eq_refl))))
    with (raw := "Sorry, I cannot help with that.")
         (e := mkExn JSONDecodeError "Expecting value: line 1 column 1 (char 0)").
  - exists "sk-test"; reflexivity.
  - reflexivity.
  - reflexivity.
  - reflexivity.
Defined.

(** On a decoded value that is not an object the normalisation loop
    either leaves it alone or raises [TypeError]. *)
Lemma ensure_keys_on_other (env : Env) (keys : list string) (v : json) :
  is_dict v = false ->
  for_each keys (ensure_key env) v = Return v
  \/ exists msg, for_each keys (ensure_key env) v = Raise (mkExn TypeError msg).
Proof.
  intro Hv. induction keys as [|key keys IH]; simpl; [left; reflexivity|].
  unfold ensure_key at 1 3.
  destruct v; try discriminate Hv; simpl;
    try (right; eexists; reflexivity).
  - destruct (contains key s); simpl; [exact IH|right; eexists; reflexivity].
  - destruct (existsb (is_str key) items); simpl;
      [exact IH|right; eexists; reflexivity].
Qed.

Lemma analyze_cv_on_other (env : Env) (cv_text job_title job_desc raw : string)
    (v : json) :
  returns (get_openai_client env) ->
  chat_completions_create env (analyze_request cv_text job_title job_desc)
  = Return (Some raw) ->
  json_loads env (clean_content (strip raw)) = Return v ->
  is_dict v = false ->
  exists msg,
    analyze_cv_try env cv_text job_title job_desc
    = Raise (mkExn TypeError msg).
Proof.
  intros [client Hclient] Hreply Hloads Hv. unfold analyze_cv_try.
  rewrite Hclient; cbn [bind]. rewrite Hreply; cbn [bind content_strip].
  rewrite Hloads; cbn [bind].
  destruct (ensure_keys_on_other env required_keys v Hv) as [-> | [msg ->]].
  - cbn [bind]. destruct v; try discriminate Hv; eexists; reflexivity.
  - eexists; reflexivity.
Qed.

(** C2.  When the reply decodes to a JSON object, each component of the
    returned 6-tuple is the object's own value for that field when it has
    one; an absent [score] comes back as 50, an absent [summary] as
    ["Analysis incomplete"], and each absent list field as the empty list.
    No component is left out.  A reply that decodes to anything else than
    an object has no fields to fill: the [TypeError] it causes is caught,
    its line is printed and the fixed tuple of the generic failure is
    returned. *)
Theorem analyze_cv_backfills_missing_fields
    (env : Env) (cv_text job_title job_desc raw : string) :
  returns (get_openai_client env) ->
  chat_completions_create env (analyze_request cv_text job_title job_desc)
  = Return (Some raw) ->
  (forall d : dict,
     json_loads env (clean_content (strip raw)) = Return (JDict d) ->
     analyze_cv env cv_text job_title job_desc
     = Return (dict_get "score" (JInt 50) d,
               dict_get "missing_skills" (JList []) d,
               dict_get "summary" (JStr "Analysis incomplete") d,
               dict_get "strengths" (JList []) d,
               dict_get "experience_gaps" (JList []) d,
               dict_get "recommendations" (JList []) d))
  /\ (forall v : json,
        json_loads env (clean_content (strip raw)) = Return v ->
        is_dict v = false ->
        exists msg,
          analyze_cv env cv_text job_title job_desc
          = (_ <- print env ("OpenAI API error: " ++ msg) ;;
             Return (JInt 50,
                     JList [JStr "Unable to analyze - API error"],
                     JStr ("Analysis failed: " ++ msg),
                     JList [],
                     JList [],
                     JList [JStr "Please check your OpenAI API key and try again"]))).
Proof.
  intros Hclient Hreply. split.
  - intros d Hloads. unfold analyze_cv.
    rewrite (analyze_cv_try_on_dict env cv_text job_title job_desc raw d
               Hclient Hreply Hloads).
    reflexivity.
  - intros v Hloads Hv.
    destruct (analyze_cv_on_other env cv_text job_title job_desc raw v
                Hclient Hreply Hloads Hv) as [msg H].
    exists msg. unfold analyze_cv. rewrite H. reflexivity.
Qed.

(** C2 at the empty object: every field is back-filled. *)
Lemma analyze_cv_backfills_missing_fields_witness :
  analyze_cv Examples.empty_object_reply "Jane Doe" "Developer" "Need Python"
  = Return (JInt 50, JList [], JStr "Analysis incomplete",
            JList [], JList [], JList []).
Proof.
  apply (proj1 (analyze_cv_backfills_missing_fields Examples.empty_object_reply
                  "Jane Doe" "Developer" "Need Python" "```json
{}
```" (ex_intro _ "sk-test" eq_refl) eq_refl) []).
  reflexivity.
Defined.

(** A reply with a score and a summary only: both are kept, the four list
    fields are filled in. *)
Example analyze_cv_partial_reply :
  analyze_cv Examples.partial_reply "Jane Doe" "Developer" "Need Python"
  = Return (JInt 81, JList [], JStr "Solid.", JList [], JList [], JList []).
Proof. reflexivity. Qed.

(** C3 as it is written -- whatever the service does, the enhancer returns a
    mapping with all six keys -- fails when the reply is the empty object
    [{}]: it is returned as it is, with none of the six keys. *)
Lemma suggestions_not_always_complete :
  ~ (forall (env : Env) (cv_text additional_info : string)
            (missing_skills : list string),
     exists v : json,
       generate_cv_improvement_suggestions env cv_text additional_info
         missing_skills = Return v
       /\ has_keys suggestion_keys v = true).
Proof.
  intro H.
  destruct (H Examples.empty_object_reply "Jane Doe" "Knows Rust" ["Rust"])
    as [v [Hv Hkeys]].
  vm_compute in Hv. injection Hv as <-. discriminate Hkeys.
Qed.

(** C3, amended.  When the reply decodes, the decoded value is returned
    unchanged, so it has the six keys exactly when the reply has them.
    When anything in the [try] block fails and the line of the handler is
    printed, the default mapping is returned, which has the six keys and
    an [error] key with ["Enhancement failed: "] followed by the failure
    text. *)
Theorem suggestions_pass_through_or_default
    (env : Env) (cv_text additional_info : string) (missing_skills : list string) :
  (forall (raw : string) (v : json),
     returns (get_openai_client env) ->
     chat_completions_create env
       (suggestions_request cv_text additional_info missing_skills)
     = Return (Some raw) ->
     json_loads env (clean_content (strip raw)) = Return v ->
     generate_cv_improvement_suggestions env cv_text additional_info
       missing_skills = Return v)
  /\ (forall e : exn,
        generate_cv_improvement_suggestions_try env cv_text additional_info
          missing_skills = Raise e ->
        print env ("CV improvement suggestions error: " ++ str e)
        = Return tt ->
        generate_cv_improvement_suggestions env cv_text additional_info
          missing_skills = Return (default_suggestions e)
        /\ has_keys suggestion_keys (default_suggestions e) = true
        /\ dict_lookup "error" (default_entries e)
           = Some (JStr ("Enhancement failed: " ++ str e))).
Proof.
  split.
  - intros raw v [client Hclient] Hreply Hloads.
    unfold generate_cv_improvement_suggestions,
      generate_cv_improvement_suggestions_try.
    rewrite Hclient; cbn [bind]. rewrite Hreply; cbn [bind content_strip].
    rewrite Hloads. reflexivity.
  - intros e Htry Hprint. unfold generate_cv_improvement_suggestions.
    rewrite Htry. cbn [try_except]. rewrite Hprint. repeat split.
Qed.

(** The amended C3 without a credential: the default mapping. *)
Lemma suggestions_pass_through_or_default_witness :
  generate_cv_improvement_suggestions Examples.no_credential "Jane Doe"
    "Knows Rust" ["Rust"]
  = Return (default_suggestions
              (mkExn ValueError "OPENAI_API_KEY environment variable is not set")).
Proof.
  apply (proj2 (suggestions_pass_through_or_default
                  Examples.no_credential "Jane Doe" "Knows Rust" ["Rust"]));
    reflexivity.
Defined.

End AnalyzerResults.

(* ===================================================================== *)
(** * Text extraction *)
(* ===================================================================== *)

Section Extraction.
Import Utils.

Lemma lstrip_starts_visible (s : string) :
  truthy (lstrip s) = true -> starts_visible (lstrip s) = true.
Proof.
  induction s as [|c r IH]; simpl; [discriminate|].
  destruct (isspace c) eqn:E; [exact IH|].
  intros _; simpl. rewrite E; reflexivity.
Qed.

Lemma rstrip_keeps_visible_start (s : string) :
  starts_visible s = true -> starts_visible (rstrip s) = true.
Proof.
  destruct s as [|c r]; simpl; [discriminate|].
  destruct (isspace c) eqn:E; [discriminate|].
  intros _. destruct (rstrip r); simpl; rewrite E; reflexivity.
Qed.

Lemma rstrip_empty (s : string) : s = "" -> rstrip s = "".
Proof. intros ->; reflexivity. Qed.

Lemma strip_starts_visible (s : string) :
  truthy (strip s) = true -> starts_visible (strip s) = true.
Proof.
  unfold strip. intro H. apply rstrip_keeps_visible_start.
  apply lstrip_starts_visible.
  destruct (lstrip s); [discriminate H|reflexivity].
Qed.

Lemma starts_visible_strip (s : string) :
  starts_visible s = true -> truthy (strip s) = true.
Proof.
  intro H. unfold strip.
  assert (Hl : lstrip s = s).
  { destruct s as [|c r]; [reflexivity|]. simpl in *.
    destruct (isspace c); [discriminate|reflexivity]. }
  rewrite Hl. apply rstrip_keeps_visible_start in H.
  destruct (rstrip s); [discriminate H|reflexivity].
Qed.

Lemma starts_visible_truthy (s : string) :
  starts_visible s = true -> truthy s = true.
Proof. destruct s; [discriminate|reflexivity]. Qed.

Lemma join_starts_visible (sep x : string) (xs : list string) :
  starts_visible x = true -> starts_visible (join sep (x :: xs)) = true.
Proof.
  unfold join. destruct x as [|c r]; [discriminate|].
  intro H. destruct xs; simpl; exact H.
Qed.

(** Every collecting loop is a filter followed by a map. *)
Lemma collect_loop {A B : Type} (keep : A -> bool) (f : A -> B)
    (xs : list A) (acc : list B) :
  fold_left (fun acc x => append_if (keep x) (f x) acc) xs acc
  = (acc ++ map f (filter keep xs))%list.
Proof.
  revert acc; induction xs as [|x xs IH]; intro acc; simpl.
  - rewrite app_nil_r; reflexivity.
  - rewrite IH. unfold append_if. destruct (keep x); simpl.
    + rewrite <- app_assoc; reflexivity.
    + reflexivity.
Qed.

(** Nested loops that append to one accumulator. *)
Lemma nested_loop {A B : Type} (inner : list B -> A -> list B)
    (parts : A -> list B)
    (Hinner : forall acc x, inner acc x = (acc ++ parts x)%list)
    (xs : list A) (acc : list B) :
  fold_left inner xs acc = (acc ++ flat_map parts xs)%list.
Proof.
  revert acc; induction xs as [|x xs IH]; intro acc; simpl.
  - rewrite app_nil_r; reflexivity.
  - rewrite IH, Hinner, <- app_assoc; reflexivity.
Qed.

Lemma filter_map_comm {A B : Type} (p : B -> bool) (f : A -> B) (xs : list A) :
  filter p (map f xs) = map f (filter (fun x => p (f x)) xs).
Proof.
  induction xs as [|x xs IH]; simpl; [reflexivity|].
  destruct (p (f x)); simpl; rewrite IH; reflexivity.
Qed.

Lemma collect_paragraphs_policy (doc : Document) (acc : list string) :
  collect_paragraphs doc acc
  = (acc ++ filter Policy.visible (map para_text (doc_paragraphs doc)))%list.
Proof.
  unfold collect_paragraphs. rewrite collect_loop, filter_map_comm.
  reflexivity.
Qed.

Lemma cell_text_policy (cell : Cell) : cell_text cell = Policy.cell_texts cell.
Proof.
  unfold cell_text, Policy.cell_texts.
  rewrite (collect_loop (fun para => truthy (strip (para_text para)))
             (fun para => strip (para_text para))).
  rewrite filter_map_comm, map_map. reflexivity.
Qed.

Lemma row_text_policy (row : Row) : row_text row = Policy.cells_of_row row.
Proof.
  unfold row_text, Policy.cells_of_row.
  rewrite (collect_loop (fun cell => nonempty (cell_text cell))
             (fun cell => join " " (cell_text cell))).
  rewrite filter_map_comm, map_map. simpl.
  rewrite (filter_ext (fun cell => nonempty (cell_text cell))
             (fun cell => nonempty (Policy.cell_texts cell)))
    by (intro; rewrite cell_text_policy; reflexivity).
  apply map_ext; intro cell. rewrite cell_text_policy; reflexivity.
Qed.

(** The text of a cell that has any starts with a visible character. *)
Lemma cell_texts_visible (cell : Cell) :
  Forall (fun s => starts_visible s = true) (Policy.cell_texts cell).
Proof.
  unfold Policy.cell_texts. apply Forall_forall. intros s Hin.
  apply in_map_iff in Hin as [t [<- Ht]].
  apply filter_In in Ht as [_ Ht]. apply strip_starts_visible, Ht.
Qed.

Lemma cells_of_row_visible (row : Row) :
  Forall (fun s => starts_visible s = true) (Policy.cells_of_row row).
Proof.
  unfold Policy.cells_of_row. apply Forall_forall. intros s Hin.
  apply in_map_iff in Hin as [texts [<- Ht]].
  apply filter_In in Ht as [Hin Hne].
  apply in_map_iff in Hin as [cell [<- _]].
  pose proof (cell_texts_visible cell) as Hv.
  destruct (Policy.cell_texts cell) as [|x xs]; [discriminate|].
  apply join_starts_visible. inversion Hv; assumption.
Qed.

Lemma filter_all {A : Type} (p : A -> bool) (xs : list A) :
  Forall (fun x => p x = true) xs -> filter p xs = xs.
Proof.
  induction 1 as [|x xs Hx _ IH]; simpl; [reflexivity|].
  rewrite Hx, IH; reflexivity.
Qed.

(** A table row contributes its non-blank cells joined with [" | "], and
    nothing when every cell is blank. *)
Lemma collect_row_policy (acc : list string) (row : Row) :
  collect_row acc row = (acc ++ Policy.row_line row)%list.
Proof.
  unfold collect_row, Policy.row_line. rewrite row_text_policy.
  pose proof (cells_of_row_visible row) as Hv.
  destruct (Policy.cells_of_row row) as [|x xs] eqn:E; simpl nonempty; cbv iota.
  - rewrite app_nil_r; reflexivity.
  - rewrite filter_all
      by (eapply Forall_impl; [|exact Hv]; intros s; apply starts_visible_truthy).
    unfold append_if.
    rewrite starts_visible_strip; [reflexivity|].
    apply join_starts_visible. inversion Hv; assumption.
Qed.

Lemma collect_tables_policy (doc : Document) (acc : list string) :
  collect_tables doc acc
  = (acc ++ flat_map Policy.row_line (concat (doc_tables doc)))%list.
Proof.
  unfold collect_tables.
  rewrite (nested_loop _ (flat_map Policy.row_line)).
  - f_equal. induction (doc_tables doc) as [|t ts IH]; simpl; [reflexivity|].
    rewrite flat_map_app, IH. reflexivity.
  - intros acc' table. apply nested_loop. apply collect_row_policy.
Qed.

Lemma run_texts_app (a b : list Paragraph) :
  Policy.run_texts (a ++ b) = (Policy.run_texts a ++ Policy.run_texts b)%list.
Proof.
  unfold Policy.run_texts. rewrite flat_map_app, filter_app, map_app.
  reflexivity.
Qed.

Lemma run_texts_concat (cells : list (list Paragraph)) :
  Policy.run_texts (concat cells) = flat_map Policy.run_texts cells.
Proof.
  induction cells as [|c cs IH]; simpl; [reflexivity|].
  rewrite run_texts_app, IH; reflexivity.
Qed.

Lemma flat_map_of_concat {A B : Type} (f : A -> list B) (xss : list (list A)) :
  flat_map f (concat xss) = flat_map (flat_map f) xss.
Proof.
  induction xss as [|xs xss IH]; simpl; [reflexivity|].
  rewrite flat_map_app, IH; reflexivity.
Qed.

Lemma collect_runs_of_policy (paras : list Paragraph) (acc : list string) :
  collect_runs_of paras acc = (acc ++ Policy.run_texts paras)%list.
Proof.
  unfold collect_runs_of.
  rewrite (nested_loop _
             (fun para => map strip (filter Policy.visible (para_runs para)))).
  - f_equal. induction paras as [|para paras IH]; simpl; [reflexivity|].
    rewrite IH. change (para :: paras) with ([para] ++ paras)%list.
    rewrite run_texts_app. unfold Policy.run_texts at 2; simpl.
    rewrite app_nil_r; reflexivity.
  - intros acc1 para. apply collect_loop.
Qed.

Lemma collect_runs_policy (doc : Document) (acc : list string) :
  collect_runs doc acc = (acc ++ Policy.run_text doc)%list.
Proof.
  unfold collect_runs, Policy.run_text.
  rewrite (nested_loop _ (flat_map (flat_map Policy.run_texts))).
  - rewrite collect_runs_of_policy, <- app_assoc.
    rewrite run_texts_concat, !flat_map_of_concat. reflexivity.
  - intros acc1 table. apply nested_loop.
    intros acc2 row. apply nested_loop.
    intros acc3 cell. apply collect_runs_of_policy.
Qed.

(** The loops of the fallback compute the text the policy describes. *)
Lemma docx_fallback_meets_policy (env : Env) (file_path : string) :
  docx_fallback_try env file_path
  = (doc <- docx_Document env file_path ;; Return (Policy.document_text doc)).
Proof.
  unfold docx_fallback_try, Policy.document_text.
  destruct (docx_Document env file_path) as [doc|e]; [|reflexivity].
  cbn [bind].
  rewrite collect_tables_policy, collect_paragraphs_policy. simpl app.
  fold (Policy.structural_text doc).
  destruct (Policy.structural_text doc) as [|part parts] eqn:E.
  - cbn [nonempty negb]. rewrite collect_runs_policy. simpl app.
    unfold Policy.visible. destruct (truthy (strip _)); reflexivity.
  - cbn [nonempty negb].
    unfold Policy.visible. destruct (truthy (strip _)); reflexivity.
Qed.

Lemma mammoth_attempt_accepts (env : Env) (file_path value : string) :
  mammoth_extract_raw_text env file_path = Return value ->
  10 < String.length (strip value) ->
  mammoth_attempt env file_path = Return (Some (strip value)).
Proof.
  intros H Hlen. unfold mammoth_attempt. rewrite H.
  apply Nat.ltb_lt in Hlen. rewrite Hlen.
  destruct (strip value); [discriminate Hlen|reflexivity].
Qed.

Lemma mammoth_attempt_declines (env : Env) (file_path : string) :
  (forall value,
     mammoth_extract_raw_text env file_path = Return value ->
     String.length (strip value) <= 10) ->
  (forall e,
     mammoth_extract_raw_text env file_path = Raise e ->
     print env (mammoth_failed e) = Return tt) ->
  mammoth_attempt env file_path = Return None.
Proof.
  intros H Hprint. unfold mammoth_attempt.
  destruct (mammoth_extract_raw_text env file_path) as [value|e].
  - specialize (H value eq_refl). apply Nat.ltb_ge in H. rewrite H.
    rewrite andb_false_r; reflexivity.
  - rewrite (Hprint e eq_refl). reflexivity.
Qed.

(** Once the mammoth attempt is over, the rest cannot raise. *)
Lemma docx_fallback_returns (env : Env) (file_path : string) :
  returns (docx_fallback env file_path).
Proof.
  unfold docx_fallback, try_except.
  destruct (docx_fallback_try env file_path); eexists; reflexivity.
Qed.

Lemma extract_text_from_docx_raises (env : Env) (file_path : string)
    (e' : exn) :
  extract_text_from_docx env file_path = Raise e' ->
  exists e,
    mammoth_extract_raw_text env file_path = Raise e
    /\ print env (mammoth_failed e) = Raise e'.
Proof.
  unfold extract_text_from_docx, mammoth_attempt.
  destruct (mammoth_extract_raw_text env file_path) as [value|e].
  - cbv zeta.
    destruct (truthy (strip value) && (10 <? String.length (strip value))%nat);
      cbn [bind]; [discriminate|].
    destruct (docx_fallback_returns env file_path) as [text ->]. discriminate.
  - destruct (print env (mammoth_failed e)) as [u|e1] eqn:E; cbn [bind].
    + destruct (docx_fallback_returns env file_path) as [text ->].
      discriminate.
    + intro H. injection H as <-. exists e. split; [reflexivity|exact E].
Qed.

(** C4.  An exception escapes where the [except] clause of the mammoth
    attempt cannot print.  The file is not a document mammoth can read, so
    mammoth raises; the clause prints its line before control reaches the
    python-docx fallback, and that [print] stands outside both [try]
    blocks.  On a standard output whose reader has gone away it raises,
    and the exception leaves [extract_text_from_docx]; with a standard
    output in working order the same file yields the sentinel string. *)
Theorem extract_text_from_docx_print_failure_escapes :
  mammoth_extract_raw_text Examples.with_ocr_broken_pipe "/tmp/tmpcv.docx"
  = Raise (mkExn OtherException "File is not a zip file")
  /\ extract_text_from_docx Examples.with_ocr_broken_pipe "/tmp/tmpcv.docx"
     = Raise (mkExn OSError "[Errno 32] Broken pipe")
  /\ extract_text_from_docx Examples.with_ocr "/tmp/tmpcv.docx"
     = Return (warning_sign
               ++ " Error extracting text from DOCX: Package not found").
Proof. repeat split. Qed.

(** X27.  The fallback policy of [extract_text_from_docx].  (1) When
    mammoth yields a text of more than 10 characters after trimming, that
    trimmed text is the result.  (2) Otherwise -- mammoth yields less, or
    it raises and the line of its handler is printed -- when python-docx
    opens the document, the result is the paragraph text followed by one
    line per table row (the non-blank cells joined with [" | "], rows
    whose cells are all blank skipped) or, when that is nothing, the text
    of the runs; the parts are joined by newlines, and when the joined text
    is blank the result is the warning sentinel.  (3) When python-docx
    raises, the result is the error sentinel carrying the exception text.
    (4) The only exception that leaves the function is one raised by the
    [print] in the handler of the mammoth attempt; when that line is
    printed the function returns. *)
Theorem extract_text_from_docx_policy (env : Env) (file_path : string) :
  (forall value : string,
     mammoth_extract_raw_text env file_path = Return value ->
     10 < String.length (strip value) ->
     extract_text_from_docx env file_path = Return (strip value))
  /\ (forall doc : Document,
        (forall value,
           mammoth_extract_raw_text env file_path = Return value ->
           String.length (strip value) <= 10) ->
        (forall e,
           mammoth_extract_raw_text env file_path = Raise e ->
           print env (mammoth_failed e) = Return tt) ->
        docx_Document env file_path = Return doc ->
        extract_text_from_docx env file_path
        = Return (Policy.document_text doc))
  /\ (forall e : exn,
        (forall value,
           mammoth_extract_raw_text env file_path = Return value ->
           String.length (strip value) <= 10) ->
        (forall e0,
           mammoth_extract_raw_text env file_path = Raise e0 ->
           print env (mammoth_failed e0) = Return tt) ->
        docx_Document env file_path = Raise e ->
        extract_text_from_docx env file_path
        = Return (warning_sign ++ " Error extracting text from DOCX: " ++ str e))
  /\ ((forall e,
         mammoth_extract_raw_text env file_path = Raise e ->
         print env (mammoth_failed e) = Return tt) ->
      returns (extract_text_from_docx env file_path))
  /\ (forall e' : exn,
        extract_text_from_docx env file_path = Raise e' ->
        exists e,
          mammoth_extract_raw_text env file_path = Raise e
          /\ print env (mammoth_failed e) = Raise e').
Proof.
  split; [|split; [|split; [|split]]].
  - intros value H Hlen. unfold extract_text_from_docx.
    rewrite (mammoth_attempt_accepts env file_path value H Hlen). reflexivity.
  - intros doc Hm Hprint Hdoc. unfold extract_text_from_docx, docx_fallback.
    rewrite (mammoth_attempt_declines env file_path Hm Hprint). cbn [bind].
    rewrite docx_fallback_meets_policy, Hdoc. reflexivity.
  - intros e Hm Hprint Hdoc. unfold extract_text_from_docx, docx_fallback.
    rewrite (mammoth_attempt_declines env file_path Hm Hprint). cbn [bind].
    rewrite docx_fallback_meets_policy, Hdoc. reflexivity.
  - intro Hprint.
    destruct (extract_text_from_docx env file_path) as [text|e'] eqn:E.
    + exists text; reflexivity.
    + destruct (extract_text_from_docx_raises env file_path e' E)
        as [e [Hm He]].
      rewrite (Hprint e Hm) in He. discriminate He.
  - apply extract_text_from_docx_raises.
Qed.

(** X27 on a document with a table: the name, then the row with its two
    non-blank cells; the blank row leaves no line. *)
Lemma extract_text_from_docx_policy_witness :
  extract_text_from_docx Examples.docx_with_table "/tmp/tmpq3.docx"
  = Return "Jane Doe
Python | 5 years".
Proof.
  apply (proj1 (proj2 (extract_text_from_docx_policy
                         Examples.docx_with_table "/tmp/tmpq3.docx"))
           Examples.table_document).
  - intros value H. injection H as <-. vm_compute. lia.
  - intros e H. discriminate H.
  - reflexivity.
Defined.


Lemma unsupported_cases (ext : string) :
  supported ext = false ->
  (ext =? ".pdf") = false /\ (ext =? ".docx") = false
  /\ (ext =? ".txt") = false /\ is_image_ext ext = false.
Proof.
  unfold supported, supported_extensions, is_image_ext; simpl.
  rewrite orb_false_r, !orb_false_iff. tauto.
Qed.

Lemma image_ext_not_document (ext : string) :
  is_image_ext ext = true ->
  (ext =? ".pdf") = false /\ (ext =? ".docx") = false
  /\ (ext =? ".txt") = false /\ tag_of ext = "image".
Proof.
  unfold is_image_ext, tag_of. intro H.
  apply orb_true_iff in H as [H|H]; [apply orb_true_iff in H as [H|H]|];
    apply String.eqb_eq in H; subst ext; repeat split.
Qed.

(** The dispatch of [extract_text], branch by branch. *)
Lemma extract_text_dispatch (env : Env) (file_path : string) :
  let ext := extension file_path in
  (ext = ".pdf" ->
   extract_text env file_path
   = (text <- extract_text_from_pdf env file_path ;; Return (text, "pdf")))
  /\ (ext = ".docx" ->
      extract_text env file_path
      = (text <- extract_text_from_docx env file_path ;; Return (text, "docx")))
  /\ (ext = ".txt" ->
      extract_text env file_path
      = (text <- extract_text_from_txt env file_path ;; Return (text, "txt")))
  /\ (is_image_ext ext = true ->
      extract_text env file_path
      = try_except
          (_ <- get_tesseract_version env 0 ;;
           text <- extract_text_from_image env 1 file_path ;;
           Return (text, "image"))
          (fun e => Raise (image_not_supported e)))
  /\ (supported ext = false ->
      extract_text env file_path = Raise (unsupported env ext)).
Proof.
  intro ext. unfold extract_text. fold ext. repeat split.
  - intros ->; reflexivity.
  - intros ->; reflexivity.
  - intros ->; reflexivity.
  - intro H. destruct (image_ext_not_document ext H) as [-> [-> [_ _]]].
    rewrite H. reflexivity.
  - intro H. destruct (unsupported_cases ext H) as [-> [-> [-> ->]]].
    reflexivity.
Qed.



Example extract_text_examples :
  extract_text Examples.with_ocr "/tmp/tmpcv.TXT"
  = Return ("Jane Doe
Python Developer", "txt")
  /\ extract_text Examples.with_ocr "/tmp/tmpcv.pdf" = Return ("Jane Doe", "pdf")
  /\ extract_text Examples.with_ocr "/tmp/tmpcv.jpeg" = Return ("Jane Doe", "image")
  /\ extract_text Examples.docx_with_table "/tmp/tmpcv.Docx"
     = Return ("Jane Doe
Python | 5 years", "docx").
Proof. repeat split. Qed.

End Extraction.


(* ===================================================================== *)
(** * The session store *)
(* ===================================================================== *)

Section Store.
Import Crud.

Lemma list_eqb_refl (l : list string) : list_eqb String.eqb l l = true.
Proof.
  induction l as [|x l IH]; simpl; [reflexivity|].
  rewrite String.eqb_refl, IH; reflexivity.
Qed.

Lemma option_eqb_refl {A : Type} (eqb : A -> A -> bool) (x : option A) :
  (forall a, eqb a a = true) -> option_eqb eqb x x = true.
Proof. intro H; destruct x; simpl; auto. Qed.

Lemma analysis_changed_refl (s : CVSession) : analysis_changed s s = false.
Proof.
  unfold analysis_changed.
  rewrite !(option_eqb_refl String.eqb) by apply String.eqb_refl.
  rewrite (option_eqb_refl Z.eqb) by apply Z.eqb_refl.
  rewrite !(option_eqb_refl (list_eqb String.eqb)) by apply list_eqb_refl.
  reflexivity.
Qed.

(** After UPDATE ... WHERE id = [session_id], the query by that id loads
    the written row. *)
Lemma get_session_write_row (d : db) (session_id : string) (s row : CVSession) :
  get_session d session_id = Some s ->
  (id row =? session_id) = true ->
  get_session (write_row d session_id row) session_id = Some row.
Proof.
  unfold get_session, write_row. intros Hfind Hid.
  induction d as [|t d IH]; simpl in *; [discriminate|].
  destruct (id t =? session_id) eqn:E.
  - rewrite Hid. reflexivity.
  - rewrite E. apply IH, Hfind.
Qed.

Lemma write_row_twice (d : db) (session_id : string) (row : CVSession) :
  (id row =? session_id) = true ->
  write_row (write_row d session_id row) session_id row
  = write_row d session_id row.
Proof.
  intro Hid. unfold write_row. rewrite map_map. apply map_ext.
  intro t. destruct (id t =? session_id) eqn:E; [rewrite Hid|rewrite E];
    reflexivity.
Qed.

Lemma update_analysis_found (driver : Driver) (now : Z) (d : db)
    (s : CVSession)
    (session_id job_title job_description : string)
    (original_score : option Z)
    (missing_skills strengths experience_gaps recommendations
       : option (list string))
    (summary : option string) :
  get_session d session_id = Some s ->
  let s' :=
    set_analysis s job_title job_description original_score missing_skills
      strengths experience_gaps recommendations summary in
  update_analysis driver now d session_id job_title job_description
    original_score missing_skills strengths experience_gaps recommendations
    summary
  = if fits_INTEGER original_score then
      if analysis_changed s s'
      then (Return (Some (touch now s')),
            write_row d session_id (touch now s'))
      else (Return (Some s'), d)
    else (Raise (mkExn OverflowError (overflow_error_text driver)), d).
Proof.
  intros Hs s'. unfold update_analysis. rewrite Hs. fold s'. unfold commit.
  destruct (fits_INTEGER original_score); [|reflexivity].
  destruct (analysis_changed s s'); reflexivity.
Qed.

(** C6.  Calling [update_analysis] a second time with the same arguments,
    at any later clock reading, leaves the table exactly as the first call
    left it -- every column of every row, [updated_at] included -- and
    has the same outcome. *)
Theorem update_analysis_idempotent (driver : Driver) (now1 now2 : Z) (d : db)
    (session_id job_title job_description : string)
    (original_score : option Z)
    (missing_skills strengths experience_gaps recommendations
       : option (list string))
    (summary : option string) :
  let once :=
    update_analysis driver now1 d session_id job_title job_description
      original_score missing_skills strengths experience_gaps recommendations
      summary in
  update_analysis driver now2 (snd once) session_id job_title job_description
    original_score missing_skills strengths experience_gaps recommendations
    summary
  = once.
Proof.
  cbv zeta.
  destruct (get_session d session_id) as [s|] eqn:Hs.
  - pose proof (proj2 (find_some _ _ Hs)) as Hid. cbv beta in Hid.
    rewrite (update_analysis_found driver now1 d s) by exact Hs. cbv zeta.
    destruct (fits_INTEGER original_score) eqn:Hfits.
    + destruct (analysis_changed s _) eqn:Hchanged; cbn [snd].
      * set (row := touch now1 _).
        assert (Hrow : (id row =? session_id) = true) by exact Hid.
        rewrite (update_analysis_found driver now2 _ row)
          by (apply (get_session_write_row d session_id s row Hs Hrow)).
        cbv zeta. rewrite Hfits.
        assert (Hset : set_analysis row job_title job_description
                         original_score missing_skills strengths
                         experience_gaps recommendations summary = row)
          by reflexivity.
        rewrite Hset, analysis_changed_refl. reflexivity.
      * rewrite (update_analysis_found driver now2 d s) by exact Hs.
        cbv zeta. rewrite Hfits, Hchanged. reflexivity.
    + cbn [snd].
      rewrite (update_analysis_found driver now2 d s) by exact Hs.
      cbv zeta. rewrite Hfits. reflexivity.
  - unfold update_analysis. rewrite Hs. cbn [snd]. rewrite Hs. reflexivity.
Qed.

(** The second call changes nothing even when the first one did. *)
Example update_analysis_twice :
  let d := [Examples.uploaded "tmpa1.txt" 10] in
  let once :=
    update_analysis Examples.sqlite 20 d "tmpa1.txt" "Developer" "Need Python"
      (Some 72%Z) (Some ["Rust"]) (Some ["Python"]) (Some [])
      (Some ["Learn Rust"]) (Some "A fair match.") in
  map updated_at (snd once) = [20%Z]
  /\ update_analysis Examples.sqlite 30 (snd once) "tmpa1.txt" "Developer"
       "Need Python" (Some 72%Z) (Some ["Rust"]) (Some ["Python"]) (Some [])
       (Some ["Learn Rust"]) (Some "A fair match.") = once.
Proof. split; reflexivity. Qed.

Lemma filter_permutation {A : Type} (p : A -> bool) (l l' : list A) :
  Permutation l l' -> Permutation (filter p l) (filter p l').
Proof.
  induction 1 as [|x l l' _ IH|x y l|l l' l'' _ IH1 _ IH2]; simpl.
  - constructor.
  - destruct (p x); [constructor|]; exact IH.
  - destruct (p x), (p y); try apply Permutation_refl. constructor.
  - eapply Permutation_trans; eassumption.
Qed.

(** C7.  In a table that holds three sessions, scored 40, 65 and 90, in
    any order, the listing with [min_score=50], [max_score=80] and the
    default of every other parameter is exactly the session scored 65.
    Both bounds are inclusive: a session scored 50 or 80 is listed. *)
Theorem get_filtered_sessions_score_range (d : db) (s40 s65 s90 : CVSession) :
  Permutation d [s40; s65; s90] ->
  original_score s40 = Some 40%Z ->
  original_score s65 = Some 65%Z ->
  original_score s90 = Some 90%Z ->
  get_filtered_sessions d 100 0 None (Some 50%Z) (Some 80%Z) None = [s65]
  /\ (forall s : CVSession,
        original_score s = Some 50%Z \/ original_score s = Some 80%Z ->
        get_filtered_sessions [s] 100 0 None (Some 50%Z) (Some 80%Z) None = [s]).
Proof.
  intros Hperm H40 H65 H90. split.
  - unfold get_filtered_sessions. cbn [given filter_if].
    assert (Hfiltered :
      filter (fun s => score_le (original_score s) 80)
        (filter (fun s => score_ge (original_score s) 50) d) = [s65]).
    { apply Permutation_length_1_inv, Permutation_sym.
      eapply Permutation_trans.
      - apply filter_permutation, filter_permutation, Hperm.
      - simpl. rewrite H40, H65, H90. simpl. rewrite H65, H90. simpl.
        apply Permutation_refl. }
    rewrite Hfiltered. reflexivity.
  - intros s [H|H]; unfold get_filtered_sessions; cbn [given filter_if];
      simpl; rewrite H; simpl; rewrite H; reflexivity.
Qed.

(** C7 on three concrete sessions, stored in the order 90, 40, 65. *)
Lemma get_filtered_sessions_score_range_witness :
  get_filtered_sessions
    [Examples.analyzed "tmpc.txt" 3 90; Examples.analyzed "tmpa.txt" 1 40;
     Examples.analyzed "tmpb.txt" 2 65]
    100 0 None (Some 50%Z) (Some 80%Z) None
  = [Examples.analyzed "tmpb.txt" 2 65].
Proof.
  apply (get_filtered_sessions_score_range
           [Examples.analyzed "tmpc.txt" 3 90; Examples.analyzed "tmpa.txt" 1 40;
            Examples.analyzed "tmpb.txt" 2 65]
           (Examples.analyzed "tmpa.txt" 1 40)
           (Examples.analyzed "tmpb.txt" 2 65)
           (Examples.analyzed "tmpc.txt" 3 90)).
  - apply (Permutation_cons_append [_; _]).
  - reflexivity.
  - reflexivity.
  - reflexivity.
Defined.

Lemma in_insert_desc (s t : CVSession) (sorted : list CVSession) :
  In t (insert_desc s sorted) -> t = s \/ In t sorted.
Proof.
  induction sorted as [|u rest IH]; simpl.
  - intros [<-|[]]; auto.
  - destruct (created_at u <=? created_at s)%Z; simpl.
    + intros [<-|[<-|H]]; auto.
    + intros [<-|H]; auto. destruct (IH H); auto.
Qed.

Lemma in_order_by (t : CVSession) (rows : list CVSession) :
  In t (order_by_created_at_desc rows) -> In t rows.
Proof.
  induction rows as [|s rows IH]; simpl; [auto|].
  intro H. apply in_insert_desc in H as [->|H]; auto.
Qed.

Lemma in_page (t : CVSession) (limit_ skip : Z) (rows : list CVSession) :
  In t (limit limit_ (offset skip rows)) -> In t rows.
Proof.
  unfold limit, offset. intro H.
  destruct (limit_ <? 0)%Z.
  - revert H. generalize (Z.to_nat skip) as n.
    intros n H. rewrite <- (firstn_skipn n rows). apply in_or_app; auto.
  - assert (H' : In t (skipn (Z.to_nat skip) rows)).
    { rewrite <- (firstn_skipn (Z.to_nat limit_) (skipn _ rows)).
      apply in_or_app; auto. }
    rewrite <- (firstn_skipn (Z.to_nat skip) rows). apply in_or_app; auto.
Qed.

Lemma in_filter_if (t : CVSession) (guard : bool) (cond : CVSession -> bool)
    (query : list CVSession) :
  In t (filter_if guard cond query) -> In t query.
Proof.
  unfold filter_if. destruct guard; [|auto].
  intro H. apply filter_In in H. tauto.
Qed.

(** C10.  Whenever [min_score] or [max_score] is given, every session of
    the listing has a score, and the score meets each bound that was given.
    A session that was created but not analyzed is never listed then, also
    when only [max_score] is given. *)
Theorem get_filtered_sessions_scored (d : db) (limit_ skip : Z)
    (job_title_ : option string) (min_score max_score : option Z)
    (file_type : option string) (s : CVSession) :
  min_score <> None \/ max_score <> None ->
  In s (get_filtered_sessions d limit_ skip job_title_ min_score max_score
          file_type) ->
  exists v : Z,
    original_score s = Some v
    /\ (forall m, min_score = Some m -> (m <= v)%Z)
    /\ (forall m, max_score = Some m -> (v <= m)%Z).
Proof.
  intros Hgiven Hin. unfold get_filtered_sessions in Hin.
  apply in_page, in_order_by, in_filter_if in Hin.
  assert (Hmax : forall m, max_score = Some m ->
                           score_le (original_score s) m = true).
  { intros m ->. apply filter_In in Hin. tauto. }
  assert (Hin' : In s match min_score with
                      | Some m =>
                          filter (fun s => score_ge (original_score s) m)
                            (filter_if (given job_title_)
                               (fun s => ilike_contains (job_title s)
                                           (text_of job_title_)) d)
                      | None =>
                          filter_if (given job_title_)
                            (fun s => ilike_contains (job_title s)
                                        (text_of job_title_)) d
                      end).
  { destruct max_score; [apply filter_In in Hin; tauto|exact Hin]. }
  assert (Hmin : forall m, min_score = Some m ->
                           score_ge (original_score s) m = true).
  { intros m ->. apply filter_In in Hin'. tauto. }
  destruct (original_score s) as [v|] eqn:Hscore.
  - exists v. split; [reflexivity|]. split; intros m Hm.
    + apply Z.leb_le. exact (Hmin m Hm).
    + apply Z.leb_le. exact (Hmax m Hm).
  - exfalso. destruct Hgiven as [H|H].
    + destruct min_score as [m|]; [|congruence].
      specialize (Hmin m eq_refl). discriminate.
    + destruct max_score as [m|]; [|congruence].
      specialize (Hmax m eq_refl). discriminate.
Qed.

(** C10 with only [max_score=80]: of an analyzed session scored 65 and a
    session that was only uploaded, the listing holds the analyzed one. *)
Lemma get_filtered_sessions_scored_witness :
  exists v : Z,
    original_score (Examples.analyzed "tmpb.txt" 2 65) = Some v
    /\ (forall m, @None Z = Some m -> (m <= v)%Z)
    /\ (forall m, Some 80%Z = Some m -> (v <= m)%Z).
Proof.
  apply (get_filtered_sessions_scored
           [Examples.uploaded "tmpa.txt" 1; Examples.analyzed "tmpb.txt" 2 65]
           100 0 None None (Some 80%Z) None).
  - right; discriminate.
  - vm_compute. left; reflexivity.
Defined.

Example unanalyzed_not_listed :
  get_filtered_sessions
    [Examples.uploaded "tmpa.txt" 1; Examples.analyzed "tmpb.txt" 2 65]
    100 0 None None (Some 80%Z) None
  = [Examples.analyzed "tmpb.txt" 2 65].
Proof. reflexivity. Qed.

Lemma create_session_scores (driver : Driver) (created updated : Z) (d : db)
    (session_id cv_text cv_file_type : string) (cv_file_path : option string) :
  Forall scores_ok d ->
  Forall scores_ok
    (snd (create_session driver created updated d session_id cv_text
            cv_file_type cv_file_path)).
Proof.
  intro H. unfold create_session. cbv zeta.
  destruct (existsb _ d); cbn [snd]; [exact H|].
  apply Forall_app. split; [exact H|].
  constructor; [|constructor]. split; exact I.
Qed.

Lemma write_row_scores (d : db) (session_id : string) (row : CVSession) :
  Forall scores_ok d -> scores_ok row ->
  Forall scores_ok (write_row d session_id row).
Proof.
  intros H Hrow. unfold write_row. apply Forall_map.
  eapply Forall_impl; [|exact H].
  intros s Hs. destruct (id s =? session_id); assumption.
Qed.

Lemma commit_scores (now : Z) (changed : bool) (d : db) (session_id : string)
    (row : CVSession) :
  Forall scores_ok d -> scores_ok row ->
  Forall scores_ok (snd (commit now changed d session_id row)).
Proof.
  intros H Hrow. unfold commit. destruct changed; cbn [snd]; [|exact H].
  apply write_row_scores; [exact H|exact Hrow].
Qed.

Lemma get_session_scores (d : db) (session_id : string) (s : CVSession) :
  Forall scores_ok d -> get_session d session_id = Some s -> scores_ok s.
Proof.
  intros H Hs. apply find_some in Hs as [Hin _].
  rewrite Forall_forall in H. apply H, Hin.
Qed.

Lemma apply_scores (driver : Driver) (json_equal : json -> json -> bool)
    (d : db) (op : operation) :
  Forall scores_ok d -> score_ok (score_argument op) ->
  Forall scores_ok (apply driver json_equal d op).
Proof.
  intros H Hop.
  destruct op as [created updated sid text ftype path
                 |now sid jt jd score ms st eg recs sm
                 |now sid info score sugg path
                 |sid]; cbn [apply].
  - apply create_session_scores, H.
  - unfold update_analysis.
    destruct (get_session d sid) as [s|] eqn:Hs; [|exact H].
    destruct (fits_INTEGER score); [|exact H].
    pose proof (get_session_scores d sid s H Hs) as [_ Hnew].
    pose proof (commit_scores now
                  (analysis_changed s
                     (set_analysis s jt jd score ms st eg recs sm))
                  d sid (set_analysis s jt jd score ms st eg recs sm)
                  H (conj Hop Hnew)) as Hc.
    destruct (commit _ _ _ _ _); exact Hc.
  - unfold update_enhancement.
    destruct (get_session d sid) as [s|] eqn:Hs; [|exact H].
    destruct (fits_INTEGER (Some score)); [|exact H].
    pose proof (get_session_scores d sid s H Hs) as [Horig _].
    pose proof (commit_scores now
                  (enhancement_changed json_equal s
                     (set_enhancement s info score sugg path))
                  d sid (set_enhancement s info score sugg path)
                  H (conj Horig Hop)) as Hc.
    destruct (commit _ _ _ _ _); exact Hc.
  - unfold delete_session.
    destruct (get_session d sid); cbn [snd]; [|exact H].
    apply Forall_forall. intros s Hin. apply filter_In in Hin as [Hin _].
    rewrite Forall_forall in H. apply H, Hin.
Qed.

Lemma fold_apply_scores (driver : Driver) (json_equal : json -> json -> bool)
    (history : list operation) (d : db) :
  Forall scores_ok d ->
  Forall (fun op => score_ok (score_argument op)) history ->
  Forall scores_ok (fold_left (apply driver json_equal) history d).
Proof.
  revert d; induction history as [|op history IH]; intros d H Hops; simpl.
  - exact H.
  - inversion Hops as [|? ? Hop Hrest]; subst.
    apply IH; [apply apply_scores; assumption|exact Hrest].
Qed.

(** C8 as it is written fails: the store keeps whatever score it is
    given.  After a create and an [update_analysis] called with 150 the
    session has [original_score] 150. *)
Lemma scores_not_always_in_range :
  ~ (forall (driver : Driver) (json_equal : json -> json -> bool)
            (history : list operation),
       Forall scores_ok (run driver json_equal history)).
Proof.
  intro H.
  specialize (H Examples.sqlite Examples.same_json
                [CreateSession 1 1 "tmpa.txt" "Jane Doe" "txt"
                   (Some "/tmp/tmpa.txt");
                 UpdateAnalysis 2 "tmpa.txt" "Developer" "Need Python"
                   (Some 150%Z) (Some []) (Some []) (Some []) (Some [])
                   (Some "An excellent match.")]).
  apply Forall_inv in H. destruct H as [H _]. simpl in H. lia.
Qed.

(** C8, amended.  A created session has no score.  [update_analysis] and
    [update_enhancement] store the score they are called with, unchecked.
    So in every state the store reaches through calls whose score
    arguments are within [0,100], each score field is absent or within
    [0,100]. *)
Theorem scores_in_range_when_arguments_are (driver : Driver)
    (json_equal : json -> json -> bool) (history : list operation) :
  Forall (fun op => score_ok (score_argument op)) history ->
  Forall scores_ok (run driver json_equal history).
Proof.
  intro H. unfold run. apply fold_apply_scores; [constructor|exact H].
Qed.

(** The amended C8 on a history with scores 72 and 88. *)
Lemma scores_in_range_when_arguments_are_witness :
  Forall scores_ok
    (run Examples.sqlite Examples.same_json
       [CreateSession 1 1 "tmpa.txt" "Jane Doe" "txt" (Some "/tmp/tmpa.txt");
        UpdateAnalysis 2 "tmpa.txt" "Developer" "Need Python" (Some 72%Z)
          (Some ["Rust"]) (Some ["Python"]) (Some []) (Some ["Learn Rust"])
          (Some "A fair match.");
        UpdateEnhancement 3 "tmpa.txt" "Knows Rust" 88 (JDict [])
          "/tmp/enhanced_tmpa.docx"]).
Proof.
  apply scores_in_range_when_arguments_are.
  repeat constructor; simpl; lia.
Defined.

(** The score [update_analysis] stores is the one it was called with. *)
Lemma update_analysis_stores_score (driver : Driver) (now : Z) (d : db)
    (session_id job_title job_description : string)
    (original_score : option Z)
    (missing_skills strengths experience_gaps recommendations
       : option (list string))
    (summary : option string) (s : CVSession) :
  fst (update_analysis driver now d session_id job_title job_description
         original_score missing_skills strengths experience_gaps
         recommendations summary) = Return (Some s) ->
  Crud.original_score s = original_score.
Proof.
  destruct (get_session d session_id) as [s0|] eqn:Hs.
  - rewrite (update_analysis_found driver now d s0) by exact Hs. cbv zeta.
    destruct (fits_INTEGER original_score); [|discriminate].
    destruct (analysis_changed s0 _); cbn [fst]; intro H;
      injection H as <-; reflexivity.
  - unfold update_analysis. rewrite Hs. discriminate.
Qed.

Example ilike_examples :
  ilike_contains (Some "Senior Python Developer") "python" = true
  /\ ilike_contains (Some "Senior Python Developer") "py_hon dev" = true
  /\ ilike_contains (Some "Senior Python Developer") "java" = false
  /\ ilike_contains None "python" = false.
Proof. repeat split. Qed.

(** Newest first, then OFFSET and LIMIT. *)
Example listing_is_paged :
  let d :=
    [Examples.analyzed "tmpa.txt" 1 40; Examples.analyzed "tmpc.txt" 3 90;
     Examples.analyzed "tmpb.txt" 2 65] in
  map id (get_filtered_sessions d 100 0 None None None None)
  = ["tmpc.txt"; "tmpb.txt"; "tmpa.txt"]
  /\ map id (get_filtered_sessions d 1 1 None None None None) = ["tmpb.txt"]
  /\ map id (get_filtered_sessions d 100 0 (Some "DEV") (Some 65%Z) None
               (Some "txt"))
     = ["tmpc.txt"; "tmpb.txt"].
Proof. repeat split. Qed.

End Store.

(* ===================================================================== *)
(** * The endpoint *)
(* ===================================================================== *)

Section Endpoint.
Import Main.

Lemma removed_path_is_gone (path : string) (fs : Utils.FileSystem) :
  Utils.path_exists path (Utils.remove path fs) = false.
Proof.
  unfold Utils.path_exists, Utils.remove.
  induction fs as [|p fs IH]; simpl; [reflexivity|].
  destruct (p =? path) eqn:E; simpl; [exact IH|].
  rewrite String.eqb_sym, E. exact IH.
Qed.

Lemma cleanup_removes (path : string) (w : World) :
  Utils.path_exists path (files (cleanup (Some path) w)) = false.
Proof.
  unfold cleanup. destruct (Utils.path_exists path (files w)) eqn:E.
  - apply removed_path_is_gone.
  - exact E.
Qed.

(** The two failure branches: a [ValueError] of the [try] block becomes a
    400 response with its text, any other exception a 500 response with the
    text after ["Analysis failed: "]; both run the clean-up first. *)
Lemma analyze_cv_complete_failure (env : Env) (file : Utils.UploadFile)
    (current_job_title target_job_title job_description : string) (w w' : World)
    (temp_path : option string) (e : exn) :
  analyze_cv_complete_try env file current_job_title target_job_title
    job_description w = (temp_path, Raise e, w') ->
  analyze_cv_complete env file current_job_title target_job_title
    job_description w
  = (if is_ValueError e then HTTPException 400 (str e)
     else HTTPException 500 ("Analysis failed: " ++ str e),
     cleanup temp_path w').
Proof.
  intro H. unfold analyze_cv_complete. rewrite H.
  destruct (is_ValueError e); reflexivity.
Qed.

(** Once [save_temp_file] has returned, the local [temp_path] is bound in
    every outcome of the [try] block. *)
Lemma temp_path_bound (env : Env) (file : Utils.UploadFile)
    (current_job_title target_job_title job_description : string) (w : World)
    (path : string) :
  fst (Utils.save_temp_file (upload_io env) file (files w)) = Return path ->
  fst (fst (analyze_cv_complete_try env file current_job_title
              target_job_title job_description w)) = Some path.
Proof.
  unfold analyze_cv_complete_try.
  destruct (Utils.save_temp_file (upload_io env) file (files w)) as [r fs].
  cbn [fst]. intros ->.
  destruct (Utils.extract_text (extraction env) path) as [[text filetype]|e];
    [|reflexivity].
  destruct (Crud.create_session _ _ _ _ _ _ _) as [[cv_session|e] d];
    [|reflexivity].
  destruct (OpenAIUtils.analyze_cv _ _ _ _)
    as [[[[[[score missing] summary] strengths] gaps] recs]|e]; [|reflexivity].
  destruct (store_analysis _ _ _ _ _ _ _) as [[session|e] d']; reflexivity.
Qed.

(** X25.  When the upload was saved and the request then fails, at
    whatever step after that, the saved file is gone when the error
    response is returned. *)
Lemma saved_file_removed_on_failure (env : Env) (file : Utils.UploadFile)
    (current_job_title target_job_title job_description : string) (w : World)
    (path : string) (status_code : Z) (detail : string) :
  fst (Utils.save_temp_file (upload_io env) file (files w)) = Return path ->
  fst (analyze_cv_complete env file current_job_title target_job_title
         job_description w) = HTTPException status_code detail ->
  Utils.path_exists path
    (files (snd (analyze_cv_complete env file current_job_title
                   target_job_title job_description w))) = false.
Proof.
  intros Hsave Hresp.
  pose proof (temp_path_bound env file current_job_title target_job_title
                job_description w path Hsave) as Hbound.
  unfold analyze_cv_complete in *.
  destruct (analyze_cv_complete_try env file current_job_title
              target_job_title job_description w) as [[temp_path outcome] w'].
  cbn [fst] in Hbound. subst temp_path.
  destruct outcome as [body|e]; [discriminate Hresp|].
  destruct (is_ValueError e); cbn [snd]; apply cleanup_removes.
Qed.

(** X25 on an image, on a machine without the OCR engine. *)
Lemma saved_file_removed_on_failure_witness :
  Utils.path_exists "/tmp/tmpk3v9.png"
    (files (snd (analyze_cv_complete
                   (Examples.request_env Examples.healthy_disk Examples.no_ocr
                      Examples.empty_object_reply)
                   (Utils.mkUpload (Some "scan.png")) "Developer" ""
                   "Need Python" Examples.empty_world))) = false.
Proof.
  eapply saved_file_removed_on_failure; vm_compute; reflexivity.
Defined.

(** C9 at an upload whose copy cannot be written.  The temporary file is
    created by [save_temp_file], the write fails with [OSError], the
    request is answered with the 500 response carrying that text -- and the
    temporary file, which did not exist before the request, is still
    there: [temp_path] was never bound, so the handler removes nothing. *)
Theorem temp_file_left_when_saving_fails :
  let env :=
    Examples.request_env Examples.disk_full Examples.with_ocr
      Examples.empty_object_reply in
  let outcome :=
    analyze_cv_complete env (Utils.mkUpload (Some "cv.txt")) "Developer" ""
      "Need Python" Examples.empty_world in
  fst outcome
  = HTTPException 500 "Analysis failed: [Errno 28] No space left on device"
  /\ Utils.path_exists "/tmp/tmpk3v9.txt" (files Examples.empty_world) = false
  /\ Utils.path_exists "/tmp/tmpk3v9.txt" (files (snd outcome)) = true.
Proof. repeat split. Qed.

(** The same upload on a healthy disk, with an unsupported extension:
    a 400 response, and the saved file is removed. *)
Example unsupported_upload_cleaned_up :
  let env :=
    Examples.request_env Examples.healthy_disk Examples.no_ocr
      Examples.empty_object_reply in
  analyze_cv_complete env (Utils.mkUpload (Some "cv.odt")) "Developer" ""
    "Need Python" Examples.empty_world
  = (HTTPException 400
       "Unsupported file type: .odt. Supported formats: PDF, DOCX, TXT",
     Examples.empty_world).
Proof. reflexivity. Qed.

(** The end-to-end scenario: a two-line text file and a reply without any
    field.  The response carries the back-filled score 50 and the whole
    text as preview; the file stays, the session is stored. *)
Example text_upload_analyzed :
  let env :=
    Examples.request_env Examples.healthy_disk Examples.with_ocr
      Examples.empty_object_reply in
  let outcome :=
    analyze_cv_complete env (Utils.mkUpload (Some "cv.txt")) "Developer" ""
      "Need Python" Examples.empty_world in
  match fst outcome with
  | Ok body =>
      view_original_score (analysis body) = JInt 50
      /\ text_preview (extracted body) = full_text (extracted body)
      /\ session_id body = "tmpk3v9.txt"
  | HTTPException _ _ => False
  end
  /\ files (snd outcome) = ["/tmp/tmpk3v9.txt"]
  /\ map Crud.original_score (database (snd outcome)) = [Some 50%Z].
Proof. vm_compute. repeat split. Qed.

(** Nothing between the reply and the table looks at the score: a reply
    with [score] 150 ends up as [original_score] 150. *)
Example out_of_range_score_is_stored :
  let env :=
    Examples.request_env Examples.healthy_disk Examples.with_ocr
      Examples.score_150_reply in
  let outcome :=
    analyze_cv_complete env (Utils.mkUpload (Some "cv.txt")) "Developer" ""
      "Need Python" Examples.empty_world in
  map Crud.original_score (database (snd outcome)) = [Some 150%Z].
Proof. vm_compute. reflexivity. Qed.

End Endpoint.

(* ===================================================================== *)
(** * More about the session store *)
(* ===================================================================== *)

Section StoreLookups.
Import Crud.

Lemma get_session_none (d : db) (i : string) :
  get_session d i = None <-> existsb (fun s => id s =? i) d = false.
Proof.
  unfold get_session. induction d as [|s d IH]; simpl; [tauto|].
  destruct (id s =? i); simpl; [split; discriminate|exact IH].
Qed.

Lemma get_session_id (d : db) (i : string) (s : CVSession) :
  get_session d i = Some s -> id s = i /\ In s d.
Proof.
  intro H. apply find_some in H as [Hin Hid].
  apply String.eqb_eq in Hid. split; assumption.
Qed.

Lemma get_session_app (d : db) (s : CVSession) (i : string) :
  get_session (d ++ [s])%list i
  = match get_session d i with
    | Some x => Some x
    | None => if id s =? i then Some s else None
    end.
Proof.
  unfold get_session. induction d as [|t d IH]; simpl; [reflexivity|].
  destruct (id t =? i); [reflexivity|exact IH].
Qed.

Lemma get_session_write_other (d : db) (i j : string) (row : CVSession) :
  id row = i -> j <> i ->
  get_session (write_row d i row) j = get_session d j.
Proof.
  intros Hrow Hj. unfold get_session, write_row.
  induction d as [|t d IH]; simpl; [reflexivity|].
  destruct (id t =? i) eqn:E.
  - apply String.eqb_eq in E. rewrite Hrow, E.
    destruct (i =? j) eqn:E'; [apply String.eqb_eq in E'; congruence|exact IH].
  - destruct (id t =? j); [reflexivity|exact IH].
Qed.

Lemma write_row_ids (d : db) (i : string) (row : CVSession) :
  id row = i -> map id (write_row d i row) = map id d.
Proof.
  intro Hrow. unfold write_row. rewrite map_map. apply map_ext_in.
  intros t _. destruct (id t =? i) eqn:E; [|reflexivity].
  apply String.eqb_eq in E. congruence.
Qed.

Lemma get_session_filter_other (d : db) (i j : string) :
  j <> i ->
  get_session (filter (fun s => negb (id s =? i)) d) j = get_session d j.
Proof.
  intro Hj. unfold get_session. induction d as [|t d IH]; simpl; [reflexivity|].
  destruct (id t =? i) eqn:E; simpl.
  - apply String.eqb_eq in E.
    destruct (id t =? j) eqn:E'; [apply String.eqb_eq in E'; congruence|].
    exact IH.
  - destruct (id t =? j); [reflexivity|exact IH].
Qed.

Lemma get_session_filter_same (d : db) (i : string) :
  get_session (filter (fun s => negb (id s =? i)) d) i = None.
Proof.
  unfold get_session. induction d as [|t d IH]; simpl; [reflexivity|].
  destruct (id t =? i) eqn:E; simpl; [exact IH|]. rewrite E. exact IH.
Qed.

(** X1.  [create_session] on an id that is free returns the new row --
    the given text, type and path, no analysis, no enhancement -- and from
    then on [get_session] finds it under that id; every other id is looked
    up as before and the count grows by one.  On an id that is taken it
    raises [IntegrityError], with the text the libraries give it, and the
    table stays as it was. *)
Theorem create_session_then_get (driver : Driver) (created updated : Z)
    (d : db) (i text type : string) (path : option string) :
  let row :=
    mkSession i text type path None None None None None None None None None
      None None None created updated in
  let after := create_session driver created updated d i text type path in
  (get_session d i = None ->
   fst after = Return row
   /\ get_session (snd after) i = Some row
   /\ (forall j, j <> i -> get_session (snd after) j = get_session d j)
   /\ get_sessions_count (snd after) = S (get_sessions_count d))
  /\ (forall s, get_session d i = Some s ->
        snd after = d
        /\ exists e,
             fst after = Raise e
             /\ exn_cls e = IntegrityError
             /\ str e = integrity_error_text driver row).
Proof.
  intros row after. unfold after, create_session. fold row. split.
  - intro Hfree. pose proof (proj1 (get_session_none d i) Hfree) as Hex.
    rewrite Hex. cbn [fst snd]. repeat split.
    + rewrite get_session_app, Hfree. cbn [id row].
      rewrite String.eqb_refl. reflexivity.
    + intros j Hj. rewrite get_session_app. cbn [id row].
      destruct (get_session d j); [reflexivity|].
      destruct (i =? j) eqn:E; [apply String.eqb_eq in E; congruence|reflexivity].
    + unfold get_sessions_count. rewrite length_app. simpl. lia.
  - intros s Hs.
    destruct (existsb (fun s0 => id s0 =? i) d) eqn:Hex.
    + cbn [fst snd]. split; [reflexivity|].
      eexists. repeat split.
    + apply get_session_none in Hex. congruence.
Qed.

Lemma create_session_then_get_witness :
  get_session
    (snd (create_session Examples.sqlite 5 5 [Examples.uploaded "tmpa.txt" 1]
            "tmpb.txt" "Jane Doe" "txt" (Some "/tmp/tmpb.txt")))
    "tmpb.txt"
  = Some (Examples.uploaded "tmpb.txt" 5).
Proof.
  apply (proj1 (create_session_then_get Examples.sqlite 5 5
                  [Examples.uploaded "tmpa.txt" 1]
                  "tmpb.txt" "Jane Doe" "txt" (Some "/tmp/tmpb.txt"))).
  reflexivity.
Defined.

Lemma nodup_map_filter {A B : Type} (g : A -> B) (f : A -> bool) (l : list A) :
  NoDup (map g l) -> NoDup (map g (filter f l)).
Proof.
  induction l as [|x l IH]; simpl; [auto|].
  intro H. inversion H as [|? ? Hnotin Hrest]; subst.
  destruct (f x); simpl; [|auto].
  constructor; [|auto].
  intro Hin. apply Hnotin. apply in_map_iff in Hin as [y [Hy Hin]].
  apply filter_In in Hin as [Hin _]. apply in_map_iff. exists y; auto.
Qed.

Lemma commit_ids (now : Z) (changed : bool) (d : db) (i : string)
    (row : CVSession) :
  id row = i -> map id (snd (commit now changed d i row)) = map id d.
Proof.
  intro Hrow. unfold commit. destruct changed; [|reflexivity].
  cbn [snd]. apply write_row_ids. exact Hrow.
Qed.

Lemma apply_ids (driver : Driver) (json_equal : json -> json -> bool)
    (d : db) (op : operation) :
  NoDup (map id d) -> NoDup (map id (apply driver json_equal d op)).
Proof.
  intro H.
  destruct op as [created updated sid text ftype path
                 |now sid jt jd score ms st eg recs sm
                 |now sid info score sugg path
                 |sid]; cbn [apply].
  - unfold create_session. cbv zeta.
    destruct (existsb (fun s => id s =? sid) d) eqn:Hex; cbn [snd]; [exact H|].
    rewrite map_app. simpl.
    apply NoDup_app; [exact H|repeat constructor; auto|].
    intros x Hin [<-|[]]. apply in_map_iff in Hin as [s [Hs Hin]].
    assert (Hc : existsb (fun s0 => id s0 =? sid) d = true).
    { apply existsb_exists. exists s. split; [exact Hin|].
      apply String.eqb_eq. exact Hs. }
    congruence.
  - unfold update_analysis.
    destruct (get_session d sid) as [s|] eqn:Hs; [|exact H].
    destruct (fits_INTEGER score); [|exact H].
    pose proof (commit_ids now
                  (analysis_changed s
                     (set_analysis s jt jd score ms st eg recs sm))
                  d sid (set_analysis s jt jd score ms st eg recs sm)
                  (proj1 (get_session_id d sid s Hs))) as Hc.
    destruct (commit _ _ _ _ _). cbn [snd] in *. rewrite Hc. exact H.
  - unfold update_enhancement.
    destruct (get_session d sid) as [s|] eqn:Hs; [|exact H].
    destruct (fits_INTEGER (Some score)); [|exact H].
    pose proof (commit_ids now
                  (enhancement_changed json_equal s
                     (set_enhancement s info score sugg path))
                  d sid (set_enhancement s info score sugg path)
                  (proj1 (get_session_id d sid s Hs))) as Hc.
    destruct (commit _ _ _ _ _). cbn [snd] in *. rewrite Hc. exact H.
  - unfold delete_session.
    destruct (get_session d sid); cbn [snd]; [|exact H].
    apply nodup_map_filter, H.
Qed.

(** X2.  The primary key stays a key: whatever series of create, update
    and delete calls the store goes through, no two rows share an id. *)
Theorem session_ids_stay_unique (driver : Driver)
    (json_equal : json -> json -> bool) (history : list operation) :
  NoDup (map id (run driver json_equal history)).
Proof.
  unfold run.
  assert (H : forall d, NoDup (map id d) ->
                        NoDup (map id (fold_left (apply driver json_equal)
                                         history d))).
  { induction history as [|op history IH]; intros d Hd; simpl; [exact Hd|].
    apply IH, apply_ids, Hd. }
  apply H. constructor.
Qed.

Lemma length_filter_unique (d : db) (i : string) (s : CVSession) :
  NoDup (map id d) -> get_session d i = Some s ->
  S (List.length (filter (fun t => negb (id t =? i)) d)) = List.length d.
Proof.
  unfold get_session. induction d as [|t d IH]; simpl; [discriminate|].
  intros Hnodup Hfind. inversion Hnodup as [|? ? Hnotin Hrest]; subst.
  destruct (id t =? i) eqn:E; simpl.
  - f_equal. apply String.eqb_eq in E.
    assert (Hall : forall u, In u d -> negb (id u =? i) = true).
    { intros u Hu. destruct (id u =? i) eqn:Eu; [|reflexivity].
      apply String.eqb_eq in Eu. exfalso. apply Hnotin.
      apply in_map_iff. exists u. split; [congruence|exact Hu]. }
    clear -Hall. induction d as [|u d IH]; simpl; [reflexivity|].
    rewrite (Hall u) by (left; reflexivity). simpl. f_equal.
    apply IH. intros v Hv. apply Hall. right; exact Hv.
  - f_equal. apply IH; assumption.
Qed.

(** X3.  [delete_session] answers whether a row with the id existed.
    Afterwards the id is not found, every other id is looked up as before,
    and deleting again answers [False] and changes nothing.  In a table
    with unique ids the count drops by exactly one when a row existed. *)
Theorem delete_session_removes (d : db) (i : string) :
  fst (delete_session d i) = is_not_null (get_session d i)
  /\ get_session (snd (delete_session d i)) i = None
  /\ (forall j, j <> i ->
        get_session (snd (delete_session d i)) j = get_session d j)
  /\ delete_session (snd (delete_session d i)) i
     = (false, snd (delete_session d i))
  /\ (forall s, NoDup (map id d) -> get_session d i = Some s ->
        S (get_sessions_count (snd (delete_session d i)))
        = get_sessions_count d).
Proof.
  unfold delete_session.
  destruct (get_session d i) as [s|] eqn:Hs; cbn [fst snd is_not_null].
  - repeat split.
    + apply get_session_filter_same.
    + intros j Hj. apply get_session_filter_other, Hj.
    + rewrite get_session_filter_same. reflexivity.
    + intros s' Hnodup Hs'. unfold get_sessions_count.
      apply (length_filter_unique d i s); assumption.
  - repeat split; try assumption.
    + rewrite Hs. reflexivity.
    + intros s Hnodup H. discriminate.
Qed.

Lemma delete_session_removes_witness :
  S (get_sessions_count
       (snd (delete_session
               [Examples.uploaded "tmpa.txt" 1; Examples.analyzed "tmpb.txt" 2 65]
               "tmpa.txt")))
  = get_sessions_count
      [Examples.uploaded "tmpa.txt" 1; Examples.analyzed "tmpb.txt" 2 65].
Proof.
  apply (proj2 (proj2 (proj2 (proj2
           (delete_session_removes
              [Examples.uploaded "tmpa.txt" 1; Examples.analyzed "tmpb.txt" 2 65]
              "tmpa.txt")))) (Examples.uploaded "tmpa.txt" 1)).
  - repeat constructor; simpl; intuition discriminate.
  - reflexivity.
Defined.

End StoreLookups.

Section StoreUpdates.
Import Crud.

Lemma list_eqb_eq (l1 l2 : list string) :
  list_eqb String.eqb l1 l2 = true -> l1 = l2.
Proof.
  revert l2; induction l1 as [|a l1 IH]; intros [|b l2]; simpl;
    try discriminate; [reflexivity|].
  intro H. apply andb_true_iff in H as [Hab Hrest].
  apply String.eqb_eq in Hab. f_equal; [exact Hab|apply IH, Hrest].
Qed.

Lemma option_eqb_eq {A : Type} (eqb : A -> A -> bool) (x y : option A) :
  (forall a b, eqb a b = true -> a = b) ->
  option_eqb eqb x y = true -> x = y.
Proof.
  intros Heq. destruct x, y; simpl; try discriminate; [|reflexivity].
  intro H. f_equal. apply Heq, H.
Qed.

(** When the net-change test finds nothing, the assignments left the row
    as it was. *)
Lemma analysis_unchanged (s : CVSession) (jt jd : string) (score : option Z)
    (ms st eg recs : option (list string)) (sm : option string) :
  analysis_changed s (set_analysis s jt jd score ms st eg recs sm) = false ->
  set_analysis s jt jd score ms st eg recs sm = s.
Proof.
  unfold analysis_changed. intro H. apply negb_false_iff in H.
  repeat (apply andb_true_iff in H as [H ?]).
  destruct s; cbn in *.
  repeat match goal with
         | E : option_eqb String.eqb _ _ = true |- _ =>
             apply (option_eqb_eq String.eqb) in E;
             [|intros ? ?; apply String.eqb_eq]
         | E : option_eqb Z.eqb _ _ = true |- _ =>
             apply (option_eqb_eq Z.eqb) in E; [|intros ? ?; apply Z.eqb_eq]
         | E : option_eqb (list_eqb String.eqb) _ _ = true |- _ =>
             apply (option_eqb_eq (list_eqb String.eqb)) in E;
             [|apply list_eqb_eq]
         end.
  unfold set_analysis; cbn. congruence.
Qed.

Lemma update_analysis_missing (driver : Driver) (now : Z) (d : db)
    (i jt jd : string) (score : option Z)
    (ms st eg recs : option (list string)) (sm : option string) :
  get_session d i = None ->
  update_analysis driver now d i jt jd score ms st eg recs sm
  = (Return None, d).
Proof. intro H. unfold update_analysis. rewrite H. reflexivity. Qed.

(** The call in its three cases: the id is not stored; the score does not
    fit the column; the row is written, if anything changed. *)
Lemma update_analysis_cases (driver : Driver) (now : Z) (d : db)
    (i jt jd : string) (score : option Z)
    (ms st eg recs : option (list string)) (sm : option string) :
  let after := update_analysis driver now d i jt jd score ms st eg recs sm in
  (get_session d i = None /\ after = (Return None, d))
  \/ (exists s,
        get_session d i = Some s /\ fits_INTEGER score = false
        /\ after = (Raise (mkExn OverflowError (overflow_error_text driver)), d))
  \/ (exists s,
        get_session d i = Some s /\ fits_INTEGER score = true
        /\ id s = i
        /\ let s' := set_analysis s jt jd score ms st eg recs sm in
           (analysis_changed s s' = true
            /\ after = (Return (Some (touch now s')),
                        write_row d i (touch now s')))
           \/ (s' = s /\ after = (Return (Some s), d))).
Proof.
  cbv zeta. destruct (get_session d i) as [s|] eqn:Hs.
  - right. rewrite (update_analysis_found driver now d s) by exact Hs.
    cbv zeta. destruct (fits_INTEGER score) eqn:Hfits.
    + right. exists s. repeat split.
      * exact (proj1 (get_session_id d i s Hs)).
      * destruct (analysis_changed s _) eqn:Hc.
        -- left. split; reflexivity.
        -- right. rewrite (analysis_unchanged s _ _ _ _ _ _ _ _ Hc).
           split; reflexivity.
    + left. exists s. repeat split.
  - left. split; [reflexivity|].
    apply update_analysis_missing, Hs.
Qed.

(** The row stored under each id after [update_analysis]. *)
Lemma stored_after_update_analysis (driver : Driver) (now : Z) (d : db)
    (i jt jd : string) (score : option Z)
    (ms st eg recs : option (list string)) (sm : option string) (j : string) :
  get_session
    (snd (update_analysis driver now d i jt jd score ms st eg recs sm)) j
  = if i =? j
    then option_map
           (fun s =>
              if fits_INTEGER score
                 && analysis_changed s
                      (set_analysis s jt jd score ms st eg recs sm)
              then touch now (set_analysis s jt jd score ms st eg recs sm)
              else s)
           (get_session d i)
    else get_session d j.
Proof.
  destruct (update_analysis_cases driver now d i jt jd score ms st eg recs sm)
    as [[Hs ->]|[[s [Hs [Hfits ->]]]|[s [Hs [Hfits [Hid H]]]]]];
    cbv zeta in *; cbn [snd].
  - destruct (i =? j) eqn:E; [|reflexivity].
    apply String.eqb_eq in E; subst j. rewrite Hs. reflexivity.
  - destruct (i =? j) eqn:E; [|reflexivity].
    apply String.eqb_eq in E; subst j. rewrite Hs, Hfits. reflexivity.
  - rewrite Hs, Hfits. cbn [option_map andb].
    destruct H as [[Hc ->]|[Hsame ->]]; cbn [snd].
    + rewrite Hc. destruct (i =? j) eqn:E.
      * apply String.eqb_eq in E; subst j.
        apply (get_session_write_row d i s); [exact Hs|].
        apply String.eqb_eq. exact Hid.
      * apply get_session_write_other; [exact Hid|].
        intro; subst j. rewrite String.eqb_refl in E. discriminate.
    + rewrite Hsame, analysis_changed_refl. destruct (i =? j) eqn:E.
      * apply String.eqb_eq in E; subst j. exact Hs.
      * reflexivity.
Qed.

Lemma update_analysis_length (driver : Driver) (now : Z) (d : db)
    (i jt jd : string) (score : option Z)
    (ms st eg recs : option (list string)) (sm : option string) :
  List.length
    (snd (update_analysis driver now d i jt jd score ms st eg recs sm))
  = List.length d.
Proof.
  destruct (update_analysis_cases driver now d i jt jd score ms st eg recs sm)
    as [[Hs ->]|[[s [Hs [Hfits ->]]]|[s [Hs [Hfits [Hid H]]]]]];
    cbv zeta in *; cbn [snd]; try reflexivity.
  destruct H as [[Hc ->]|[Hsame ->]]; cbn [snd]; [|reflexivity].
  unfold write_row. apply length_map.
Qed.

(** X4.  [update_analysis] on an id that is stored, with a score that
    fits the INTEGER column, returns the session it leaves in the table:
    the eight analysis columns hold the arguments (NULL for [None]), every
    other column but [updated_at] is as before, and [updated_at] is either
    the time of the call or unchanged.  With a score outside the column
    the commit raises [OverflowError] and the table stays as it was.
    Other ids are looked up as before and the count stays.  On an id that
    is not stored the call returns [None] and leaves the table alone. *)
Theorem update_analysis_then_get (driver : Driver) (now : Z) (d : db)
    (i jt jd : string) (score : option Z)
    (ms st eg recs : option (list string)) (sm : option string) :
  let after := update_analysis driver now d i jt jd score ms st eg recs sm in
  (forall s, get_session d i = Some s -> fits_INTEGER score = true ->
     exists s',
       fst after = Return (Some s')
       /\ get_session (snd after) i = Some s'
       /\ content_of s'
          = content_of (set_analysis s jt jd score ms st eg recs sm)
       /\ (updated_at s' = now \/ updated_at s' = updated_at s))
  /\ (forall s, get_session d i = Some s -> fits_INTEGER score = false ->
        snd after = d
        /\ exists e,
             fst after = Raise e
             /\ exn_cls e = OverflowError
             /\ str e = overflow_error_text driver)
  /\ (get_session d i = None -> after = (Return None, d))
  /\ (forall j, j <> i -> get_session (snd after) j = get_session d j)
  /\ get_sessions_count (snd after) = get_sessions_count d.
Proof.
  cbv zeta. split; [|split; [|split; [|split]]].
  - intros s Hs Hfits.
    pose proof (stored_after_update_analysis driver now d i jt jd score ms st
                  eg recs sm i) as Hget.
    rewrite String.eqb_refl, Hs, Hfits in Hget. cbn [option_map andb] in Hget.
    rewrite (update_analysis_found driver now d s) in * by exact Hs.
    cbv zeta in *. rewrite Hfits in *.
    destruct (analysis_changed s _) eqn:Hc; cbn [fst snd] in *.
    + eexists. repeat split; [exact Hget|left; reflexivity].
    + rewrite (analysis_unchanged s _ _ _ _ _ _ _ _ Hc).
      eexists. repeat split; [exact Hget|right; reflexivity].
  - intros s Hs Hfits.
    rewrite (update_analysis_found driver now d s) by exact Hs.
    cbv zeta. rewrite Hfits. cbn [fst snd]. split; [reflexivity|].
    eexists. repeat split.
  - apply update_analysis_missing.
  - intros j Hj. rewrite stored_after_update_analysis.
    destruct (i =? j) eqn:E; [|reflexivity].
    apply String.eqb_eq in E. congruence.
  - apply update_analysis_length.
Qed.

Lemma update_analysis_then_get_witness :
  exists s',
    fst (update_analysis Examples.sqlite 20 [Examples.uploaded "tmpa.txt" 1]
           "tmpa.txt" "Developer" "Need Python" (Some 65%Z) (Some ["Rust"])
           (Some ["Python"]) (Some []) (Some ["Learn Rust"])
           (Some "A fair match.")) = Return (Some s')
    /\ get_session
         (snd (update_analysis Examples.sqlite 20
                 [Examples.uploaded "tmpa.txt" 1] "tmpa.txt" "Developer"
                 "Need Python" (Some 65%Z) (Some ["Rust"]) (Some ["Python"])
                 (Some []) (Some ["Learn Rust"]) (Some "A fair match.")))
         "tmpa.txt" = Some s'
    /\ content_of s'
       = content_of
           (set_analysis (Examples.uploaded "tmpa.txt" 1) "Developer"
              "Need Python" (Some 65%Z) (Some ["Rust"]) (Some ["Python"])
              (Some []) (Some ["Learn Rust"]) (Some "A fair match."))
    /\ (updated_at s' = 20%Z
        \/ updated_at s' = updated_at (Examples.uploaded "tmpa.txt" 1)).
Proof.
  apply (proj1 (update_analysis_then_get Examples.sqlite 20
                  [Examples.uploaded "tmpa.txt" 1]
                  "tmpa.txt" "Developer" "Need Python" (Some 65%Z)
                  (Some ["Rust"]) (Some ["Python"]) (Some [])
                  (Some ["Learn Rust"]) (Some "A fair match."))).
  - reflexivity.
  - reflexivity.
Defined.

Variable json_equal : json -> json -> bool.

Lemma update_enhancement_found (driver : Driver) (now : Z) (d : db)
    (s : CVSession) (i info : string) (score : Z) (sugg : json)
    (path : string) :
  get_session d i = Some s ->
  update_enhancement driver json_equal now d i info score sugg path
  = if fits_INTEGER (Some score) then
      if enhancement_changed json_equal s
           (set_enhancement s info score sugg path)
      then (Return (Some (touch now (set_enhancement s info score sugg path))),
            write_row d i (touch now (set_enhancement s info score sugg path)))
      else (Return (Some (set_enhancement s info score sugg path)), d)
    else (Raise (mkExn OverflowError (overflow_error_text driver)), d).
Proof.
  intro Hs. unfold update_enhancement. rewrite Hs. unfold commit.
  destruct (fits_INTEGER (Some score)); [|reflexivity].
  destruct (enhancement_changed json_equal s _); reflexivity.
Qed.

Lemma update_enhancement_missing (driver : Driver) (now : Z) (d : db)
    (i info : string) (score : Z) (sugg : json) (path : string) :
  get_session d i = None ->
  update_enhancement driver json_equal now d i info score sugg path
  = (Return None, d).
Proof. intro H. unfold update_enhancement. rewrite H. reflexivity. Qed.

(** X5.  [update_enhancement] is idempotent as well, provided the
    suggestions compare equal to themselves (as decoded JSON does): a
    second call with the same arguments has the same outcome and leaves
    the table, [updated_at] included, as the first call left it. *)
Theorem update_enhancement_idempotent (driver : Driver) (now1 now2 : Z)
    (d : db) (i info : string) (score : Z) (sugg : json) (path : string) :
  json_equal sugg sugg = true ->
  let once :=
    update_enhancement driver json_equal now1 d i info score sugg path in
  update_enhancement driver json_equal now2 (snd once) i info score sugg path
  = once.
Proof.
  intro Hrefl. cbv zeta.
  assert (Hsame : forall s,
            enhancement_changed json_equal
              (set_enhancement s info score sugg path)
              (set_enhancement s info score sugg path) = false).
  { intro s. unfold enhancement_changed. cbn.
    rewrite !String.eqb_refl, Z.eqb_refl, Hrefl. reflexivity. }
  destruct (get_session d i) as [s|] eqn:Hs.
  - destruct (get_session_id d i s Hs) as [Hid _].
    rewrite (update_enhancement_found driver now1 d s) by exact Hs.
    destruct (fits_INTEGER (Some score)) eqn:Hfits.
    + destruct (enhancement_changed json_equal s _) eqn:Hc; cbn [snd].
      * set (row := touch now1 _).
        assert (Hrow : (id row =? i) = true)
          by (apply String.eqb_eq; exact Hid).
        rewrite (update_enhancement_found driver now2 _ row)
          by (apply (get_session_write_row d i s row Hs Hrow)).
        rewrite Hfits.
        assert (Hset : set_enhancement row info score sugg path = row)
          by reflexivity.
        rewrite Hset.
        assert (Hrow' : enhancement_changed json_equal row row = false)
          by (apply (Hsame s)).
        rewrite Hrow'. reflexivity.
      * rewrite (update_enhancement_found driver now2 d s) by exact Hs.
        rewrite Hfits, Hc. reflexivity.
    + cbn [snd]. rewrite (update_enhancement_found driver now2 d s)
        by exact Hs.
      rewrite Hfits. reflexivity.
  - rewrite (update_enhancement_missing driver now1 d i) by exact Hs.
    cbn [snd]. apply update_enhancement_missing, Hs.
Qed.

End StoreUpdates.

Lemma update_enhancement_idempotent_witness :
  let once :=
    Crud.update_enhancement Examples.sqlite Examples.same_json 30
      [Examples.analyzed "tmpa.txt" 1 65] "tmpa.txt" "Knows Rust" 88
      (JStr "Mention Rust") "/tmp/enhanced_tmpa.docx" in
  Crud.update_enhancement Examples.sqlite Examples.same_json 40 (snd once)
    "tmpa.txt" "Knows Rust" 88 (JStr "Mention Rust") "/tmp/enhanced_tmpa.docx"
  = once.
Proof.
  apply (update_enhancement_idempotent Examples.same_json Examples.sqlite
           30 40 [Examples.analyzed "tmpa.txt" 1 65] "tmpa.txt" "Knows Rust"
           88 (JStr "Mention Rust") "/tmp/enhanced_tmpa.docx").
  reflexivity.
Defined.

Section StoreComposition.
Import Crud.
Variable driver : Driver.
Variable json_equal : json -> json -> bool.

(** The row stored under each id after [update_enhancement]. *)
Lemma stored_after_update_enhancement (now : Z) (d : db) (i info : string)
    (score : Z) (sugg : json) (path : string) (j : string) :
  get_session
    (snd (update_enhancement driver json_equal now d i info score sugg path)) j
  = if i =? j
    then option_map
           (fun s =>
              if fits_INTEGER (Some score)
                 && enhancement_changed json_equal s
                      (set_enhancement s info score sugg path)
              then touch now (set_enhancement s info score sugg path)
              else s)
           (get_session d i)
    else get_session d j.
Proof.
  destruct (get_session d i) as [s|] eqn:Hs.
  - destruct (get_session_id d i s Hs) as [Hid _].
    rewrite (update_enhancement_found json_equal driver now d s) by exact Hs.
    cbn [option_map].
    destruct (fits_INTEGER (Some score)); cbn [andb].
    + destruct (enhancement_changed json_equal s _); cbn [snd].
      * destruct (i =? j) eqn:E.
        -- apply String.eqb_eq in E; subst j.
           apply (get_session_write_row d i s); [exact Hs|].
           apply String.eqb_eq. exact Hid.
        -- apply get_session_write_other; [exact Hid|].
           intro; subst j. rewrite String.eqb_refl in E. discriminate.
      * destruct (i =? j) eqn:E; [|reflexivity].
        apply String.eqb_eq in E; subst j. exact Hs.
    + cbn [snd]. destruct (i =? j) eqn:E; [|reflexivity].
      apply String.eqb_eq in E; subst j. exact Hs.
  - rewrite (update_enhancement_missing json_equal driver now d i)
      by exact Hs.
    cbn [snd option_map].
    destruct (i =? j) eqn:E; [|reflexivity].
    apply String.eqb_eq in E; subst j. exact Hs.
Qed.

Section Flags.
Variables (t : Z) (jt jd : string) (score : option Z)
  (ms st eg recs : option (list string)) (sm : option string)
  (info : string) (new_score : Z) (sugg : json) (path : string).

(** Each net-change test looks at its own columns only. *)
Lemma enhancement_after_analysis (s : CVSession) :
  enhancement_changed json_equal
    (touch t (set_analysis s jt jd score ms st eg recs sm))
    (set_enhancement (touch t (set_analysis s jt jd score ms st eg recs sm))
       info new_score sugg path)
  = enhancement_changed json_equal s
      (set_enhancement s info new_score sugg path).
Proof. reflexivity. Qed.

Lemma analysis_after_enhancement (s : CVSession) :
  analysis_changed
    (touch t (set_enhancement s info new_score sugg path))
    (set_analysis (touch t (set_enhancement s info new_score sugg path))
       jt jd score ms st eg recs sm)
  = analysis_changed s (set_analysis s jt jd score ms st eg recs sm).
Proof. reflexivity. Qed.

End Flags.

(** X6.  Analysis and enhancement are independent partial updates: in
    whichever order [update_analysis] and [update_enhancement] are called,
    on the same session or on two, every id ends up with the same stored
    columns; only [updated_at] depends on which call came last. *)
Theorem updates_commute (t1 t2 t3 t4 : Z) (d : db)
    (i1 jt jd : string) (score : option Z)
    (ms st eg recs : option (list string)) (sm : option string)
    (i2 info : string) (new_score : Z) (sugg : json) (path : string)
    (j : string) :
  option_map content_of
    (get_session
       (snd (update_enhancement driver json_equal t2
               (snd (update_analysis driver t1 d i1 jt jd score ms st eg recs
                       sm))
               i2 info new_score sugg path)) j)
  = option_map content_of
      (get_session
         (snd (update_analysis driver t4
                 (snd (update_enhancement driver json_equal t3 d i2 info
                         new_score sugg path))
                 i1 jt jd score ms st eg recs sm)) j).
Proof.
  rewrite stored_after_update_enhancement, stored_after_update_analysis.
  rewrite !stored_after_update_analysis, !stored_after_update_enhancement.
  destruct (fits_INTEGER score); destruct (fits_INTEGER (Some new_score));
    cbn [andb];
    destruct (String.eqb_spec i2 j) as [->|H2];
    destruct (String.eqb_spec i1 j) as [->|H1];
    rewrite ?String.eqb_refl;
    repeat match goal with
           | |- context [?a =? ?b] =>
               let E := fresh "E" in
               destruct (String.eqb_spec a b) as [E|E]; [congruence|]
           end;
    try reflexivity;
    (destruct (get_session d j) as [s|]; [|reflexivity]);
    cbn [option_map]; f_equal;
    try (destruct (analysis_changed s _) eqn:Hac;
         destruct (enhancement_changed json_equal s _) eqn:Hec;
         rewrite ?enhancement_after_analysis, ?analysis_after_enhancement,
           ?Hac, ?Hec; reflexivity);
    try (destruct (enhancement_changed json_equal s _); reflexivity);
    try (destruct (analysis_changed s _); reflexivity).
Qed.

(** A property of rows that the creation of a row establishes and every
    assignment and [touch] preserves -- the assignments of
    [update_analysis] for the calls that satisfy [Q] -- holds of all rows
    the store reaches through calls that satisfy [Q]. *)
Lemma store_invariant (P : CVSession -> Prop) (Q : operation -> Prop) :
  (forall i text type path created updated,
     P (mkSession i text type path None None None None None None None None
          None None None None created updated)) ->
  (forall s now, P s -> P (touch now s)) ->
  (forall s now sid jt jd score ms st eg recs sm,
     Q (UpdateAnalysis now sid jt jd score ms st eg recs sm) ->
     P s -> P (set_analysis s jt jd score ms st eg recs sm)) ->
  (forall s info score sugg path,
     P s -> P (set_enhancement s info score sugg path)) ->
  forall history,
    Forall Q history -> Forall P (run driver json_equal history).
Proof.
  intros Hnew Htouch Hanalysis Henh history Hcalls. unfold run.
  assert (Hstep : forall d op,
            Q op -> Forall P d -> Forall P (apply driver json_equal d op)).
  { intros d op Hop Hd.
    assert (Hwrite : forall i row, P row -> Forall P (write_row d i row)).
    { intros i row Hrow. unfold write_row. apply Forall_map.
      eapply Forall_impl; [|exact Hd].
      intros s Hs. destruct (id s =? i); assumption. }
    assert (Hfound : forall i s, get_session d i = Some s -> P s).
    { intros i s Hs. rewrite Forall_forall in Hd.
      apply Hd, (get_session_id d i s Hs). }
    destruct op as [created updated sid text ftype path
                   |now sid jt jd score ms st eg recs sm
                   |now sid info score sugg path
                   |sid]; cbn [apply].
    - unfold create_session. cbv zeta.
      destruct (existsb _ d); cbn [snd]; [exact Hd|].
      apply Forall_app. split; [exact Hd|]. constructor; [apply Hnew|constructor].
    - destruct (get_session d sid) as [s|] eqn:Hs.
      + rewrite (update_analysis_found driver now d s) by exact Hs. cbv zeta.
        destruct (fits_INTEGER score); [|exact Hd].
        destruct (analysis_changed s _); cbn [snd]; [|exact Hd].
        apply Hwrite, Htouch, (Hanalysis s now sid), (Hfound sid s Hs).
        exact Hop.
      + rewrite (update_analysis_missing driver now d sid) by exact Hs.
        exact Hd.
    - destruct (get_session d sid) as [s|] eqn:Hs.
      + rewrite (update_enhancement_found json_equal driver now d s)
          by exact Hs.
        destruct (fits_INTEGER (Some score)); [|exact Hd].
        destruct (enhancement_changed json_equal s _); cbn [snd]; [|exact Hd].
        apply Hwrite, Htouch, Henh, (Hfound sid s Hs).
      + rewrite (update_enhancement_missing json_equal driver now d sid)
          by exact Hs.
        exact Hd.
    - unfold delete_session. destruct (get_session d sid); cbn [snd]; [|exact Hd].
      apply Forall_forall. intros s Hin. apply filter_In in Hin as [Hin _].
      rewrite Forall_forall in Hd. apply Hd, Hin. }
  assert (H : forall d, Forall P d ->
                        Forall P (fold_left (apply driver json_equal)
                                    history d)).
  { induction Hcalls as [|op history Hop Hrest IH]; intros d Hd; simpl;
      [exact Hd|].
    apply IH, Hstep; assumption. }
  apply H. constructor.
Qed.

(** X7.  As long as every call of [update_analysis] passes a value, not
    [None], for each of its columns, a stored session is never half
    analyzed or half enhanced: the eight analysis columns of a row are
    either all NULL or all set, and so are the four enhancement columns.
    The condition is not met by the endpoint when a field of the decoded
    reply is null; see [null_score_leaves_half_a_row]. *)
Theorem rows_stay_whole (history : list operation) :
  Forall (fun op => passes_values op = true) history ->
  Forall (fun s => whole s = true) (run driver json_equal history).
Proof.
  apply (store_invariant (fun s => whole s = true)
           (fun op => passes_values op = true)).
  - reflexivity.
  - intros s now H. exact H.
  - intros s now sid jt jd score ms st eg recs sm Hop H. unfold whole in *.
    apply andb_true_iff in H as [_ H]. apply andb_true_iff. split;
      [|exact H].
    cbn [passes_values] in Hop.
    destruct score, ms, st, eg, recs, sm; try discriminate Hop. reflexivity.
  - intros s info score sugg path H. unfold whole in *.
    apply andb_true_iff in H as [H _]. apply andb_true_iff. split;
      [exact H|reflexivity].
Qed.

(** X8.  What the upload fixed stays fixed: no call changes the id, the
    text, the file type, the file path or the creation time of a session
    that is stored before and after it. *)
Theorem upload_is_immutable (d : db) (op : operation) (i : string)
    (s s' : CVSession) :
  get_session d i = Some s ->
  get_session (apply driver json_equal d op) i = Some s' ->
  upload_of s' = upload_of s.
Proof.
  intros Hs Hs'.
  destruct op as [created updated sid text ftype path
                 |now sid jt jd score ms st eg recs sm
                 |now sid info score sugg path
                 |sid]; cbn [apply] in Hs'.
  - unfold create_session in Hs'. cbv zeta in Hs'.
    destruct (existsb _ d); cbn [snd] in Hs'; [congruence|].
    rewrite get_session_app, Hs in Hs'. congruence.
  - rewrite stored_after_update_analysis in Hs'.
    destruct (sid =? i) eqn:E; [|congruence].
    apply String.eqb_eq in E; subst sid. rewrite Hs in Hs'.
    cbn [option_map] in Hs'.
    destruct (fits_INTEGER score && analysis_changed s _);
      injection Hs' as <-; reflexivity.
  - rewrite stored_after_update_enhancement in Hs'.
    destruct (sid =? i) eqn:E; [|congruence].
    apply String.eqb_eq in E; subst sid. rewrite Hs in Hs'.
    cbn [option_map] in Hs'.
    destruct (fits_INTEGER (Some score)
              && enhancement_changed json_equal s _); injection Hs' as <-;
      reflexivity.
  - unfold delete_session in Hs'.
    destruct (get_session d sid) eqn:Hsid; cbn [snd] in Hs'; [|congruence].
    destruct (String.eqb_spec i sid) as [->|Hne].
    + rewrite get_session_filter_same in Hs'. discriminate.
    + rewrite get_session_filter_other in Hs' by exact Hne. congruence.
Qed.

End StoreComposition.

(** X7 on an upload that is analyzed and then enhanced. *)
Lemma rows_stay_whole_witness :
  Forall (fun s => Crud.whole s = true)
    (Crud.run Examples.sqlite Examples.same_json
       [Crud.CreateSession 1 1 "tmpa.txt" "Jane Doe" "txt"
          (Some "/tmp/tmpa.txt");
        Crud.UpdateAnalysis 2 "tmpa.txt" "Developer" "Need Python" (Some 72%Z)
          (Some ["Rust"]) (Some ["Python"]) (Some []) (Some ["Learn Rust"])
          (Some "A fair match.");
        Crud.UpdateEnhancement 3 "tmpa.txt" "Knows Rust" 88 (JDict [])
          "/tmp/enhanced_tmpa.docx"]).
Proof.
  apply rows_stay_whole. repeat constructor.
Defined.

(** What the condition of X7 excludes: an [update_analysis] that is handed
    [None] as score stores the other columns and leaves the score NULL. *)
Example null_score_leaves_half_a_row :
  map Crud.whole
    (Crud.run Examples.sqlite Examples.same_json
       [Crud.CreateSession 1 1 "tmpa.txt" "Jane Doe" "txt"
          (Some "/tmp/tmpa.txt");
        Crud.UpdateAnalysis 2 "tmpa.txt" "Developer" "Need Python" None
          (Some ["Rust"]) (Some ["Python"]) (Some []) (Some ["Learn Rust"])
          (Some "A fair match.")])
  = [false].
Proof. reflexivity. Qed.

Lemma upload_is_immutable_witness :
  Crud.upload_of
    (Crud.touch 20
       (Crud.set_analysis (Examples.uploaded "tmpa.txt" 1) "Developer"
          "Need Python" (Some 65%Z) (Some []) (Some []) (Some []) (Some [])
          (Some "A fair match.")))
  = Crud.upload_of (Examples.uploaded "tmpa.txt" 1).
Proof.
  apply (upload_is_immutable Examples.sqlite Examples.same_json
           [Examples.uploaded "tmpa.txt" 1]
           (Crud.UpdateAnalysis 20 "tmpa.txt" "Developer" "Need Python"
              (Some 65%Z) (Some []) (Some []) (Some []) (Some [])
              (Some "A fair match."))
           "tmpa.txt").
  - reflexivity.
  - reflexivity.
Defined.

(* ===================================================================== *)
(** * Listing and searching *)
(* ===================================================================== *)

Section Listing.
Import Crud.

Lemma insert_desc_sorted (s : CVSession) (rows : list CVSession) :
  newest_first rows -> newest_first (insert_desc s rows).
Proof.
  unfold newest_first. induction 1 as [|t rows Hsorted IH Hall]; simpl.
  - repeat constructor.
  - destruct (created_at t <=? created_at s)%Z eqn:E.
    + apply Z.leb_le in E. constructor.
      * constructor; assumption.
      * constructor; [lia|]. eapply Forall_impl; [|exact Hall].
        intros u Hu. simpl in Hu. lia.
    + apply Z.leb_gt in E. constructor; [exact IH|].
      apply Forall_forall. intros u Hu.
      apply in_insert_desc in Hu as [->|Hu]; [lia|].
      rewrite Forall_forall in Hall. apply Hall, Hu.
Qed.

(** Rows with the same timestamp are listed in the order of the table. *)
Example ties_keep_table_order :
  map id
    (order_by_created_at_desc
       [Examples.uploaded "tmpa.txt" 5; Examples.uploaded "tmpb.txt" 7;
        Examples.uploaded "tmpc.txt" 5; Examples.uploaded "tmpd.txt" 5])
  = ["tmpb.txt"; "tmpa.txt"; "tmpc.txt"; "tmpd.txt"].
Proof. reflexivity. Qed.

Lemma order_by_sorted (rows : list CVSession) :
  newest_first (order_by_created_at_desc rows).
Proof.
  induction rows as [|s rows IH]; simpl; [constructor|].
  apply insert_desc_sorted, IH.
Qed.

Lemma skipn_sorted (n : nat) (rows : list CVSession) :
  newest_first rows -> newest_first (skipn n rows).
Proof.
  unfold newest_first. revert rows; induction n as [|n IH]; intros rows H;
    [exact H|].
  destruct rows as [|s rows]; [exact H|]. simpl. apply IH.
  inversion H; assumption.
Qed.

Lemma firstn_sorted (n : nat) (rows : list CVSession) :
  newest_first rows -> newest_first (firstn n rows).
Proof.
  unfold newest_first. revert rows; induction n as [|n IH]; intros rows H;
    [constructor|].
  destruct rows as [|s rows]; [constructor|]. simpl.
  inversion H as [|? ? Hrest Hall]; subst. constructor; [apply IH, Hrest|].
  apply Forall_forall. intros u Hu. rewrite Forall_forall in Hall.
  apply Hall. rewrite <- (firstn_skipn n rows). apply in_or_app; auto.
Qed.

Lemma page_sorted (limit_ skip : Z) (rows : list CVSession) :
  newest_first rows -> newest_first (limit limit_ (offset skip rows)).
Proof.
  intro H. unfold limit, offset. destruct (limit_ <? 0)%Z.
  - apply skipn_sorted, H.
  - apply firstn_sorted, skipn_sorted, H.
Qed.

Lemma filter_twice {A : Type} (p q : A -> bool) (l : list A) :
  filter q (filter p l) = filter (fun x => p x && q x) l.
Proof.
  induction l as [|x l IH]; [reflexivity|]. cbn [filter].
  destruct (p x); cbn [filter andb]; [|exact IH].
  destruct (q x); rewrite IH; reflexivity.
Qed.

Lemma filter_everything {A : Type} (l : list A) :
  filter (fun _ => true) l = l.
Proof.
  induction l as [|x l IH]; [reflexivity|]. cbn [filter]. rewrite IH.
  reflexivity.
Qed.

Lemma filter_if_as_filter (guard : bool) (cond : CVSession -> bool)
    (query : list CVSession) :
  filter_if guard cond query
  = filter (fun s => if guard then cond s else true) query.
Proof.
  unfold filter_if. destruct guard; [reflexivity|].
  symmetry. apply filter_everything.
Qed.

Lemma filter_bound_as_filter (bound : option Z) (cond : Z -> CVSession -> bool)
    (query : list CVSession) :
  match bound with
  | Some m => filter (cond m) query
  | None => query
  end
  = filter (fun s => match bound with Some m => cond m s | None => true end)
      query.
Proof.
  destruct bound; [reflexivity|]. symmetry. apply filter_everything.
Qed.

(** The chain of [query.filter] calls selects the rows that pass every
    given filter, in table order. *)
Lemma listing_is_selection (d : db) (limit_ skip : Z)
    (job_title_ : option string) (min_score max_score : option Z)
    (file_type : option string) :
  get_filtered_sessions d limit_ skip job_title_ min_score max_score file_type
  = limit limit_
      (offset skip
         (order_by_created_at_desc
            (filter (selected job_title_ min_score max_score file_type) d))).
Proof.
  unfold get_filtered_sessions. do 3 f_equal.
  rewrite !filter_if_as_filter.
  rewrite (filter_bound_as_filter min_score
             (fun m s => score_ge (original_score s) m)).
  rewrite (filter_bound_as_filter max_score
             (fun m s => score_le (original_score s) m)).
  rewrite !filter_twice. apply filter_ext. intro s. unfold selected.
  rewrite !andb_assoc. reflexivity.
Qed.

Lemma in_insert_desc_iff (s t : CVSession) (rows : list CVSession) :
  In t (insert_desc s rows) <-> t = s \/ In t rows.
Proof.
  split; [apply in_insert_desc|].
  induction rows as [|u rows IH]; simpl.
  - intros [->|[]]; auto.
  - destruct (created_at u <=? created_at s)%Z; simpl; intuition.
Qed.

Lemma in_order_by_iff (t : CVSession) (rows : list CVSession) :
  In t (order_by_created_at_desc rows) <-> In t rows.
Proof.
  induction rows as [|s rows IH]; simpl; [tauto|].
  rewrite in_insert_desc_iff, IH. intuition.
Qed.

Lemma order_by_length (rows : list CVSession) :
  List.length (order_by_created_at_desc rows) = List.length rows.
Proof.
  induction rows as [|s rows IH]; simpl; [reflexivity|].
  rewrite <- IH. generalize (order_by_created_at_desc rows) as sorted.
  intro sorted. induction sorted as [|t sorted IHs]; simpl; [reflexivity|].
  destruct (created_at t <=? created_at s)%Z; simpl; [reflexivity|].
  rewrite IHs. reflexivity.
Qed.

(** X9.  The listing comes newest first, and it has at most [limit]
    rows when [limit] is not negative. *)
Theorem listing_newest_first (d : db) (limit_ skip : Z)
    (job_title_ : option string) (min_score max_score : option Z)
    (file_type : option string) :
  newest_first
    (get_filtered_sessions d limit_ skip job_title_ min_score max_score
       file_type)
  /\ ((0 <= limit_)%Z ->
      (Z.of_nat
         (List.length
            (get_filtered_sessions d limit_ skip job_title_ min_score
               max_score file_type)) <= limit_)%Z).
Proof.
  rewrite listing_is_selection. split.
  - apply page_sorted, order_by_sorted.
  - intro H. unfold limit. destruct (limit_ <? 0)%Z eqn:E;
      [apply Z.ltb_lt in E; lia|].
    rewrite length_firstn. lia.
Qed.

Lemma listing_newest_first_witness :
  (Z.of_nat
     (List.length
        (get_filtered_sessions
           [Examples.analyzed "tmpa.txt" 1 40; Examples.analyzed "tmpb.txt" 2 65]
           1 0 None None None None)) <= 1)%Z.
Proof.
  apply (proj2 (listing_newest_first
                  [Examples.analyzed "tmpa.txt" 1 40;
                   Examples.analyzed "tmpb.txt" 2 65]
                  1 0 None None None None)).
  lia.
Defined.

(** X10.  Every listed row is a row of the table that passes each
    filter that was given (title pattern, score bounds, file type); and
    when nothing is skipped and the limit is negative or at least the size
    of the table, every such row is listed. *)
Theorem listing_is_exact (d : db) (limit_ skip : Z)
    (job_title_ : option string) (min_score max_score : option Z)
    (file_type : option string) (s : CVSession) :
  (In s (get_filtered_sessions d limit_ skip job_title_ min_score max_score
           file_type) ->
   In s d /\ selected job_title_ min_score max_score file_type s = true)
  /\ ((skip <= 0)%Z ->
      (limit_ < 0 \/ Z.of_nat (List.length d) <= limit_)%Z ->
      In s d ->
      selected job_title_ min_score max_score file_type s = true ->
      In s (get_filtered_sessions d limit_ skip job_title_ min_score
              max_score file_type)).
Proof.
  rewrite listing_is_selection. split.
  - intro H. apply in_page, in_order_by in H. apply filter_In in H. exact H.
  - intros Hskip Hlimit Hin Hsel.
    assert (Hall : In s (order_by_created_at_desc
                           (filter (selected job_title_ min_score max_score
                                      file_type) d))).
    { apply in_order_by_iff, filter_In. split; assumption. }
    unfold offset. replace (Z.to_nat skip) with 0 by lia. cbn [skipn].
    unfold limit. destruct (limit_ <? 0)%Z eqn:E; [exact Hall|].
    apply Z.ltb_ge in E. rewrite firstn_all2; [exact Hall|].
    rewrite order_by_length.
    pose proof (filter_length_le
                  (selected job_title_ min_score max_score file_type) d).
    lia.
Qed.

Lemma listing_is_exact_witness :
  In (Examples.analyzed "tmpb.txt" 2 65)
    (get_filtered_sessions
       [Examples.uploaded "tmpa.txt" 1; Examples.analyzed "tmpb.txt" 2 65]
       100 0 (Some "dev") None None (Some "txt")).
Proof.
  apply (proj2 (listing_is_exact
                  [Examples.uploaded "tmpa.txt" 1;
                   Examples.analyzed "tmpb.txt" 2 65]
                  100 0 (Some "dev") None None (Some "txt")
                  (Examples.analyzed "tmpb.txt" 2 65))).
  - lia.
  - right. simpl. lia.
  - right; left; reflexivity.
  - reflexivity.
Defined.

Lemma firstn_plus {A : Type} (n m : nat) (l : list A) :
  firstn (n + m) l = (firstn n l ++ firstn m (skipn n l))%list.
Proof.
  revert l; induction n as [|n IH]; intro l; simpl; [reflexivity|].
  destruct l as [|x l]; simpl.
  - rewrite firstn_nil. reflexivity.
  - rewrite IH. reflexivity.
Qed.

(** X11.  Consecutive pages tile the listing: for the same filters, the
    page of [n] rows after [skip] followed by the page of [m] rows after
    [skip + n] is the page of [n + m] rows after [skip]. *)
Theorem pages_tile (d : db) (skip n m : Z)
    (job_title_ : option string) (min_score max_score : option Z)
    (file_type : option string) :
  (0 <= skip)%Z -> (0 <= n)%Z -> (0 <= m)%Z ->
  (get_filtered_sessions d n skip job_title_ min_score max_score file_type
   ++ get_filtered_sessions d m (skip + n) job_title_ min_score max_score
        file_type)%list
  = get_filtered_sessions d (n + m) skip job_title_ min_score max_score
      file_type.
Proof.
  intros Hskip Hn Hm. rewrite !listing_is_selection.
  generalize (order_by_created_at_desc
                (filter (selected job_title_ min_score max_score file_type) d))
    as rows.
  intro rows. unfold limit, offset.
  replace (n <? 0)%Z with false by (symmetry; apply Z.ltb_ge; lia).
  replace (m <? 0)%Z with false by (symmetry; apply Z.ltb_ge; lia).
  replace (n + m <? 0)%Z with false by (symmetry; apply Z.ltb_ge; lia).
  rewrite !Z2Nat.inj_add by lia.
  rewrite firstn_plus, skipn_skipn.
  rewrite (Nat.add_comm (Z.to_nat n) (Z.to_nat skip)). reflexivity.
Qed.

Lemma pages_tile_witness :
  (get_filtered_sessions
     [Examples.analyzed "tmpa.txt" 1 40; Examples.analyzed "tmpb.txt" 2 65;
      Examples.analyzed "tmpc.txt" 3 90] 1 0 None None None None
   ++ get_filtered_sessions
        [Examples.analyzed "tmpa.txt" 1 40; Examples.analyzed "tmpb.txt" 2 65;
         Examples.analyzed "tmpc.txt" 3 90] 1 (0 + 1) None None None None)%list
  = get_filtered_sessions
      [Examples.analyzed "tmpa.txt" 1 40; Examples.analyzed "tmpb.txt" 2 65;
       Examples.analyzed "tmpc.txt" 3 90] (1 + 1) 0 None None None None.
Proof.
  apply (pages_tile
           [Examples.analyzed "tmpa.txt" 1 40; Examples.analyzed "tmpb.txt" 2 65;
            Examples.analyzed "tmpc.txt" 3 90] 0 1 1 None None None None);
    lia.
Defined.

End Listing.

Section TitleSearch.
Import Crud.

Lemma append_assoc_text (a b c : string) : a ++ b ++ c = (a ++ b) ++ c.
Proof.
  induction a as [|x a IH]; [reflexivity|]. cbn [append]. rewrite IH.
  reflexivity.
Qed.

Lemma like_percent (pattern text : string) :
  like (String "%" pattern) text
  = (like pattern text
     || match text with
        | EmptyString => false
        | String _ rest => like (String "%" pattern) rest
        end).
Proof. destruct text; reflexivity. Qed.

Lemma like_char (c : ascii) (pattern text : string) :
  Ascii.eqb c "%" = false ->
  like (String c pattern) text
  = match text with
    | EmptyString => false
    | String t rest =>
        (Ascii.eqb c "_" || Ascii.eqb (sql_lower c) (sql_lower t))
        && like pattern rest
    end.
Proof. intro H. cbn [like]. rewrite H. reflexivity. Qed.

(** A [%] at the head of a pattern may swallow any prefix of the text. *)
Lemma like_skip (pattern prefix text : string) :
  like (String "%" pattern) text = true ->
  like (String "%" pattern) (prefix ++ text) = true.
Proof.
  intro H. induction prefix as [|c prefix IH]; [exact H|].
  cbn [append]. rewrite like_percent, IH. apply orb_true_r.
Qed.

(** Matching is compositional: a pattern in two parts matches a text in
    two parts when the parts match. *)
Lemma like_append (p1 p2 t1 t2 : string) :
  like p1 t1 = true -> like p2 t2 = true -> like (p1 ++ p2) (t1 ++ t2) = true.
Proof.
  revert t1. induction p1 as [|c p1 IH]; intros t1 H1 H2.
  - destruct t1; [exact H2|discriminate H1].
  - cbn [append]. destruct (Ascii.eqb c "%") eqn:Ec.
    + apply Ascii.eqb_eq in Ec; subst c.
      induction t1 as [|t t1 IHt].
      * rewrite like_percent in H1. rewrite like_percent.
        apply orb_true_iff in H1 as [H1|H1]; [|discriminate H1].
        rewrite (IH EmptyString H1 H2). reflexivity.
      * rewrite like_percent in H1. cbn [append]. rewrite like_percent.
        apply orb_true_iff in H1 as [H1|H1].
        -- pose proof (IH (String t t1) H1 H2) as H. cbn [append] in H.
           rewrite H. reflexivity.
        -- rewrite (IHt H1). apply orb_true_r.
    + rewrite (like_char c _ _ Ec) in H1. rewrite (like_char c _ _ Ec).
      destruct t1 as [|t t1]; [discriminate H1|]. cbn [append].
      apply andb_true_iff in H1 as [Hc H1]. rewrite Hc.
      apply (IH t1 H1 H2).
Qed.

(** A text matches every pattern that equals it up to the case of ASCII
    letters, whatever characters the pattern holds. *)
Lemma like_same_text (pattern text : string) :
  sql_lower_text pattern = sql_lower_text text -> like pattern text = true.
Proof.
  revert text. induction pattern as [|c pattern IH]; intros [|t text] H;
    try discriminate H; [reflexivity|].
  cbn [sql_lower_text] in H. injection H as Hc Hrest.
  destruct (Ascii.eqb c "%") eqn:Ec.
  - apply Ascii.eqb_eq in Ec; subst c.
    rewrite like_percent. apply orb_true_iff. right.
    rewrite like_percent, (IH text Hrest). reflexivity.
  - rewrite (like_char c _ _ Ec), Hc, Ascii.eqb_refl, orb_true_r.
    apply (IH text Hrest).
Qed.

Lemma like_anything (text : string) : like "%" text = true.
Proof.
  induction text as [|t text IH]; [reflexivity|].
  rewrite like_percent, IH. apply orb_true_r.
Qed.

(** X12.  The job-title filter finds every title that contains the
    search text, without regard to the case of ASCII letters.  The search
    text is used as a pattern as it is: an underscore in it stands for any
    one character, and a session without a job title is never found. *)
Theorem title_search_finds_substrings (needle : string) :
  (forall before found after : string,
     sql_lower_text found = sql_lower_text needle ->
     ilike_contains (Some (before ++ found ++ after)) needle = true)
  /\ (forall (before after left right : string) (c : ascii),
        needle = left ++ "_" ++ right ->
        ilike_contains (Some (before ++ left ++ String c right ++ after))
          needle = true)
  /\ ilike_contains None needle = false.
Proof.
  assert (Hwrap : forall pattern before found after,
            like pattern found = true ->
            like ("%" ++ pattern ++ "%") (before ++ found ++ after) = true).
  { intros pattern before found after H. cbn [append].
    apply like_skip.
    change (String "%" (pattern ++ "%")) with ("%" ++ (pattern ++ "%")).
    change (found ++ after) with ("" ++ (found ++ after)).
    apply like_append; [reflexivity|].
    apply like_append; [exact H|apply like_anything]. }
  repeat split.
  - intros before found after H. unfold ilike_contains.
    apply Hwrap, like_same_text. symmetry. exact H.
  - intros before after left right c ->. unfold ilike_contains.
    rewrite (append_assoc_text left (String c right) after).
    apply Hwrap.
    apply like_append; [apply like_same_text; reflexivity|].
    cbn [append]. rewrite like_char by reflexivity. cbn [orb andb Ascii.eqb].
    apply like_same_text. reflexivity.
Qed.

Lemma title_search_finds_substrings_witness :
  ilike_contains (Some ("Senior " ++ "PYTHON" ++ " Developer")) "python" = true.
Proof.
  apply (proj1 (title_search_finds_substrings "python")).
  reflexivity.
Defined.

End TitleSearch.

(* ===================================================================== *)
(** * Statistics *)
(* ===================================================================== *)

Section Statistics.
Import Crud.

Lemma count_where_le_length (cond : CVSession -> bool) (d : db) :
  count_where cond d <= List.length d.
Proof. unfold count_where. apply filter_length_le. Qed.

Lemma count_where_mono (p q : CVSession -> bool) (d : db) :
  (forall s, p s = true -> q s = true) ->
  count_where p d <= count_where q d.
Proof.
  intro H. unfold count_where. induction d as [|s d IH]; simpl; [lia|].
  destruct (p s) eqn:Ep.
  - rewrite (H s Ep). simpl. lia.
  - destruct (q s); simpl; lia.
Qed.

Lemma count_where_disjoint (p q r : CVSession -> bool) (d : db) :
  (forall s, p s = true -> q s = false) ->
  (forall s, p s = true -> r s = true) ->
  (forall s, q s = true -> r s = true) ->
  count_where p d + count_where q d <= count_where r d.
Proof.
  intros Hpq Hp Hq. unfold count_where.
  induction d as [|s d IH]; simpl; [lia|].
  destruct (p s) eqn:Ep.
  - rewrite (Hpq s Ep), (Hp s Ep). simpl. lia.
  - destruct (q s) eqn:Eq.
    + rewrite (Hq s Eq). simpl. lia.
    + destruct (r s); simpl; lia.
Qed.

(** X13.  The counts of [get_comprehensive_stats] fit together: the
    analyzed and the enhanced sessions are among all sessions; the
    high-performing (score 80 or more) and the low-performing (score below
    50) sessions are disjoint parts of the analyzed ones; so are the most
    improved ones; and the sessions of the last 7 days are among those of
    the last 30 days, provided the two clock readings the function takes
    are less than 23 days apart. *)
Theorem stats_counts_cohere (now7 now30 : Z) (d : db) :
  let stats := get_comprehensive_stats now7 now30 d in
  analyzed_sessions stats <= total_sessions stats
  /\ enhanced_sessions stats <= total_sessions stats
  /\ high_performing_jobs stats + low_performing_jobs stats
     <= analyzed_sessions stats
  /\ most_improved_jobs stats <= analyzed_sessions stats
  /\ jobs_last_30_days stats <= total_sessions stats
  /\ ((now30 - now7 <= days 23)%Z ->
      jobs_last_7_days stats <= jobs_last_30_days stats).
Proof.
  cbv zeta. unfold get_comprehensive_stats.
  cbn [analyzed_sessions total_sessions enhanced_sessions high_performing_jobs
       low_performing_jobs most_improved_jobs jobs_last_30_days
       jobs_last_7_days].
  repeat split; try apply count_where_le_length.
  - apply count_where_disjoint; intro s; unfold score_ge;
      destruct (original_score s) as [v|]; try discriminate;
      try reflexivity.
    intro H. apply Z.leb_le in H. apply Z.ltb_ge. lia.
  - apply count_where_mono. intro s. unfold improvement.
    destruct (new_score s), (original_score s); try discriminate.
    reflexivity.
  - intro Hclock. apply count_where_mono. intros s H.
    apply Z.leb_le in H. apply Z.leb_le. unfold days in *. lia.
Qed.

Lemma stats_counts_cohere_witness :
  jobs_last_7_days
    (get_comprehensive_stats 1000 1000
       [Examples.analyzed "tmpa.txt" 1 40; Examples.uploaded "tmpb.txt" 2])
  <= jobs_last_30_days
       (get_comprehensive_stats 1000 1000
          [Examples.analyzed "tmpa.txt" 1 40; Examples.uploaded "tmpb.txt" 2]).
Proof.
  apply (proj2 (proj2 (proj2 (proj2 (proj2
           (stats_counts_cohere 1000 1000
              [Examples.analyzed "tmpa.txt" 1 40;
               Examples.uploaded "tmpb.txt" 2])))))).
  unfold days. lia.
Defined.

(** An aggregate bounds its running value and every value it is fed. *)
Lemma aggregate_bounds (pick : Z -> Z -> Z) (R : Z -> Z -> Prop) :
  (forall a, R a a) ->
  (forall a b c, R a b -> R b c -> R a c) ->
  (forall a b, R a (pick a b) /\ R b (pick a b)) ->
  forall (values : list (option Z)) (acc : option Z),
    let result :=
      fold_left
        (fun acc v =>
           match acc, v with
           | Some a, Some b => Some (pick a b)
           | None, _ => v
           | _, None => acc
           end)
        values acc in
    (forall a, acc = Some a -> exists m, result = Some m /\ R a m)
    /\ (forall v, In (Some v) values -> exists m, result = Some m /\ R v m).
Proof.
  intros Hrefl Htrans Hpick values.
  induction values as [|x values IH]; intro acc; cbv zeta; simpl.
  - split; [intros a ->; exists a; auto|intros v []].
  - specialize (IH match acc, x with
                   | Some a, Some b => Some (pick a b)
                   | None, _ => x
                   | _, None => acc
                   end).
    cbv zeta in IH. destruct IH as [IHacc IHin]. split.
    + intros a ->. destruct x as [b|].
      * destruct (IHacc (pick a b) eq_refl) as [m [Hm Hr]].
        exists m. split; [exact Hm|].
        apply (Htrans a (pick a b) m); [apply Hpick|exact Hr].
      * apply (IHacc a eq_refl).
    + intros v [->|Hin]; [|apply IHin, Hin].
      destruct acc as [a|].
      * destruct (IHacc (pick a v) eq_refl) as [m [Hm Hr]].
        exists m. split; [exact Hm|].
        apply (Htrans v (pick a v) m); [apply Hpick|exact Hr].
      * apply (IHacc v eq_refl).
Qed.

(** X14.  The reported minimum and maximum bound every analyzed score:
    a session with [original_score] [v] has
    [min_original_score <= v <= max_original_score]. *)
Theorem stats_bound_every_score (now7 now30 : Z) (d : db) (s : CVSession)
    (v : Z) :
  In s d -> original_score s = Some v ->
  (min_original_score (get_comprehensive_stats now7 now30 d) <= v
   <= max_original_score (get_comprehensive_stats now7 now30 d))%Z.
Proof.
  intros Hin Hv. unfold get_comprehensive_stats.
  cbn [min_original_score max_original_score].
  assert (Hfed : In (Some v) (map original_score (analyzed d))).
  { rewrite <- Hv. apply in_map. unfold analyzed. apply filter_In.
    split; [exact Hin|]. rewrite Hv. reflexivity. }
  split.
  - destruct (proj2 (aggregate_bounds Z.min (fun a b => (b <= a)%Z)
                       ltac:(cbv beta; intros; lia) ltac:(cbv beta; intros; lia)
                       ltac:(cbv beta; intros; lia)
                       (map original_score (analyzed d)) None) v Hfed)
      as [m [Hm Hle]].
    unfold sql_min, aggregate. rewrite Hm. exact Hle.
  - destruct (proj2 (aggregate_bounds Z.max (fun a b => (a <= b)%Z)
                       ltac:(cbv beta; intros; lia) ltac:(cbv beta; intros; lia)
                       ltac:(cbv beta; intros; lia)
                       (map original_score (analyzed d)) None) v Hfed)
      as [m [Hm Hle]].
    unfold sql_max, aggregate. rewrite Hm. exact Hle.
Qed.

Lemma stats_bound_every_score_witness :
  (min_original_score
     (get_comprehensive_stats 0 0
        [Examples.analyzed "tmpa.txt" 1 40; Examples.analyzed "tmpb.txt" 2 65])
   <= 65
   <= max_original_score
        (get_comprehensive_stats 0 0
           [Examples.analyzed "tmpa.txt" 1 40;
            Examples.analyzed "tmpb.txt" 2 65]))%Z.
Proof.
  apply (stats_bound_every_score 0 0
           [Examples.analyzed "tmpa.txt" 1 40; Examples.analyzed "tmpb.txt" 2 65]
           (Examples.analyzed "tmpb.txt" 2 65)).
  - right; left; reflexivity.
  - reflexivity.
Defined.

Lemma in_distinct (values : list string) (v : string) :
  In v (distinct values) <-> In v values.
Proof.
  induction values as [|w values IH]; simpl; [tauto|].
  rewrite filter_In, IH. split.
  - intros [H|[H _]]; auto.
  - intros [H|H]; [auto|].
    destruct (String.eqb_spec v w) as [->|Hne]; [auto|].
    right. split; [exact H|reflexivity].
Qed.

Lemma distinct_nodup (values : list string) : NoDup (distinct values).
Proof.
  induction values as [|w values IH]; simpl; [constructor|].
  constructor.
  - rewrite filter_In. intros [_ H]. rewrite String.eqb_refl in H.
    discriminate.
  - apply NoDup_filter, IH.
Qed.

(** Taking one key out of a sum over distinct keys. *)
Lemma sum_split (g : string -> nat) (v : string) (keys : list string) :
  NoDup keys -> (~ In v keys -> g v = 0) ->
  list_sum (map g keys)
  = g v + list_sum (map g (filter (fun w => negb (w =? v)) keys)).
Proof.
  induction keys as [|k keys IH]; intros Hnodup Hzero; simpl.
  - rewrite Hzero by tauto. reflexivity.
  - inversion Hnodup as [|? ? Hnotin Hrest]; subst.
    destruct (String.eqb_spec k v) as [->|Hne]; simpl.
    + f_equal. f_equal. f_equal. symmetry. apply filter_all.
      apply Forall_forall. intros w Hw.
      apply negb_true_iff. apply String.eqb_neq. intros ->. contradiction.
    + rewrite IH; [lia|exact Hrest|].
      intro Hv. apply Hzero. intros [Hk|Hin]; [congruence|contradiction].
Qed.

Lemma histogram_adds_up (values : list string) :
  list_sum
    (map (fun t => List.length (filter (fun w => w =? t) values))
       (distinct values))
  = List.length values.
Proof.
  induction values as [|v values IH]; [reflexivity|].
  cbn [distinct map list_sum filter]. rewrite String.eqb_refl.
  change (list_sum (?x :: ?l)) with (x + list_sum l).
  cbn [List.length]. rewrite Nat.add_succ_l. f_equal.
  rewrite <- IH.
  rewrite (sum_split
             (fun t => List.length (filter (fun w => w =? t) values)) v
             (distinct values) (distinct_nodup values)).
  - f_equal. f_equal. apply map_ext_in. intros t Ht.
    apply filter_In in Ht as [_ Ht].
    apply negb_true_iff in Ht. rewrite String.eqb_sym, Ht. reflexivity.
  - intro Hv. rewrite in_distinct in Hv. clear IH.
    induction values as [|w values IHv]; [reflexivity|]. simpl.
    destruct (String.eqb_spec w v) as [->|Hne].
    + exfalso. apply Hv. left. reflexivity.
    + apply IHv. intro H. apply Hv. right. exact H.
Qed.

(** X15.  The file-type histogram has one entry per file type, each
    counting the sessions of that type, and its counts add up to the total
    number of sessions. *)
Theorem file_type_histogram_adds_up (now7 now30 : Z) (d : db) :
  let stats := get_comprehensive_stats now7 now30 d in
  histogram_total (file_type_distribution stats) = total_sessions stats
  /\ NoDup (map fst (file_type_distribution stats))
  /\ (forall s, In s d ->
        In (cv_file_type s,
            count_where (fun t => cv_file_type t =? cv_file_type s) d)
          (file_type_distribution stats)).
Proof.
  cbv zeta. unfold get_comprehensive_stats.
  cbn [file_type_distribution total_sessions].
  unfold file_type_stats, histogram_total. repeat split.
  - rewrite map_map. cbn [snd].
    rewrite <- (length_map cv_file_type d).
    rewrite <- (histogram_adds_up (map cv_file_type d)).
    f_equal. apply map_ext. intro t. unfold count_where.
    rewrite filter_map_comm, length_map. reflexivity.
  - rewrite map_map. cbn [fst]. rewrite map_id. apply distinct_nodup.
  - intros s Hin. apply in_map_iff. exists (cv_file_type s).
    split; [reflexivity|]. apply in_distinct, in_map, Hin.
Qed.

Lemma file_type_histogram_adds_up_witness :
  In ("txt", 2)
    (file_type_distribution
       (get_comprehensive_stats 0 0
          [Examples.analyzed "tmpa.txt" 1 40; Examples.uploaded "tmpb.txt" 2])).
Proof.
  apply (proj2 (proj2 (file_type_histogram_adds_up 0 0
                         [Examples.analyzed "tmpa.txt" 1 40;
                          Examples.uploaded "tmpb.txt" 2]))
           (Examples.uploaded "tmpb.txt" 2)).
  right; left; reflexivity.
Defined.

End Statistics.

(* ===================================================================== *)
(** * Users *)
(* ===================================================================== *)

Section Users.
Import UserCRUD.

Lemma next_id_above (us : users) (u : User) :
  In u us -> (id u < next_id us)%Z.
Proof.
  unfold next_id. induction us as [|w us IH]; cbn [map fold_right In];
    [tauto|].
  intros [->|Hin]; [lia|]. specialize (IH Hin). lia.
Qed.

Lemma next_id_positive (us : users) : (0 < next_id us)%Z.
Proof.
  unfold next_id. induction us as [|w us IH]; cbn [map fold_right]; lia.
Qed.

Lemma find_app_first {A : Type} (f : A -> bool) (l : list A) (x : A) :
  find f (l ++ [x])
  = match find f l with
    | Some y => Some y
    | None => if f x then Some x else None
    end.
Proof.
  induction l as [|y l IH]; simpl; [reflexivity|].
  destruct (f y); [reflexivity|exact IH].
Qed.

Lemma email_free (us : users) (a : string) :
  email_taken us (Some a) = false -> get_user_by_email us a = None.
Proof.
  unfold email_taken, get_user_by_email.
  induction us as [|u us IH]; simpl; [reflexivity|].
  destruct (Crud.option_eqb String.eqb (email u) (Some a)); simpl;
    [discriminate|exact IH].
Qed.

(** X16.  [create_user] with an e-mail address no row holds returns a
    row with a fresh id, which [get_user_by_id] then finds under that id
    and [get_user_by_email] under the address; users stored before are
    still found under their ids.  With an address that is taken it raises
    [IntegrityError], with the text the libraries give it, and leaves the
    table unchanged. *)
Theorem create_user_then_get (driver : Driver) (now : Z) (us : users)
    (email_ name_ : option string) :
  let row := mkUser (next_id us) email_ name_ now None in
  (email_taken us email_ = false ->
   create_user driver now us email_ name_ = (Return row, (us ++ [row])%list)
   /\ get_user_by_id (us ++ [row])%list (id row) = Some row
   /\ (forall a, email_ = Some a ->
         get_user_by_email (us ++ [row])%list a = Some row)
   /\ (forall u, get_user_by_id us (id u) = Some u ->
         get_user_by_id (us ++ [row])%list (id u) = Some u))
  /\ (email_taken us email_ = true ->
      snd (create_user driver now us email_ name_) = us
      /\ exists e,
           fst (create_user driver now us email_ name_) = Raise e
           /\ exn_cls e = IntegrityError
           /\ str e = integrity_error_text driver row).
Proof.
  intro row. unfold create_user. fold row. split.
  - intros Hfree. rewrite Hfree. repeat split.
    + unfold get_user_by_id. rewrite find_app_first.
      assert (Hnone : find (fun u => (id u =? id row)%Z) us = None).
      { destruct (find _ us) as [u|] eqn:Hu; [|reflexivity].
        apply find_some in Hu as [Hin Hid]. apply Z.eqb_eq in Hid.
        pose proof (next_id_above us u Hin) as Hlt.
        cbn [id row] in Hid. lia. }
      rewrite Hnone, Z.eqb_refl. reflexivity.
    + intros a ->. unfold get_user_by_email. rewrite find_app_first.
      fold (get_user_by_email us a). rewrite (email_free us a Hfree).
      cbn [email row Crud.option_eqb]. rewrite String.eqb_refl. reflexivity.
    + intros u Hu. unfold get_user_by_id in *. rewrite find_app_first, Hu.
      reflexivity.
  - intros ->. cbn [fst snd]. split; [reflexivity|].
    eexists. repeat split.
Qed.

Lemma create_user_then_get_witness :
  get_user_by_email
    ([mkUser 1 (Some "ann@example.org") None 5 None]
     ++ [mkUser (next_id [mkUser 1 (Some "ann@example.org") None 5 None])
           (Some "bob@example.org") (Some "Bob") 9 None])%list
    "bob@example.org"
  = Some (mkUser (next_id [mkUser 1 (Some "ann@example.org") None 5 None])
            (Some "bob@example.org") (Some "Bob") 9 None).
Proof.
  apply (proj1 (create_user_then_get Examples.sqlite_users 9
                  [mkUser 1 (Some "ann@example.org") None 5 None]
                  (Some "bob@example.org") (Some "Bob"))).
  - reflexivity.
  - reflexivity.
Defined.

Lemma addresses_app (us vs : users) :
  addresses (us ++ vs)%list = (addresses us ++ addresses vs)%list.
Proof. unfold addresses. apply flat_map_app. Qed.

Lemma email_taken_iff (us : users) (a : string) :
  email_taken us (Some a) = true <-> In a (addresses us).
Proof.
  unfold email_taken, addresses. induction us as [|u us IH]; simpl.
  - split; [discriminate|tauto].
  - rewrite orb_true_iff, in_app_iff, IH.
    destruct (email u) as [b|]; simpl.
    + rewrite String.eqb_eq. intuition.
    + intuition discriminate.
Qed.

(** X17.  Whatever series of [create_user] calls builds the table, its
    ids are positive and pairwise different, and no e-mail address occurs
    in two rows. *)
Theorem users_stay_unique (driver : Driver)
    (calls : list (Z * option string * option string)) :
  Forall (fun u => (0 < id u)%Z) (signups driver calls)
  /\ NoDup (map id (signups driver calls))
  /\ NoDup (addresses (signups driver calls)).
Proof.
  unfold signups.
  assert (H : forall us,
            Forall (fun u => (0 < id u)%Z) us /\ NoDup (map id us)
            /\ NoDup (addresses us) ->
            let after :=
              fold_left
                (fun us call =>
                   let '(now, email_, name_) := call in
                   snd (create_user driver now us email_ name_))
                calls us in
            Forall (fun u => (0 < id u)%Z) after /\ NoDup (map id after)
            /\ NoDup (addresses after)).
  { induction calls as [|[[now email_] name_] calls IH]; intros us Hus;
      cbv zeta; simpl; [exact Hus|].
    apply IH. destruct Hus as [Hpos [Hids Hmails]].
    unfold create_user. cbv zeta.
    destruct (email_taken us email_) eqn:Htaken; cbn [snd];
      [repeat split; assumption|].
    repeat split.
    - apply Forall_app. split; [exact Hpos|].
      constructor; [apply next_id_positive|constructor].
    - rewrite map_app. apply NoDup_app; [exact Hids|repeat constructor; auto|].
      intros x Hin [<-|[]]. apply in_map_iff in Hin as [u [Hu Hin]].
      rewrite Forall_forall in Hpos.
      pose proof (next_id_above us u Hin). cbn [id] in Hu. lia.
    - rewrite addresses_app. unfold addresses at 2. cbn [flat_map email].
      destruct email_ as [a|]; simpl; [|rewrite app_nil_r; exact Hmails].
      apply NoDup_app; [exact Hmails|repeat constructor; auto|].
      intros x Hin [<-|[]]. apply email_taken_iff in Hin. congruence. }
  apply (H []). repeat split; constructor.
Qed.

End Users.

(* ===================================================================== *)
(** * More about text extraction *)

Section ExtractedText.
Import Utils.

Lemma append_empty_r (s : string) : s ++ "" = s.
Proof. induction s as [|c r IH]; simpl; [|rewrite IH]; reflexivity. Qed.

Lemma join_nothing_cons (x : string) (xs : list string) :
  join "" (x :: xs) = x ++ join "" xs.
Proof.
  unfold join. destruct xs as [|y ys]; simpl.
  - rewrite append_empty_r; reflexivity.
  - reflexivity.
Qed.

(** The loop of [extract_text_from_pdf], from any text collected so far. *)
Lemma pdf_loop (pages : list (option string)) (text : string) :
  fold_left
    (fun text page => text ++ match page with Some t => t | None => "" end)
    pages text
  = text ++ join "" (flat_map
                       (fun page =>
                          match page with Some t => [t] | None => [] end)
                       pages).
Proof.
  revert text; induction pages as [|page pages IH]; intro text.
  - simpl. rewrite append_empty_r; reflexivity.
  - cbn [fold_left flat_map]. rewrite IH. destruct page as [t|].
    + cbn [app]. rewrite join_nothing_cons. symmetry. apply append_assoc_text.
    + cbn [app]. rewrite append_empty_r. reflexivity.
Qed.

Lemma nothing_on_blank_pages (pages : list (option string)) :
  (forall page, In page pages -> page = None) ->
  flat_map (fun page : option string =>
              match page with Some t => [t] | None => [] end) pages = [].
Proof.
  induction pages as [|page pages IH]; intro H; [reflexivity|].
  cbn [flat_map]. rewrite (H page (or_introl eq_refl)). cbn [app].
  apply IH. intros p Hp. apply H. right; exact Hp.
Qed.

(** X18.  [extract_text_from_pdf] returns the texts of the pages that have
    one, in page order, with nothing between them: no separator is put
    where one page ends and the next begins.  A page without text
    contributes nothing, so a file none of whose pages has text (a scan)
    yields the empty string and no error; and what opening the file raises
    is raised unchanged. *)
Theorem pdf_text_joins_pages (env : Env) (file_path : string) :
  (forall pages : list (option string),
     pdf_pages env file_path = Return pages ->
     extract_text_from_pdf env file_path
     = Return (join "" (flat_map
                          (fun page =>
                             match page with Some t => [t] | None => [] end)
                          pages))
     /\ ((forall page, In page pages -> page = None) ->
         extract_text_from_pdf env file_path = Return ""))
  /\ (forall e : exn,
        pdf_pages env file_path = Raise e ->
        extract_text_from_pdf env file_path = Raise e).
Proof.
  split.
  - intros pages H. unfold extract_text_from_pdf. rewrite H. cbn [bind].
    rewrite pdf_loop. cbn [append]. split; [reflexivity|].
    intro Hblank. rewrite (nothing_on_blank_pages pages Hblank). reflexivity.
  - intros e H. unfold extract_text_from_pdf. rewrite H. reflexivity.
Qed.

(** X18 on a file of three pages, the second of which has no text. *)
Lemma pdf_text_joins_pages_witness :
  extract_text_from_pdf
    (mkEnv (fun _ => Return tt)
       (fun _ => Return [Some "Jane Doe"; None; Some "Python Developer"])
       (fun _ => Return "") (fun _ => Return "")
       (fun _ => Return (mkDocument [] [])) (fun _ => Return "")
       Examples.stdout)
    "/tmp/tmpcv.pdf"
  = Return "Jane DoePython Developer".
Proof.
  apply (proj1 (pdf_text_joins_pages _ "/tmp/tmpcv.pdf")
           [Some "Jane Doe"; None; Some "Python Developer"]).
  reflexivity.
Defined.

Lemma sentinel_is_visible (rest : string) :
  truthy (strip (warning_sign ++ rest)) = true.
Proof. apply starts_visible_strip. reflexivity. Qed.

Lemma fallback_text_never_blank (env : Env) (file_path text : string) :
  docx_fallback env file_path = Return text -> truthy (strip text) = true.
Proof.
  unfold docx_fallback, docx_fallback_try, try_except.
  destruct (docx_Document env file_path) as [doc|e]; cbn [bind].
  - match goal with
    | |- context [negb (truthy (strip ?r))] =>
        destruct (truthy (strip r)) eqn:T
    end; cbn [negb]; intro H; injection H as <-.
    + exact T.
    + apply sentinel_is_visible.
  - intro H; injection H as <-. apply sentinel_is_visible.
Qed.

(** X19.  Whatever the file is, a text that [extract_text_from_docx]
    returns is not blank: it has a character that is not white space.  A
    document without text and a file that cannot be opened give a sentence
    that starts with the warning sign, so for a [.docx] upload the caller
    never sees an empty text. *)
Theorem docx_text_never_blank (env : Env) (file_path text : string) :
  extract_text_from_docx env file_path = Return text ->
  truthy (strip text) = true.
Proof.
  unfold extract_text_from_docx, mammoth_attempt.
  destruct (mammoth_extract_raw_text env file_path) as [value|e].
  - cbv zeta. destruct (truthy (strip value)) eqn:T; cbn [andb].
    + destruct (10 <? String.length (strip value))%nat; cbn [bind].
      * intro H. injection H as <-.
        apply starts_visible_strip, strip_starts_visible, T.
      * apply fallback_text_never_blank.
    + cbn [bind]. apply fallback_text_never_blank.
  - destruct (print env (mammoth_failed e)); cbn [bind]; [|discriminate].
    apply fallback_text_never_blank.
Qed.

(** X19 on the document with a table. *)
Lemma docx_text_never_blank_witness :
  extract_text_from_docx Examples.docx_with_table "/tmp/tmpq3.docx"
  = Return "Jane Doe
Python | 5 years"
  /\ truthy (strip "Jane Doe
Python | 5 years") = true.
Proof.
  split; [reflexivity|].
  apply (docx_text_never_blank Examples.docx_with_table "/tmp/tmpq3.docx").
  reflexivity.
Defined.

Lemma image_reader_raises_ValueError (env : Env) (probes : nat)
    (file_path : string) (e : exn) :
  extract_text_from_image env probes file_path = Raise e ->
  (exists cause, get_tesseract_version env probes = Raise cause
                 /\ e = ocr_unavailable cause)
  \/ (exists cause, image_to_string env file_path = Raise cause
                    /\ e = ocr_failed cause).
Proof.
  unfold extract_text_from_image, try_except.
  destruct (get_tesseract_version env probes) as [u|cause]; cbn [bind].
  - destruct (image_to_string env file_path) as [text|cause];
      [discriminate|].
    intro H; injection H as <-. right; exists cause; auto.
  - intro H; injection H as <-. left; exists cause; auto.
Qed.

(** X20.  Every failure of [extract_text] on an image extension, and on an
    extension it has no branch for, is a [ValueError].  For an image the
    message always starts with the not-supported sentence, also when the
    OCR engine is there and it is the image that cannot be read: the
    [ValueError] of [extract_text_from_image] is caught by the handler
    around the call and wrapped a second time. *)
Theorem image_failures_are_wrapped (env : Env) (file_path : string) :
  (forall e : exn,
     is_image_ext (extension file_path) = true
     \/ supported (extension file_path) = false ->
     extract_text env file_path = Raise e ->
     exn_cls e = ValueError)
  /\ (forall e : exn,
        is_image_ext (extension file_path) = true ->
        extract_text env file_path = Raise e ->
        exists cause, e = image_not_supported cause)
  /\ (forall cause : exn,
        is_image_ext (extension file_path) = true ->
        get_tesseract_version env 0 = Return tt ->
        get_tesseract_version env 1 = Return tt ->
        image_to_string env file_path = Raise cause ->
        extract_text env file_path
        = Raise (mkExn ValueError
                   ("Image file upload is not supported: "
                    ++ "Failed to extract text from image: " ++ str cause
                    ++ ". "
                    ++ "Please use PDF, DOCX, or TXT files instead. "
                    ++ "To enable image support, install Tesseract: 'brew install tesseract' (macOS)"))).
Proof.
  destruct (extract_text_dispatch env file_path)
    as [_ [_ [_ [Himage Hother]]]]. cbv zeta in Himage, Hother.
  assert (Hwrapped : forall e,
            is_image_ext (extension file_path) = true ->
            extract_text env file_path = Raise e ->
            exists cause, e = image_not_supported cause).
  { intros e Hext H. rewrite (Himage Hext) in H. unfold try_except in H.
    destruct (get_tesseract_version env 0) as [u|cause]; cbn [bind] in H.
    - destruct (extract_text_from_image env 1 file_path) as [text|cause];
        cbn [bind] in H; [discriminate H|].
      injection H as <-. exists cause; reflexivity.
    - injection H as <-. exists cause; reflexivity. }
  split; [|split].
  - intros e [Hext|Hext] H.
    + destruct (Hwrapped e Hext H) as [cause ->]. reflexivity.
    + rewrite (Hother Hext) in H. injection H as <-. reflexivity.
  - exact Hwrapped.
  - intros cause Hext H0 H1 Hread. rewrite (Himage Hext), H0. cbn [bind].
    unfold extract_text_from_image. rewrite H1, Hread. reflexivity.
Qed.

(** X20 on a machine with the OCR engine and an image that cannot be
    opened. *)
Lemma image_failures_are_wrapped_witness :
  extract_text Examples.unreadable_image "/tmp/tmpscan.PNG"
  = Raise (mkExn ValueError
             "Image file upload is not supported: Failed to extract text from image: cannot identify image file. Please use PDF, DOCX, or TXT files instead. To enable image support, install Tesseract: 'brew install tesseract' (macOS)").
Proof.
  apply (proj2 (proj2 (image_failures_are_wrapped Examples.unreadable_image
                         "/tmp/tmpscan.PNG"))
           (mkExn OtherException "cannot identify image file"));
    reflexivity.
Defined.

End ExtractedText.

(* ===================================================================== *)
(** * The code fence around a reply *)

Section Fences.
Import OpenAIUtils.

Lemma length_append (a b : string) :
  String.length (a ++ b) = String.length a + String.length b.
Proof. induction a as [|c r IH]; simpl; [|rewrite IH]; reflexivity. Qed.

Lemma substring_whole (s : string) : substring 0 (String.length s) s = s.
Proof. induction s as [|c r IH]; simpl; [|rewrite IH]; reflexivity. Qed.

Lemma substring_left (a b : string) :
  substring 0 (String.length a) (a ++ b) = a.
Proof.
  induction a as [|c r IH]; simpl.
  - destruct b; reflexivity.
  - rewrite IH; reflexivity.
Qed.

Lemma substring_right (a b : string) (n : nat) :
  substring (String.length a) n (a ++ b) = substring 0 n b.
Proof. induction a as [|c r IH]; simpl; [reflexivity|exact IH]. Qed.

Lemma startswith_append (p s : string) : startswith p (p ++ s) = true.
Proof.
  unfold startswith. induction p as [|c r IH]; simpl.
  - destruct s; reflexivity.
  - destruct (ascii_dec c c) as [_|N]; [exact IH|exfalso; apply N; reflexivity].
Qed.

Lemma slice_from_append (p s : string) :
  slice_from (String.length p) (p ++ s) = s.
Proof.
  unfold slice_from. rewrite length_append, Nat.add_comm, Nat.add_sub.
  rewrite substring_right. apply substring_whole.
Qed.

Lemma endswith_append (s p : string) : endswith p (s ++ p) = true.
Proof.
  unfold endswith. rewrite length_append, Nat.add_sub.
  rewrite substring_right, substring_whole, String.eqb_refl, andb_true_r.
  apply Nat.leb_le. apply Nat.le_add_l.
Qed.

Lemma slice_drop_last_append (s p : string) :
  slice_drop_last (String.length p) (s ++ p) = s.
Proof.
  unfold slice_drop_last. rewrite length_append, Nat.add_sub.
  apply substring_left.
Qed.

Lemma rstrip_visible_end (s : string) (c : ascii) :
  isspace c = false -> rstrip (s ++ String c "") = s ++ String c "".
Proof.
  intro Hc. induction s as [|a r IH]; simpl.
  - rewrite Hc; reflexivity.
  - rewrite IH. destruct r; reflexivity.
Qed.

Lemma strip_between_visible (c d : ascii) (s : string) :
  isspace c = false -> isspace d = false ->
  strip (String c (s ++ String d "")) = String c (s ++ String d "").
Proof.
  intros Hc Hd. unfold strip. cbn [lstrip]. rewrite Hc.
  apply (rstrip_visible_end (String c s) d Hd).
Qed.

Lemma fenced_text (body : string) :
  "```json" ++ body ++ "```"
  = String "`" (("``json" ++ body ++ "``") ++ String "`" "").
Proof.
  cbn [append]. do 7 f_equal. apply (append_assoc_text body "``" "`").
Qed.

(** X21.  The clean-up both analysis functions apply to a reply.  A reply
    that consists of an opening fence with the language tag, a body and a
    closing fence is already in trimmed form and is reduced to the trimmed
    body.  A closing fence is also removed when no tagged fence opens the
    reply, and a reply with neither is only trimmed. *)
Theorem clean_content_removes_fence (body : string) :
  strip ("```json" ++ body ++ "```") = "```json" ++ body ++ "```"
  /\ clean_content ("```json" ++ body ++ "```") = strip body
  /\ (startswith "```json" (body ++ "```") = false ->
      clean_content (body ++ "```") = strip body)
  /\ (startswith "```json" body = false -> endswith "```" body = false ->
      clean_content body = strip body).
Proof.
  split; [|split; [|split]].
  - rewrite fenced_text. apply strip_between_visible; reflexivity.
  - unfold clean_content. rewrite startswith_append.
    change 7 with (String.length "```json"). rewrite slice_from_append.
    rewrite endswith_append.
    change 3 with (String.length "```"). rewrite slice_drop_last_append.
    reflexivity.
  - intro H. unfold clean_content. rewrite H, endswith_append.
    change 3 with (String.length "```"). rewrite slice_drop_last_append.
    reflexivity.
  - intros H1 H2. unfold clean_content. rewrite H1, H2. reflexivity.
Qed.

(** X21 on a reply whose fence has no language tag: the closing fence
    goes, the opening one stays in the text handed to the decoder. *)
Lemma clean_content_removes_fence_witness :
  clean_content ("```
{}
" ++ "```")
  = "```
{}".
Proof.
  apply (proj1 (proj2 (proj2 (clean_content_removes_fence "```
{}
")))).
  reflexivity.
Defined.

End Fences.

(* ===================================================================== *)
(** * More about the analysis request *)

Section Requests.
Import Main.

Lemma save_temp_file_success (io : Utils.UploadIO) (file : Utils.UploadFile)
    (fs fs' : Utils.FileSystem) (path : string) :
  Utils.save_temp_file io file fs = (Return path, fs') ->
  fs' = path :: fs.
Proof.
  unfold Utils.save_temp_file.
  destruct (Utils.filename file) as [name|]; [|discriminate].
  destruct (Utils.named_temporary_file io _) as [tmp_name|e]; [|discriminate].
  intro H. injection H as Hr <-.
  destruct (Utils.upload_read io) as [content|e]; [|discriminate Hr].
  cbn [bind] in Hr.
  destruct (Utils.tmp_write io content) as [u|e]; [|discriminate Hr].
  cbn [bind] in Hr.
  destruct (Utils.upload_seek io) as [u'|e]; [|discriminate Hr].
  injection Hr as ->. reflexivity.
Qed.

Lemma cleanup_after_save (path : string) (fs : Utils.FileSystem) (d : Crud.db) :
  cleanup (Some path) (mkWorld (path :: fs) d)
  = mkWorld (Utils.remove path fs) d.
Proof.
  unfold cleanup, Utils.path_exists, Utils.remove. cbn [files database existsb filter].
  rewrite String.eqb_refl. reflexivity.
Qed.

(** The row the request has stored when the analysis values are [None]
    or of the column types and the score fits the column. *)
Lemma stored_row_after_request (driver : Crud.Driver) (now created updated : Z)
    (d : Crud.db) (sid text ftype jt jd : string) (path : option string)
    (score : option Z) (ms st eg recs : option (list string))
    (sm : option string) :
  Crud.get_session d sid = None ->
  Crud.fits_INTEGER score = true ->
  Crud.get_session
    (snd (Crud.update_analysis driver now
            (d ++ [Crud.mkSession sid text ftype path None None None None None
                     None None None None None None None created updated])%list
            sid jt jd score ms st eg recs sm)) sid
  = Some (Crud.mkSession sid text ftype path (Some jt) (Some jd) score
            None ms st eg recs sm None None None created now).
Proof.
  intros Hfree Hfits.
  rewrite stored_after_update_analysis, String.eqb_refl.
  rewrite get_session_app, Hfree. cbn [Crud.id]. rewrite String.eqb_refl.
  rewrite Hfits. reflexivity.
Qed.

(** The request up to the call of [update_analysis], when the upload was
    saved, the text extracted, the session id is free and [analyze_cv]
    returned values that are [None] or of the column types. *)
Lemma analyze_cv_complete_stores (env : Env) (file : Utils.UploadFile)
    (current_job_title target_job_title job_description : string) (w : World)
    (path : string) (fs' : Utils.FileSystem) (text filetype : string)
    (score summary missing_skills strengths experience_gaps recommendations
       : json)
    (score' : option Z) (ms st eg recs : option (list string))
    (sm : option string) :
  Utils.save_temp_file (upload_io env) file (files w) = (Return path, fs') ->
  Utils.extract_text (extraction env) path = Return (text, filetype) ->
  Crud.get_session (database w) (basename path) = None ->
  OpenAIUtils.analyze_cv (service env) text
    (if truthy (strip target_job_title) then target_job_title
     else current_job_title) job_description
  = Return (score, missing_skills, summary, strengths, experience_gaps,
            recommendations) ->
  as_int score = Some score' ->
  as_str_list missing_skills = Some ms ->
  as_str_list strengths = Some st ->
  as_str_list experience_gaps = Some eg ->
  as_str_list recommendations = Some recs ->
  as_str summary = Some sm ->
  let job_title_to_use :=
    if truthy (strip target_job_title) then target_job_title
    else current_job_title in
  let created :=
    (database w
     ++ [Crud.mkSession (basename path) text filetype (Some path)
           None None None None None None None None None None None
           None (utcnow env 0) (utcnow env 1)])%list in
  analyze_cv_complete env file current_job_title target_job_title
    job_description w
  = if Crud.fits_INTEGER score' then
      (Ok (mkEnvelope true (basename path)
             (mkAnalysisView score job_title_to_use current_job_title
                target_job_title summary strengths missing_skills
                experience_gaps recommendations)
             (mkExtracted text filetype (Utils.filename file)
                (String.length text) (preview text))
             (filetype, preview text)
             (mkNextSteps true "/add-missing-info"
                ("/download-cv/" ++ basename path)
                ("/get-recommendations/" ++ basename path))),
       mkWorld fs'
         (snd (Crud.update_analysis (driver env) (utcnow env 2) created
                 (basename path) job_title_to_use job_description score' ms st
                 eg recs sm)))
    else
      (HTTPException 500
         ("Analysis failed: " ++ Crud.overflow_error_text (driver env)),
       mkWorld (Utils.remove path (files w)) created).
Proof.
  intros Hsave Hext Hfree Hana Hscore Hms Hst Heg Hrecs Hsm.
  pose proof (save_temp_file_success _ _ _ _ _ Hsave) as Hfs.
  cbv zeta.
  unfold analyze_cv_complete, analyze_cv_complete_try.
  rewrite Hsave. cbv beta iota. rewrite Hext. cbv beta iota zeta.
  unfold Crud.create_session. cbv zeta.
  rewrite (proj1 (get_session_none _ _) Hfree).
  cbv beta iota zeta. rewrite Hana. cbv beta iota.
  unfold store_analysis. rewrite Hscore, Hms, Hst, Heg, Hrecs, Hsm.
  match goal with
  | |- context [Crud.update_analysis ?dr ?now ?d ?i ?jt ?jd ?sc ?a ?b ?c ?e ?f] =>
      pose proof (update_analysis_cases dr now d i jt jd sc a b c e f) as H
  end.
  cbv zeta in H.
  destruct H as [[Hnone _]|[[s [Hs [Hfits ->]]]|[s [Hs [Hfits [Hid H]]]]]].
  - rewrite get_session_app, Hfree in Hnone. cbn [Crud.id] in Hnone.
    rewrite String.eqb_refl in Hnone. discriminate Hnone.
  - rewrite Hfits. cbv beta iota. subst fs'.
    rewrite cleanup_after_save. reflexivity.
  - rewrite Hfits. destruct H as [[_ ->]|[_ ->]]; reflexivity.
Qed.

(** X22.  What a successful response says is what the table holds.  When
    the upload was saved, its text extracted, the session id is free, and
    the analysis values are [None] or of the column types with a score
    that fits the INTEGER column, the request answers with the success
    envelope, keeps the saved file, and under the [session_id] of the
    response the table has a row with the full text and file type of the
    response, the path of the saved file, and the job title, score,
    summary and lists shown in the response (NULL where the response shows
    null); the download link ends in that id. *)
Theorem response_matches_stored_session (env : Env) (file : Utils.UploadFile)
    (current_job_title target_job_title job_description : string) (w : World)
    (path : string) (fs' : Utils.FileSystem) (text filetype : string)
    (score summary missing_skills strengths experience_gaps recommendations
       : json)
    (score' : option Z) (ms st eg recs : option (list string))
    (sm : option string) :
  Utils.save_temp_file (upload_io env) file (files w) = (Return path, fs') ->
  Utils.extract_text (extraction env) path = Return (text, filetype) ->
  Crud.get_session (database w) (basename path) = None ->
  OpenAIUtils.analyze_cv (service env) text
    (if truthy (strip target_job_title) then target_job_title
     else current_job_title) job_description
  = Return (score, missing_skills, summary, strengths, experience_gaps,
            recommendations) ->
  as_int score = Some score' ->
  as_str_list missing_skills = Some ms ->
  as_str_list strengths = Some st ->
  as_str_list experience_gaps = Some eg ->
  as_str_list recommendations = Some recs ->
  as_str summary = Some sm ->
  Crud.fits_INTEGER score' = true ->
  exists (body : envelope) (w' : World) (row : Crud.CVSession),
    analyze_cv_complete env file current_job_title target_job_title
      job_description w = (Ok body, w')
    /\ success body = true
    /\ Utils.path_exists path (files w') = true
    /\ Crud.get_session (database w') (session_id body) = Some row
    /\ Crud.cv_text row = full_text (extracted body)
    /\ Crud.cv_file_type row = file_type (extracted body)
    /\ Crud.cv_file_path row = Some path
    /\ Crud.job_title row = Some (view_job_title (analysis body))
    /\ as_int (view_original_score (analysis body))
       = Some (Crud.original_score row)
    /\ as_str (view_summary (analysis body)) = Some (Crud.summary row)
    /\ (as_str_list (view_missing_skills (analysis body)),
        as_str_list (view_strengths (analysis body)),
        as_str_list (view_experience_gaps (analysis body)),
        as_str_list (view_recommendations (analysis body)))
       = (Some (Crud.missing_skills row), Some (Crud.strengths row),
          Some (Crud.experience_gaps row), Some (Crud.recommendations row))
    /\ text_length (extracted body) = String.length (Crud.cv_text row)
    /\ download_url (next body) = "/download-cv/" ++ Crud.id row.
Proof.
  intros Hsave Hext Hfree Hana Hscore Hms Hst Heg Hrecs Hsm Hfits.
  pose proof (analyze_cv_complete_stores env file current_job_title
                target_job_title job_description w path fs' text filetype
                score summary missing_skills strengths experience_gaps
                recommendations score' ms st eg recs sm
                Hsave Hext Hfree Hana Hscore Hms Hst Heg Hrecs Hsm) as H.
  cbv zeta in H. rewrite Hfits in H.
  eexists; eexists; eexists. split; [exact H|].
  cbn [success session_id analysis extracted next files database
       full_text file_type text_length download_url view_job_title
       view_original_score view_summary view_missing_skills view_strengths
       view_experience_gaps view_recommendations].
  rewrite (save_temp_file_success _ _ _ _ _ Hsave).
  rewrite Hscore, Hms, Hst, Heg, Hrecs, Hsm.
  split; [reflexivity|]. split.
  { unfold Utils.path_exists. cbn [existsb]. rewrite String.eqb_refl.
    reflexivity. }
  split; [apply stored_row_after_request; assumption|].
  repeat split.
Qed.

(** X22 on the two-line text file and a reply with a score of 81 and a
    summary. *)
Lemma response_matches_stored_session_witness :
  exists (body : envelope) (w' : World) (row : Crud.CVSession),
    analyze_cv_complete
      (Examples.request_env Examples.healthy_disk Examples.with_ocr
         Examples.partial_reply)
      (Utils.mkUpload (Some "cv.txt")) "Developer" "" "Need Python"
      Examples.empty_world = (Ok body, w')
    /\ success body = true
    /\ Utils.path_exists "/tmp/tmpk3v9.txt" (files w') = true
    /\ Crud.get_session (database w') (session_id body) = Some row
    /\ Crud.cv_text row = full_text (extracted body)
    /\ Crud.cv_file_type row = file_type (extracted body)
    /\ Crud.cv_file_path row = Some "/tmp/tmpk3v9.txt"
    /\ Crud.job_title row = Some (view_job_title (analysis body))
    /\ as_int (view_original_score (analysis body))
       = Some (Crud.original_score row)
    /\ as_str (view_summary (analysis body)) = Some (Crud.summary row)
    /\ (as_str_list (view_missing_skills (analysis body)),
        as_str_list (view_strengths (analysis body)),
        as_str_list (view_experience_gaps (analysis body)),
        as_str_list (view_recommendations (analysis body)))
       = (Some (Crud.missing_skills row), Some (Crud.strengths row),
          Some (Crud.experience_gaps row), Some (Crud.recommendations row))
    /\ text_length (extracted body) = String.length (Crud.cv_text row)
    /\ download_url (next body) = "/download-cv/" ++ Crud.id row.
Proof.
  apply (response_matches_stored_session
           (Examples.request_env Examples.healthy_disk Examples.with_ocr
              Examples.partial_reply)
           (Utils.mkUpload (Some "cv.txt")) "Developer" "" "Need Python"
           Examples.empty_world "/tmp/tmpk3v9.txt" ["/tmp/tmpk3v9.txt"]
           "Jane Doe
Python Developer" "txt" (JInt 81) (JStr "Solid.") (JList []) (JList [])
           (JList []) (JList []) (Some 81%Z) (Some []) (Some []) (Some [])
           (Some []) (Some "Solid."));
    reflexivity.
Defined.

(** X23.  A failure of the analysis service does not fail the request, as
    long as standard output takes the line the handler of [analyze_cv]
    prints.  When the upload was saved, its text extracted and the session
    id is free, and the [try] block of [analyze_cv] raises -- no
    credential, the service unreachable, a reply that is not JSON -- the
    request answers with the success envelope: the score shown and stored
    is 50, the summary is one of the two placeholder sentences, and the
    saved file is kept. *)
Theorem service_failure_still_answers (env : Env) (file : Utils.UploadFile)
    (current_job_title target_job_title job_description : string) (w : World)
    (path : string) (fs' : Utils.FileSystem) (text filetype : string)
    (e : exn) :
  Utils.save_temp_file (upload_io env) file (files w) = (Return path, fs') ->
  Utils.extract_text (extraction env) path = Return (text, filetype) ->
  Crud.get_session (database w) (basename path) = None ->
  OpenAIUtils.analyze_cv_try (service env) text
    (if truthy (strip target_job_title) then target_job_title
     else current_job_title) job_description = Raise e ->
  (forall line, OpenAIUtils.print (service env) line = Return tt) ->
  exists (body : envelope) (w' : World) (row : Crud.CVSession),
    analyze_cv_complete env file current_job_title target_job_title
      job_description w = (Ok body, w')
    /\ success body = true
    /\ view_original_score (analysis body) = JInt 50
    /\ view_summary (analysis body)
       = JStr (if is_JSONDecodeError e
               then "Could not parse AI analysis response"
               else "Analysis failed: " ++ str e)
    /\ files w' = path :: files w
    /\ Crud.get_session (database w') (basename path) = Some row
    /\ Crud.original_score row = Some 50%Z
    /\ Crud.cv_text row = text.
Proof.
  intros Hsave Hext Hfree Hfail Hprint.
  assert (Hana :
    OpenAIUtils.analyze_cv (service env) text
      (if truthy (strip target_job_title) then target_job_title
       else current_job_title) job_description
    = Return (if is_JSONDecodeError e then OpenAIUtils.parsing_failed
              else OpenAIUtils.api_failed e)).
  { unfold OpenAIUtils.analyze_cv. rewrite Hfail. cbn [try_except].
    destruct (handlers_return (service env) text
                (if truthy (strip target_job_title) then target_job_title
                 else current_job_title) job_description e Hprint)
      as [-> ->].
    destruct (is_JSONDecodeError e); reflexivity. }
  rewrite <- (save_temp_file_success _ _ _ _ _ Hsave).
  destruct (is_JSONDecodeError e).
  - eexists; eexists; eexists. split.
    + etransitivity.
      * eapply analyze_cv_complete_stores;
          [exact Hsave|exact Hext|exact Hfree|exact Hana|reflexivity..].
      * reflexivity.
    + cbn [success analysis view_original_score view_summary files database].
      do 4 (split; [reflexivity|]).
      split; [apply stored_row_after_request; [exact Hfree|reflexivity]|].
      split; reflexivity.
  - eexists; eexists; eexists. split.
    + etransitivity.
      * eapply analyze_cv_complete_stores;
          [exact Hsave|exact Hext|exact Hfree|exact Hana|reflexivity..].
      * reflexivity.
    + cbn [success analysis view_original_score view_summary files database].
      do 4 (split; [reflexivity|]).
      split; [apply stored_row_after_request; [exact Hfree|reflexivity]|].
      split; reflexivity.
Qed.

(** X23 when the service cannot be reached. *)
Lemma service_failure_still_answers_witness :
  exists (body : envelope) (w' : World) (row : Crud.CVSession),
    analyze_cv_complete
      (Examples.request_env Examples.healthy_disk Examples.with_ocr
         Examples.service_down)
      (Utils.mkUpload (Some "cv.txt")) "Developer" "" "Need Python"
      Examples.empty_world = (Ok body, w')
    /\ success body = true
    /\ view_original_score (analysis body) = JInt 50
    /\ view_summary (analysis body)
       = JStr "Analysis failed: Connection error."
    /\ files w' = ["/tmp/tmpk3v9.txt"]
    /\ Crud.get_session (database w') "tmpk3v9.txt" = Some row
    /\ Crud.original_score row = Some 50%Z
    /\ Crud.cv_text row = "Jane Doe
Python Developer".
Proof.
  apply (service_failure_still_answers
           (Examples.request_env Examples.healthy_disk Examples.with_ocr
              Examples.service_down)
           (Utils.mkUpload (Some "cv.txt")) "Developer" "" "Need Python"
           Examples.empty_world "/tmp/tmpk3v9.txt" ["/tmp/tmpk3v9.txt"]
           "Jane Doe
Python Developer" "txt" (mkExn OtherException "Connection error."));
    reflexivity.
Defined.

(** X24.  A request that fails before a session is created leaves nothing
    behind.  (1) An upload without a file name is answered with status 500
    before any file is created.  (2) When the upload was saved and
    [extract_text] raises, the answer is 400 with the text of a
    [ValueError] and 500 with the prefixed text of any other exception.
    (3) When the text was extracted and the session id is taken, the answer
    is 500 with the prefixed text of the [IntegrityError], in the wording
    of the libraries.  In (2) and (3) the saved file is removed and the
    table is as it was. *)
Theorem early_failures_leave_no_trace (env : Env) (file : Utils.UploadFile)
    (current_job_title target_job_title job_description : string)
    (w : World) :
  (Utils.filename file = None ->
   analyze_cv_complete env file current_job_title target_job_title
     job_description w
   = (HTTPException 500
        "Analysis failed: expected str, bytes or os.PathLike object, not NoneType",
      mkWorld (files w) (database w)))
  /\ (forall (path : string) (fs' : Utils.FileSystem) (e : exn),
        Utils.save_temp_file (upload_io env) file (files w)
        = (Return path, fs') ->
        Utils.extract_text (extraction env) path = Raise e ->
        analyze_cv_complete env file current_job_title target_job_title
          job_description w
        = (if is_ValueError e then HTTPException 400 (str e)
           else HTTPException 500 ("Analysis failed: " ++ str e),
           mkWorld (Utils.remove path (files w)) (database w)))
  /\ (forall (path : string) (fs' : Utils.FileSystem) (text filetype : string)
             (row : Crud.CVSession),
        Utils.save_temp_file (upload_io env) file (files w)
        = (Return path, fs') ->
        Utils.extract_text (extraction env) path = Return (text, filetype) ->
        Crud.get_session (database w) (basename path) = Some row ->
        analyze_cv_complete env file current_job_title target_job_title
          job_description w
        = (HTTPException 500
             ("Analysis failed: "
              ++ Crud.integrity_error_text (driver env)
                   (Crud.mkSession (basename path) text filetype (Some path)
                      None None None None None None None None None None None
                      None (utcnow env 0) (utcnow env 1))),
           mkWorld (Utils.remove path (files w)) (database w))).
Proof.
  split; [|split].
  - intro Hname.
    unfold analyze_cv_complete, analyze_cv_complete_try, Utils.save_temp_file.
    rewrite Hname. reflexivity.
  - intros path fs' e Hsave Hext.
    pose proof (save_temp_file_success _ _ _ _ _ Hsave) as ->.
    unfold analyze_cv_complete, analyze_cv_complete_try.
    rewrite Hsave. cbv beta iota. rewrite Hext. cbv beta iota.
    rewrite cleanup_after_save. destruct (is_ValueError e); reflexivity.
  - intros path fs' text filetype row Hsave Hext Htaken.
    pose proof (save_temp_file_success _ _ _ _ _ Hsave) as ->.
    unfold analyze_cv_complete, analyze_cv_complete_try.
    rewrite Hsave. cbv beta iota. rewrite Hext. cbv beta iota zeta.
    unfold Crud.create_session. cbv zeta.
    destruct (existsb (fun s => Crud.id s =? basename path) (database w))
      eqn:E.
    + cbv beta iota. rewrite cleanup_after_save. reflexivity.
    + apply get_session_none in E. rewrite E in Htaken. discriminate Htaken.
Qed.

(** X24 on an upload whose temporary name is the id of a session that is
    in the table. *)
Lemma early_failures_leave_no_trace_witness :
  analyze_cv_complete
    (Examples.request_env Examples.healthy_disk Examples.with_ocr
       Examples.empty_object_reply)
    (Utils.mkUpload (Some "cv.txt")) "Developer" "" "Need Python"
    (mkWorld [] [Examples.uploaded "tmpk3v9.txt" 0])
  = (HTTPException 500
       ("Analysis failed: "
        ++ Crud.integrity_error_text Examples.sqlite
             (Crud.mkSession "tmpk3v9.txt" "Jane Doe
Python Developer" "txt" (Some "/tmp/tmpk3v9.txt") None None None None None None
                None None None None None None 0 1)),
     mkWorld [] [Examples.uploaded "tmpk3v9.txt" 0]).
Proof.
  apply (proj2 (proj2 (early_failures_leave_no_trace
                         (Examples.request_env Examples.healthy_disk
                            Examples.with_ocr Examples.empty_object_reply)
                         (Utils.mkUpload (Some "cv.txt")) "Developer" ""
                         "Need Python"
                         (mkWorld [] [Examples.uploaded "tmpk3v9.txt" 0])))
           "/tmp/tmpk3v9.txt" ["/tmp/tmpk3v9.txt"] "Jane Doe
Python Developer" "txt" (Examples.uploaded "tmpk3v9.txt" 0));
    reflexivity.
Defined.

(** X28.  A request that fails after the session was created leaves the
    row behind and removes the file the row points to.  When the upload
    was saved, its text extracted and the session id is free, then (1) an
    exception that leaves [analyze_cv] -- one its handler raised while
    printing -- is answered with 400 when it is a [ValueError], as a
    [UnicodeEncodeError] is, and with 500 otherwise; (2) a score that does
    not fit the INTEGER column is answered with 500 and the text of the
    [OverflowError].  In both cases the saved file is removed, and the
    table has gained the row of the upload, not analyzed, whose
    [cv_file_path] is the path of that file. *)
Theorem late_failures_leave_the_row (env : Env) (file : Utils.UploadFile)
    (current_job_title target_job_title job_description : string) (w : World)
    (path : string) (fs' : Utils.FileSystem) (text filetype : string) :
  Utils.save_temp_file (upload_io env) file (files w) = (Return path, fs') ->
  Utils.extract_text (extraction env) path = Return (text, filetype) ->
  Crud.get_session (database w) (basename path) = None ->
  let created :=
    (database w
     ++ [Crud.mkSession (basename path) text filetype (Some path)
           None None None None None None None None None None None
           None (utcnow env 0) (utcnow env 1)])%list in
  (forall e : exn,
     OpenAIUtils.analyze_cv (service env) text
       (if truthy (strip target_job_title) then target_job_title
        else current_job_title) job_description = Raise e ->
     analyze_cv_complete env file current_job_title target_job_title
       job_description w
     = (if is_ValueError e then HTTPException 400 (str e)
        else HTTPException 500 ("Analysis failed: " ++ str e),
        mkWorld (Utils.remove path (files w)) created))
  /\ (forall (score summary missing_skills strengths experience_gaps
               recommendations : json)
            (score' : option Z) (ms st eg recs : option (list string))
            (sm : option string),
        OpenAIUtils.analyze_cv (service env) text
          (if truthy (strip target_job_title) then target_job_title
           else current_job_title) job_description
        = Return (score, missing_skills, summary, strengths, experience_gaps,
                  recommendations) ->
        as_int score = Some score' ->
        as_str_list missing_skills = Some ms ->
        as_str_list strengths = Some st ->
        as_str_list experience_gaps = Some eg ->
        as_str_list recommendations = Some recs ->
        as_str summary = Some sm ->
        Crud.fits_INTEGER score' = false ->
        analyze_cv_complete env file current_job_title target_job_title
          job_description w
        = (HTTPException 500
             ("Analysis failed: " ++ Crud.overflow_error_text (driver env)),
           mkWorld (Utils.remove path (files w)) created)).
Proof.
  intros Hsave Hext Hfree created. split.
  - intros e Hana.
    pose proof (save_temp_file_success _ _ _ _ _ Hsave) as Hfs. subst fs'.
    unfold analyze_cv_complete, analyze_cv_complete_try.
    rewrite Hsave. cbv beta iota. rewrite Hext. cbv beta iota zeta.
    unfold Crud.create_session. cbv zeta.
    rewrite (proj1 (get_session_none _ _) Hfree).
    cbv beta iota zeta. rewrite Hana. cbv beta iota.
    rewrite cleanup_after_save. destruct (is_ValueError e); reflexivity.
  - intros score summary missing_skills strengths experience_gaps
      recommendations score' ms st eg recs sm Hana Hscore Hms Hst Heg Hrecs
      Hsm Hfits.
    pose proof (analyze_cv_complete_stores env file current_job_title
                  target_job_title job_description w path fs' text filetype
                  score summary missing_skills strengths experience_gaps
                  recommendations score' ms st eg recs sm
                  Hsave Hext Hfree Hana Hscore Hms Hst Heg Hrecs Hsm) as H.
    cbv zeta in H. rewrite Hfits in H. exact H.
Qed.

(** X28 on a reply whose score is 2^63. *)
Lemma late_failures_leave_the_row_witness :
  analyze_cv_complete
    (Examples.request_env Examples.healthy_disk Examples.with_ocr
       Examples.score_too_large_reply)
    (Utils.mkUpload (Some "cv.txt")) "Developer" "" "Need Python"
    Examples.empty_world
  = (HTTPException 500
       ("Analysis failed: " ++ Crud.overflow_error_text Examples.sqlite),
     mkWorld []
       [Crud.mkSession "tmpk3v9.txt" "Jane Doe
Python Developer" "txt" (Some "/tmp/tmpk3v9.txt") None None None None None None
          None None None None None None 0 1]).
Proof.
  apply (proj2 (late_failures_leave_the_row
                  (Examples.request_env Examples.healthy_disk
                     Examples.with_ocr Examples.score_too_large_reply)
                  (Utils.mkUpload (Some "cv.txt")) "Developer" ""
                  "Need Python" Examples.empty_world
                  "/tmp/tmpk3v9.txt" ["/tmp/tmpk3v9.txt"] "Jane Doe
Python Developer" "txt" eq_refl eq_refl eq_refl)
           (JInt 9223372036854775808) (JStr "Analysis incomplete") (JList [])
           (JList []) (JList []) (JList []) (Some 9223372036854775808%Z)
           (Some []) (Some []) (Some []) (Some []) (Some "Analysis incomplete"));
    reflexivity.
Defined.

(** What the condition of X7 excludes happens here: a reply whose score is
    null is answered as a success, and the row it leaves has a job title
    and no score. *)
Example null_reply_leaves_half_a_row :
  let outcome :=
    analyze_cv_complete
      (Examples.request_env Examples.healthy_disk Examples.with_ocr
         Examples.null_score_reply)
      (Utils.mkUpload (Some "cv.txt")) "Developer" "" "Need Python"
      Examples.empty_world in
  match fst outcome with
  | Ok body => view_original_score (analysis body) = JNull
  | HTTPException _ _ => False
  end
  /\ map Crud.job_title (database (snd outcome)) = [Some "Developer"]
  /\ map Crud.original_score (database (snd outcome)) = [None]
  /\ map Crud.whole (database (snd outcome)) = [false].
Proof. vm_compute. repeat split. Qed.


End Requests.
